(** * MDP task-2 coordinator (task2.py): sensors, sequencer, navigation

    A shallow embedding of the parts of [task2.py] that drive the robot:
    the shared queues and the movement lock, the processes
    [command_follower], [recv_stm], [rpi_action] and [recv_android], the
    ultrasonic polling loop [set_us_flag], and the phases of
    [fastest_car] that compute commands.

    Queues are lists with the front at the head.  Blocking calls are
    guards of the step function; Python exceptions are explicit
    outcomes; sleeps are recorded but carry no duration.  The follower
    is interleaved with the other processes at each of its blocking
    calls; one pass of the loop of any other process is one step.
    Sensor samples, messages from the links and HTTP results are inputs
    of the functions that read them. *)

From Stdlib Require Import ZArith List Bool String Ascii Lia DecimalString.
From Stdlib Require Import Floats.
Import ListNotations.
Open Scope string_scope.
Open Scope list_scope.
Open Scope Z_scope.

(** ** Python values and built-ins used by the source *)

Module Py.

(** [command.startswith(prefixes)] with a tuple of prefixes. *)
Definition startswith_any (prefixes : list string) (s : string) : bool :=
  existsb (fun p => String.prefix p s) prefixes.

Definition startswith (p s : string) : bool := String.prefix p s.

(** [s.replace(old, new)] for a non-empty [old]: occurrences are
    replaced from the left and do not overlap.  [skip] counts the
    characters of a matched occurrence still to be dropped. *)
Fixpoint replace_from (old new : string) (skip : nat) (s : string) : string :=
  match s with
  | EmptyString => EmptyString
  | String c rest =>
      match skip with
      | S k => replace_from old new k rest
      | O =>
          if String.prefix old s
          then (new ++ replace_from old new (Nat.pred (String.length old)) rest)%string
          else String c (replace_from old new O rest)
      end
  end.

Definition replace (old new s : string) : string := replace_from old new O s.

(** The format spec [:02d]: decimal digits, sign included in the width,
    padded with zeros to two characters. *)
Definition format_02d (n : Z) : string :=
  if n <? 0 then NilZero.string_of_int (Z.to_int n)
  else if n <? 10 then ("0" ++ NilZero.string_of_int (Z.to_int n))%string
  else NilZero.string_of_int (Z.to_int n).

(** [int(x)] for a float [x]: truncation toward zero; [None] stands for
    the [ValueError] Python raises on nan and the [OverflowError] it
    raises on an infinity. *)
Definition int_of_float (x : float) : option Z :=
  match Prim2SF x with
  | S754_zero _ => Some 0
  | S754_finite sgn m e =>
      let mag := if 0 <=? e then Zpos m * 2 ^ e else Zpos m / 2 ^ (- e) in
      Some (if sgn then - mag else mag)
  | S754_infinity _ => None
  | S754_nan => None
  end.

(** What a C float cell ([Value('f', ...)]) holds after a Python float
    is assigned to it: the value rounded to binary32, to nearest with
    ties to even, an infinity beyond the range; nan, the infinities and
    the zeros stay as they are. *)
Definition c_float (x : float) : float :=
  match Prim2SF x with
  | S754_finite s m e => SF2Prim (binary_round 24 128 s m e)
  | _ => x
  end.

(** [repr(s)] for a str of code points below 256, one per character:
    single quotes unless the string holds one and no double quote; the
    quote and the backslash are escaped, tab, newline and return get
    their letters, and what [str.isprintable] turns down is written in
    hexadecimal. *)
Definition hex_digit (n : nat) : ascii :=
  if Nat.ltb n 10 then ascii_of_nat (48 + n) else ascii_of_nat (87 + n).

Definition isprintable (n : nat) : bool :=
  ((Nat.leb 32 n && Nat.ltb n 127)
   || (Nat.leb 161 n && negb (Nat.eqb n 173)))%bool.

Definition repr_char (quote c : ascii) : string :=
  let n := nat_of_ascii c in
  if (Ascii.eqb c quote || Ascii.eqb c "092")%bool
  then String "092" (String c EmptyString)
  else if Nat.eqb n 9 then String "092" "t"
  else if Nat.eqb n 10 then String "092" "n"
  else if Nat.eqb n 13 then String "092" "r"
  else if isprintable n then String c EmptyString
  else String "092"
         (String "x"
            (String (hex_digit (Nat.div n 16))
               (String (hex_digit (Nat.modulo n 16)) EmptyString))).

Fixpoint contains (c : ascii) (s : string) : bool :=
  match s with
  | EmptyString => false
  | String d rest => (Ascii.eqb d c || contains c rest)%bool
  end.

Fixpoint repr_chars (quote : ascii) (s : string) : string :=
  match s with
  | EmptyString => EmptyString
  | String c rest => (repr_char quote c ++ repr_chars quote rest)%string
  end.

Definition repr (s : string) : string :=
  let quote : ascii :=
    if (contains "'" s && negb (contains "034" s))%bool then "034"%char
    else "'"%char in
  String quote (repr_chars quote s ++ String quote EmptyString).

(** [max(l)] on a list of ints; [None] stands for the [ValueError]
    raised on an empty list. *)
Definition max (l : list Z) : option Z :=
  match l with
  | [] => None
  | x :: rest => Some (fold_left Z.max rest x)
  end.

(** A store into a [Value('i')] cell: a C int, kept modulo 2^32. *)
Definition c_int (n : Z) : Z := (n + 2 ^ 31) mod 2 ^ 32 - 2 ^ 31.

(** [s.title()] on ASCII text: a letter that follows a letter is
    lowered, every other letter is raised. *)
Definition upper (c : ascii) : ascii :=
  let n := nat_of_ascii c in
  if (Nat.leb 97 n && Nat.leb n 122)%bool then ascii_of_nat (n - 32) else c.

Definition lower (c : ascii) : ascii :=
  let n := nat_of_ascii c in
  if (Nat.leb 65 n && Nat.leb n 90)%bool then ascii_of_nat (n + 32) else c.

Definition is_alpha (c : ascii) : bool :=
  let n := nat_of_ascii c in
  ((Nat.leb 97 n && Nat.leb n 122) || (Nat.leb 65 n && Nat.leb n 90))%bool.

Fixpoint title_from (after_letter : bool) (s : string) : string :=
  match s with
  | EmptyString => EmptyString
  | String c rest =>
      String (if after_letter then lower c else upper c)
             (title_from (is_alpha c) rest)
  end.

Definition title (s : string) : string := title_from false s.

End Py.

(** ** The ultrasonic polling loop, [set_us_flag] *)

Module Ultrasonic.

(** The local counter of the loop ([obstacle_count_long] is only touched
    by commented-out code) together with the two shared cells it
    writes.  [compensate_ydist] is a C float: it holds the sample
    narrowed to binary32, while the test of the loop reads the sample
    itself. *)
Record us_state := mk_us {
  obstacle_count_short : Z;
  ultrasonic_is_clear : Z;
  compensate_ydist : float
}.

Definition us_init : us_state :=
  mk_us 0 1 0%float.

(** One pass of the [while True] body, for the sample [dist] returned by
    [sensors.distance()]. *)
Definition set_us_flag_iter (st : us_state) (dist : float) : us_state :=
  let st1 :=
    if (dist <=? 28.0)%float
    then mk_us (obstacle_count_short st + 1) (ultrasonic_is_clear st)
           (Py.c_float dist)
    else mk_us 0 1 (Py.c_float dist) in
  if obstacle_count_short st1 =? 2
  then mk_us (obstacle_count_short st1) 0 (compensate_ydist st1)
  else st1.

Definition set_us_flag (samples : list float) : us_state :=
  fold_left set_us_flag_iter samples us_init.

(** A sample that the loop counts towards "blocked". *)
Definition counts_as_near (d : float) : bool := (d <=? 28.0)%float.

(** The reading of the design text: a sample counts towards "blocked"
    when it is below the threshold, and one at or above it clears. *)
Definition below_threshold (d : float) : bool := (d <? 28.0)%float.
Definition at_or_above_threshold (d : float) : bool := (28.0 <=? d)%float.

(** The two most recent samples both satisfy [p]. *)
Definition last_two (p : float -> bool) (samples : list float) : bool :=
  match rev samples with
  | b :: a :: _ => p a && p b
  | _ => false
  end.

(** Length of the run of near samples that ends the sequence, on the
    reversed sequence (newest first). *)
Fixpoint near_run (newest_first : list float) : Z :=
  match newest_first with
  | [] => 0
  | d :: older => if counts_as_near d then near_run older + 1 else 0
  end.

End Ultrasonic.

(** ** Shared state of the coordinator *)

Module Coordinator.

(** The value of an [AndroidMessage]: a text, or the location dict built
    by [recv_stm]. *)
Inductive payload :=
| Text (s : string)
| Location (x y d : Z).

Record AndroidMessage := mk_msg { msg_cat : string; msg_value : payload }.

Record PiAction := mk_action { cat : string; value : string }.

(** An entry of [path_queue]: the dict with keys "d", "s", "x", "y". *)
Record Waypoint := mk_waypoint { wp_d : Z; wp_s : Z; wp_x : Z; wp_y : Z }.

Inductive level := Debug | Info | Warning | Error.

(** Traffic on [stm_link], oldest first.  A send is tagged with its
    origin: the forwarding branch of [command_follower], which keeps the
    movement lock after the send, or any other call of
    [stm_link.send]. *)
Inductive wire :=
| TxCommand (m : string)
| TxDirect (m : string)
| Rx (m : string).

Record Shared := mk_shared {
  robot_mode : Z;                        (* 0: manual, 1: path *)
  unpause : bool;                        (* the Event is set *)
  movement_lock : bool;                  (* true: held *)
  android_queue : list AndroidMessage;
  rpi_action_queue : list PiAction;
  command_queue : list string;
  path_queue : list Waypoint;
  stm_link : list wire;
  logger : list (level * string)
}.

Definition with_robot_mode (v : Z) (s : Shared) : Shared :=
  mk_shared v (unpause s) (movement_lock s) (android_queue s)
    (rpi_action_queue s) (command_queue s) (path_queue s) (stm_link s)
    (logger s).
Definition with_unpause (v : bool) (s : Shared) : Shared :=
  mk_shared (robot_mode s) v (movement_lock s) (android_queue s)
    (rpi_action_queue s) (command_queue s) (path_queue s) (stm_link s)
    (logger s).
Definition with_movement_lock (v : bool) (s : Shared) : Shared :=
  mk_shared (robot_mode s) (unpause s) v (android_queue s)
    (rpi_action_queue s) (command_queue s) (path_queue s) (stm_link s)
    (logger s).
Definition with_android_queue (v : list AndroidMessage) (s : Shared) : Shared :=
  mk_shared (robot_mode s) (unpause s) (movement_lock s) v
    (rpi_action_queue s) (command_queue s) (path_queue s) (stm_link s)
    (logger s).
Definition with_rpi_action_queue (v : list PiAction) (s : Shared) : Shared :=
  mk_shared (robot_mode s) (unpause s) (movement_lock s) (android_queue s)
    v (command_queue s) (path_queue s) (stm_link s) (logger s).
Definition with_command_queue (v : list string) (s : Shared) : Shared :=
  mk_shared (robot_mode s) (unpause s) (movement_lock s) (android_queue s)
    (rpi_action_queue s) v (path_queue s) (stm_link s) (logger s).
Definition with_path_queue (v : list Waypoint) (s : Shared) : Shared :=
  mk_shared (robot_mode s) (unpause s) (movement_lock s) (android_queue s)
    (rpi_action_queue s) (command_queue s) v (stm_link s) (logger s).
Definition with_stm_link (v : list wire) (s : Shared) : Shared :=
  mk_shared (robot_mode s) (unpause s) (movement_lock s) (android_queue s)
    (rpi_action_queue s) (command_queue s) (path_queue s) v (logger s).
Definition with_logger (v : list (level * string)) (s : Shared) : Shared :=
  mk_shared (robot_mode s) (unpause s) (movement_lock s) (android_queue s)
    (rpi_action_queue s) (command_queue s) (path_queue s) (stm_link s) v.

(** *** Code that may raise: a state and exception monad *)

Inductive exn :=
| RuntimeError (m : string)      (* release of an unlocked lock *)
| QueueEmpty                     (* queue.Empty *)
| ValueError (m : string)
| OverflowError (m : string)
| PyException (m : string).      (* raise Exception(...) *)

Inductive outcome (A : Type) :=
| Ret (a : A) (s : Shared)
| Raise (e : exn) (s : Shared).
Arguments Ret {A} a s.
Arguments Raise {A} e s.

Definition M (A : Type) : Type := Shared -> outcome A.

Definition ret {A} (a : A) : M A := fun s => Ret a s.

Definition bind {A B} (c : M A) (k : A -> M B) : M B :=
  fun s => match c s with
           | Ret a s' => k a s'
           | Raise e s' => Raise e s'
           end.

Definition raise {A} (e : exn) : M A := fun s => Raise e s.

(** [try: body / except Exception: handler]: every exception of the
    model is an [Exception]. *)
Definition try_except {A} (body : M A) (handler : M A) : M A :=
  fun s => match body s with
           | Ret a s' => Ret a s'
           | Raise _ s' => handler s'
           end.

Notation "x <- c ;; k" := (bind c (fun x => k))
  (at level 61, c at next level, right associativity).
Notation "c ;; k" := (bind c (fun _ => k))
  (at level 61, right associativity).

Definition log (l : level) (m : string) : M unit :=
  fun s => Ret tt (with_logger (logger s ++ [(l, m)]) s).

Definition android_put (m : AndroidMessage) : M unit :=
  fun s => Ret tt (with_android_queue (android_queue s ++ [m]) s).

Definition action_put (a : PiAction) : M unit :=
  fun s => Ret tt (with_rpi_action_queue (rpi_action_queue s ++ [a]) s).

Definition command_put (c : string) : M unit :=
  fun s => Ret tt (with_command_queue (command_queue s ++ [c]) s).

Definition path_put (w : Waypoint) : M unit :=
  fun s => Ret tt (with_path_queue (path_queue s ++ [w]) s).

Definition path_get_nowait : M Waypoint :=
  fun s => match path_queue s with
           | [] => Raise QueueEmpty s
           | w :: rest => Ret w (with_path_queue rest s)
           end.

Definition command_queue_empty : M bool :=
  fun s => Ret (match command_queue s with [] => true | _ => false end) s.

(** [movement_lock.release()]: raises on a lock that is not held. *)
Definition lock_release : M unit :=
  fun s => if movement_lock s
           then Ret tt (with_movement_lock false s)
           else Raise (RuntimeError "release unlocked lock") s.

Definition stm_send_command (m : string) : M unit :=
  fun s => Ret tt (with_stm_link (stm_link s ++ [TxCommand m]) s).

Definition stm_send (m : string) : M unit :=
  fun s => Ret tt (with_stm_link (stm_link s ++ [TxDirect m]) s).

Definition stm_received (m : string) : M unit :=
  fun s => Ret tt (with_stm_link (stm_link s ++ [Rx m]) s).

Definition get_mode : M Z := fun s => Ret (robot_mode s) s.
Definition set_mode (v : Z) : M unit := fun s => Ret tt (with_robot_mode v s).
Definition set_unpause (v : bool) : M unit :=
  fun s => Ret tt (with_unpause v s).

(** [while not q.empty(): q.get()] *)
Fixpoint drain {A} (q : list A) : list A :=
  match q with
  | [] => []
  | _ :: rest => drain rest
  end.

Definition clear_queues : M unit :=
  fun s => Ret tt (with_path_queue (drain (path_queue s))
                     (with_command_queue (drain (command_queue s)) s)).

Fixpoint for_each {A} (l : list A) (body : A -> M unit) : M unit :=
  match l with
  | [] => ret tt
  | x :: rest => body x ;; for_each rest body
  end.

(** *** [command_follower]: the body after the lock is acquired *)

Definition stm32_prefixes : list string :=
  ["FS"; "BS"; "FW"; "BW"; "FL"; "FR"; "BL"; "BR"; "TL"; "TR"; "IR";
   "A"; "C"; "DT"; "STOP"; "ZZ"].

Definition dispatch (command : string) : M unit :=
  if Py.startswith_any stm32_prefixes command then
    stm_send_command command
  else if Py.startswith "WN" command then
    android_put (mk_msg "status" (Text "running")) ;;
    android_put (mk_msg "info" (Text "Starting robot on fastest car!"))
  else if Py.startswith "SNAP" command then
    action_put (mk_action "snap" (Py.replace "SNAP" "" command))
  else if Py.startswith "MANSNAP" command then
    action_put (mk_action "snap" "99")
  else if Py.startswith "NOOP" command then
    lock_release
  else if String.eqb command "FIN" then
    stm_send "ZZ01" ;;
    set_unpause false ;;
    lock_release ;;
    log Info "Commands queue finished." ;;
    android_put (mk_msg "info" (Text "Commands queue finished.")) ;;
    android_put (mk_msg "status" (Text "finished")) ;;
    action_put (mk_action "stitch" "")
  else
    raise (PyException ("Unknown command: " ++ command)%string).

(** *** [recv_stm]: one pass of the loop, for the message received *)

Definition recv_stm_iter (message : string) : M unit :=
  stm_received message ;;
  if Py.startswith "ACK" message then
    try_except
      (lock_release ;;
       log Debug "ACK from STM32 received, movement lock released." ;;
       mode <- get_mode ;;
       if mode =? 1 then
         temp <- path_get_nowait ;;
         android_put
           (mk_msg "location" (Location (wp_x temp) (wp_y temp) (wp_d temp)))
       else if String.eqb message "ACK|X" then
         log Debug "Fastest car ACK received from STM32!" ;;
         android_put (mk_msg "info" (Text "Robot has completed fastest car!")) ;;
         android_put (mk_msg "status" (Text "finished"))
       else ret tt)
      (log Warning "Tried to release a released lock!")
  else
    log Warning ("Ignored unknown message from STM: " ++ message)%string.

(** *** [rpi_action] and the operations it calls *)

Definition change_mode (new_mode : string) : M unit :=
  mode <- get_mode ;;
  if (String.eqb new_mode "manual" && (mode =? 0))%bool then
    android_put (mk_msg "error" (Text "Robot already in Manual mode.")) ;;
    log Warning "Robot already in Manual mode."
  else if (String.eqb new_mode "path" && (mode =? 1))%bool then
    android_put (mk_msg "error" (Text "Robot already in Path mode.")) ;;
    log Warning "Robot already in Path mode."
  else
    set_mode (if String.eqb new_mode "manual" then 0 else 1) ;;
    clear_queues ;;
    (if String.eqb new_mode "manual"
     then set_unpause true else set_unpause false) ;;
    try_except lock_release
      (log Warning "Tried to release a released lock!") ;;
    android_put
      (mk_msg "info"
         (Text ("Robot is now in " ++ Py.title new_mode ++ " mode.")%string)) ;;
    log Info ("Robot is now in " ++ Py.title new_mode ++ " mode.")%string ;;
    stm_send "ZZ01".

Definition navigate_path : list string :=
  ["DT20"; "SNAPS"; "NOOP";
   "FR00"; "FL00"; "FW30"; "BR00"; "FW10"; "SNAPE"; "NOOP";
   "FR00"; "FL00"; "FW30"; "BR00"; "FW10"; "SNAPN"; "NOOP";
   "FR00"; "FL00"; "FW30"; "BR00"; "FW10"; "SNAPW"; "NOOP";
   "FIN"].

Definition add_navigate_path : M unit :=
  clear_queues ;;
  for_each navigate_path
    (fun c => command_put c ;; path_put (mk_waypoint 0 (-1) 1 1)) ;;
  log Info "Navigate-around-obstacle path loaded. Robot is ready to move." ;;
  android_put
    (mk_msg "info"
       (Text "Navigate-around-obstacle path loaded. Robot is ready to move.")).

(** [request_stitch], for the status code of the GET. *)
Definition request_stitch (status_code : Z) : M unit :=
  if negb (status_code =? 200) then
    android_put
      (mk_msg "error"
         (Text "Something went wrong when requesting stitch from the API.")) ;;
    log Error "Something went wrong when requesting stitch from the API."
  else
    log Info "Images stitched!" ;;
    android_put (mk_msg "info" (Text "Images stitched!")).

(** One pass of the loop of [rpi_action], for the action taken from the
    queue. *)
Definition rpi_action_iter (action : PiAction) (stitch_status : Z) : M unit :=
  log Debug
    ("PiAction retrieved from queue: " ++ cat action ++ " " ++ value action)%string ;;
  if String.eqb (cat action) "mode" then change_mode (value action)
  else if String.eqb (cat action) "single-obstacle" then add_navigate_path
  else if String.eqb (cat action) "stitch" then request_stitch stitch_status
  else ret tt.

(** *** [recv_android]: one pass of the loop, for a decoded message *)

(** What the GET of [check_api] comes back with. *)
Inductive api_probe :=
| Status (code : Z)
| ConnectionError
| Timeout
| OtherException (e : string).

(** A status other than 200 falls off the end of the function: [None],
    which the caller tests like [False]. *)
Definition check_api (probe : api_probe) : M bool :=
  match probe with
  | Status code =>
      if code =? 200 then log Debug "API is up!" ;; ret true else ret false
  | ConnectionError => log Warning "API Connection Error" ;; ret false
  | Timeout => log Warning "API Timeout" ;; ret false
  | OtherException e =>
      log Warning ("API Exception: " ++ e)%string ;; ret false
  end.

(** The repr of the decoded dict, for a message made of the keys "cat"
    and "value" in this order, both holding strings. *)
Definition repr_message (c v : string) : string :=
  ("{'cat': " ++ Py.repr c ++ ", 'value': " ++ Py.repr v ++ "}")%string.

(** The result tells whether the pass calls [fastest_car], which then
    runs inside this process; its effects on the shared state are the
    navigation operations below. *)
Definition recv_android_iter (c v : string) (probe : api_probe) : M bool :=
  log Debug ("message: " ++ repr_message c v)%string ;;
  mode <- get_mode ;;
  if String.eqb c "mode" then
    action_put (mk_action c v) ;;
    log Debug ("Change mode PiAction added to queue: " ++ repr_message c v)%string ;;
    ret false
  else if String.eqb c "manual" then
    if mode =? 0 then
      if String.eqb v "FC01" then ret true
      else
        command_put v ;;
        log Debug ("Manual Movement added to command queue: " ++ v)%string ;;
        ret false
    else
      android_put
        (mk_msg "error" (Text "Manual movement not allowed in Path mode.")) ;;
      log Warning "Manual movement not allowed in Path mode." ;;
      ret false
  else if String.eqb c "obstacles" then
    if mode =? 1 then
      action_put (mk_action c v) ;;
      log Debug ("Set obstacles PiAction added to queue: " ++ repr_message c v)%string ;;
      ret false
    else
      android_put
        (mk_msg "error" (Text "Robot must be in Path mode to set obstacles.")) ;;
      log Warning "Robot must be in Path mode to set obstacles." ;;
      ret false
  else if String.eqb c "control" then
    if String.eqb v "start" then
      if mode =? 1 then
        up <- check_api probe ;;
        (if negb up then
           log Error "API is down! Start command aborted." ;;
           android_put
             (mk_msg "error" (Text "API is down, start command aborted.")) ;;
           stm_send "ZZ04"
         else ret tt) ;;
        empty <- command_queue_empty ;;
        if negb empty then
          set_unpause true ;;
          log Info "Start command received, starting robot on path!" ;;
          android_put (mk_msg "info" (Text "Starting robot on path!")) ;;
          android_put (mk_msg "status" (Text "running")) ;;
          ret false
        else
          log Warning "The command queue is empty, please set obstacles." ;;
          android_put
            (mk_msg "error"
               (Text "Command queue is empty, did you set obstacles?")) ;;
          ret false
      else
        android_put
          (mk_msg "error"
             (Text "Robot must be in Path mode to start robot on path.")) ;;
        log Warning "Robot must be in Path mode to start robot on path." ;;
        ret false
    else ret false
  else if String.eqb c "single-obstacle" then
    if mode =? 1 then
      action_put (mk_action c v) ;;
      log Debug ("Single-obstacle PiAction added to queue: " ++ repr_message c v)%string ;;
      ret false
    else
      android_put
        (mk_msg "error"
           (Text "Robot must be in Path mode to set single obstacle.")) ;;
      log Warning "Robot must be in Path mode to set single obstacle." ;;
      ret false
  else ret false.

(** *** The processes side by side *)

(** What a navigation phase of [fastest_car] does to the shared state,
    one call at a time. *)
Inductive nav_op :=
| Put (c : string)           (* command_queue.put(c) *)
| ClearQueues                (* clear_queues() *)
| Sleep (milliseconds : Z)   (* time.sleep *)
| Send (m : string).         (* stm_link.send(m) *)

Definition nav_apply (op : nav_op) : M unit :=
  match op with
  | Put c => command_put c
  | ClearQueues => clear_queues
  | Sleep _ => ret tt
  | Send m => stm_send m
  end.

(** Where [command_follower] stands in its loop. *)
Inductive follower_pc :=
| AtGet                            (* command_queue.get() *)
| AtAcquire (command : string)     (* movement_lock.acquire() *)
| AtDispatch (command : string)    (* the if/elif chain *)
| Terminated (e : exn).            (* the exception left the target *)

Inductive proc := Running | Crashed (e : exn).

Record Sys := mk_sys {
  shared : Shared;
  follower : follower_pc;
  listener : proc;          (* recv_stm *)
  dispatcher : proc;        (* rpi_action *)
  receiver : proc           (* recv_android *)
}.

(** One scheduling step.  Each event lets one process do its next
    operation on the shared state; the inputs from outside ride on the
    event. *)
Inductive event :=
| Android (c v : string) (probe : api_probe)
| Nav (op : nav_op)
| Stm (message : string)
| Follow
| Act (stitch_status : Z).

Definition settle {A} (o : outcome A) : Shared * proc :=
  match o with
  | Ret _ s => (s, Running)
  | Raise e s => (s, Crashed e)
  end.

(** [None]: the process is blocked (empty queue, held lock) or gone. *)
Definition step (s : Sys) (e : event) : option Sys :=
  let sh := shared s in
  match e with
  | Follow =>
      match follower s with
      | AtGet =>
          match command_queue sh with
          | [] => None
          | c :: rest =>
              Some (mk_sys (with_command_queue rest sh) (AtAcquire c)
                      (listener s) (dispatcher s) (receiver s))
          end
      | AtAcquire c =>
          if movement_lock sh then None
          else Some (mk_sys (with_movement_lock true sh) (AtDispatch c)
                       (listener s) (dispatcher s) (receiver s))
      | AtDispatch c =>
          match dispatch c sh with
          | Ret _ sh' =>
              Some (mk_sys sh' AtGet (listener s) (dispatcher s) (receiver s))
          | Raise x sh' =>
              Some (mk_sys sh' (Terminated x)
                      (listener s) (dispatcher s) (receiver s))
          end
      | Terminated _ => None
      end
  | Stm message =>
      match listener s with
      | Running =>
          let (sh', st) := settle (recv_stm_iter message sh) in
          Some (mk_sys sh' (follower s) st (dispatcher s) (receiver s))
      | Crashed _ => None
      end
  | Act stitch_status =>
      match dispatcher s, rpi_action_queue sh with
      | Running, action :: rest =>
          let (sh', st) :=
            settle (rpi_action_iter action stitch_status
                      (with_rpi_action_queue rest sh)) in
          Some (mk_sys sh' (follower s) (listener s) st (receiver s))
      | _, _ => None
      end
  | Android c v probe =>
      match receiver s with
      | Running =>
          let (sh', st) := settle (recv_android_iter c v probe sh) in
          Some (mk_sys sh' (follower s) (listener s) (dispatcher s) st)
      | Crashed _ => None
      end
  | Nav op =>
      match receiver s with
      | Running =>
          let (sh', st) := settle (nav_apply op sh) in
          Some (mk_sys sh' (follower s) (listener s) (dispatcher s) st)
      | Crashed _ => None
      end
  end.

Fixpoint run (s : Sys) (es : list event) : option Sys :=
  match es with
  | [] => Some s
  | e :: rest =>
      match step s e with
      | Some s' => run s' rest
      | None => None
      end
  end.

(** The state [start] leaves behind when both links are up and the API
    answers 200: the child processes are started and have not taken a
    step, and [start] has entered [reconnect_android]. *)
Definition started : Sys :=
  mk_sys
    (mk_shared 0 false false
       [mk_msg "info" (Text "You are connected to the RPi!");
        mk_msg "info" (Text "Robot is ready!");
        mk_msg "mode" (Text "manual")]
       [] [] []
       [TxDirect "ZZ02"]
       [(Debug, "API is up!"); (Info, "Child Processes started");
        (Info, "Reconnection handler is watching...")])
    AtGet Running Running Running.

(** *** Commands in flight *)

Definition is_ack (message : string) : bool := Py.startswith "ACK" message.

(** Forwarded commands since the last acknowledgement was received. *)
Definition in_flight_step (n : nat) (w : wire) : nat :=
  match w with
  | TxCommand _ => S n
  | TxDirect _ => n
  | Rx m => if is_ack m then O else n
  end.

Definition in_flight (link : list wire) : nat :=
  fold_left in_flight_step link O.

(** The commands forwarded by [command_follower], in the order sent. *)
Fixpoint forwarded (link : list wire) : list string :=
  match link with
  | [] => []
  | TxCommand m :: rest => m :: forwarded rest
  | _ :: rest => forwarded rest
  end.

(** *** Vocabulary of the sequencer and reference runs *)

Definition known_command (command : string) : bool :=
  Py.startswith_any stm32_prefixes command
  || Py.startswith "WN" command
  || Py.startswith "SNAP" command
  || Py.startswith "MANSNAP" command
  || Py.startswith "NOOP" command
  || String.eqb command "FIN".

(** The operator sends FIN and then FW10 in manual mode, and the
    follower goes through its loop twice. *)
Definition fin_then_forward : list event :=
  [Android "manual" "FIN" (Status 200);
   Android "manual" "FW10" (Status 200);
   Follow; Follow; Follow;
   Follow; Follow; Follow].

(** The follower has acquired the lock for a NOOP when a mode change is
    carried out by [rpi_action]; then the follower goes on. *)
Definition noop_across_mode_change : list event :=
  [Android "manual" "NOOP" (Status 200);
   Follow; Follow;
   Android "mode" "path" (Status 200);
   Act 200;
   Follow].

(** The same with FIN in place of NOOP. *)
Definition fin_across_mode_change : list event :=
  [Android "manual" "FIN" (Status 200);
   Follow; Follow;
   Android "mode" "path" (Status 200);
   Act 200;
   Follow].

(** FW10 is forwarded in manual mode; the operator switches to path mode
    and loads the single-obstacle path; the follower goes on.  No
    message arrives from the controller. *)
Definition forward_across_mode_change : list event :=
  [Android "manual" "FW10" (Status 200);
   Follow; Follow; Follow;
   Android "mode" "path" (Status 200);
   Act 200;
   Android "single-obstacle" "" (Status 200);
   Act 200;
   Follow; Follow; Follow].

(** Two manual commands, forwarded one after the other with the
    acknowledgement of the first in between. *)
Definition two_commands : list event :=
  [Android "manual" "FW10" (Status 200);
   Android "manual" "STOP" (Status 200);
   Follow; Follow; Follow;
   Stm "ACK";
   Follow; Follow; Follow].

(** An acknowledgement with no forwarded command to answer (that of the
    ZZ02 sent by [start], say) arrives between the follower's acquire
    and its send. *)
Definition stray_acknowledgement : list event :=
  [Android "manual" "FW10" (Status 200);
   Android "manual" "FW20" (Status 200);
   Follow; Follow;
   Stm "ACK";
   Follow;
   Follow; Follow; Follow].

(** *** Order of transmission *)

Inductive subseq {A : Type} : list A -> list A -> Prop :=
| subseq_nil : subseq [] []
| subseq_skip : forall x l1 l2, subseq l1 l2 -> subseq l1 (x :: l2)
| subseq_keep : forall x l1 l2, subseq l1 l2 -> subseq (x :: l1) (x :: l2).


(** The commands of the forwarding branch. *)
Definition forwards (command : string) : bool :=
  Py.startswith_any stm32_prefixes command.

(** What an event appends to [command_queue] while the robot is in
    manual mode: a manual command other than the trigger FC01, or a put
    of a navigation phase.  [Flight.puts_of] is the same for any mode. *)
Definition enqueued_by (e : event) : list string :=
  match e with
  | Android c v _ =>
      if (String.eqb c "manual" && negb (String.eqb v "FC01"))%bool
      then [v] else []
  | Nav (Put c) => [c]
  | _ => []
  end.

Definition is_mode_message (e : event) : bool :=
  match e with
  | Android c _ _ => String.eqb c "mode"
  | _ => false
  end.

Definition is_drain (e : event) : bool :=
  match e with
  | Nav ClearQueues => true
  | _ => false
  end.



(** The lock is held from the acquire until the acknowledgement of the
    command forwarded under it. *)
Definition lock_ok (s : Sys) : Prop :=
  let n := in_flight (stm_link (shared s)) in
  match follower s with
  | AtDispatch _ => movement_lock (shared s) = true /\ n = O
  | _ => n = O \/ (n = 1%nat /\ movement_lock (shared s) = true)
  end.

End Coordinator.

(** ** The phases of [fastest_car] *)

Module Navigation.
Import Coordinator.

(** A phase is embedded as the list of operations it performs on the
    shared state, given what it reads from the sensor cells. *)

Definition commands (ops : list nav_op) : list string :=
  flat_map (fun op => match op with Put c => [c] | _ => [] end) ops.

Definition puts (l : list string) : list nav_op := map Put l.

(** *** Clearing obstacle 1 *)

(** The arrow directions are values returned by [detect_arrow_image]: a
    string, or [None] when the image service did not answer 200.
    [is_ arrow_dir lit] is the test [arrow_dir == lit]. *)
Definition is_ (arrow_dir : option string) (lit : string) : bool :=
  match arrow_dir with
  | Some v => String.eqb v lit
  | None => false
  end.

Definition clear_first_obstacle (first_arrow_dir : option string)
  : list nav_op :=
  if is_ first_arrow_dir "38" then
    ClearQueues :: puts ["FR30"; "FL30"; "FL30"; "FR30"]
  else if is_ first_arrow_dir "39" then
    ClearQueues :: puts ["FL30"; "FR30"; "FR30"; "FL30"]
  else
    ClearQueues :: puts ["FR30"; "FL30"; "FL30"; "FR30"].

Definition right_script : list string := ["FR30"; "FL30"; "FL30"; "FR30"].
Definition left_script : list string := ["FL30"; "FR30"; "FR30"; "FL30"].

(** The operations of a phase carried out on the shared state with no
    other process in between. *)
Definition perform (ops : list nav_op) : M unit := for_each ops nav_apply.

(** *** Measuring the gap between the obstacles *)

Inductive result (A : Type) :=
| Done (a : A)
| Raised (e : exn).
Arguments Done {A} a.
Arguments Raised {A} e.

(** [int(x)] for a float: nan and the infinities raise, each its own
    exception. *)
Definition int (x : float) : result Z :=
  match Py.int_of_float x with
  | Some n => Done n
  | None =>
      match Prim2SF x with
      | S754_nan => Raised (ValueError "cannot convert float NaN to integer")
      | _ => Raised (OverflowError "cannot convert float infinity to integer")
      end
  end.

(** The loop [for i in range(5)] of [fastest_car].  The cell
    [compensate_ydist] is written by the polling thread all the while,
    so the pass number [i] reads it twice: [fst (cell i)] in the test and
    [snd (cell i)] in the append. *)
Fixpoint sample_gap (passes : list nat) (cell : nat -> float * float)
  (max_list : list Z) : result (list Z) :=
  match passes with
  | [] => Done max_list
  | i :: rest =>
      match int (fst (cell i)) with
      | Raised e => Raised e
      | Done tested =>
          if tested <? 150 then
            match int (snd (cell i)) with
            | Raised e => Raised e
            | Done appended => sample_gap rest cell (max_list ++ [appended])
            end
          else sample_gap rest cell max_list
      end
  end.

(** The value left in [between_obstacles_ydist].  [max(max_list)] is an
    int whenever it returns, so the test [is not None] holds and the
    assignment of 100 is never reached; on an empty list [max] raises. *)
Definition measure_gap (cell : nat -> float * float) : result Z :=
  match sample_gap (seq 0 5) cell [] with
  | Raised e => Raised e
  | Done max_list =>
      match Py.max max_list with
      | None => Raised (ValueError "max() arg is an empty sequence")
      | Some m =>
          let stored := match Some m with Some v => v | None => 100 end in
          Done (Py.c_int (Py.c_int stored + 70))
      end
  end.

(** A cell that holds still during each pass. *)
Definition steady (readings : list float) : nat -> float * float :=
  fun i => let v := nth i readings 0%float in (v, v).

(** *** Forward distances longer than one command *)

Definition fw (n : Z) : string := ("FW" ++ Py.format_02d n)%string.

(** The nest of tests that follows every computed distance in
    [clear_second_obstacle_p2] and [return_home]. *)
Definition put_forward (dist : Z) : list nav_op :=
  if dist <=? 99 then [Put (fw dist)]
  else
    Put "FW99" ::
    (let remaining_xdist := dist - 99 in
     if remaining_xdist <? 99 then [Put (fw remaining_xdist)]
     else
       Put "FW99" ::
       (let remaining_xdist := remaining_xdist - 99 in
        [Put (fw remaining_xdist)])).

(** The magnitudes of the commands of [put_forward]. *)
Definition forward_magnitudes (dist : Z) : list Z :=
  if dist <=? 99 then [dist]
  else if dist - 99 <? 99 then [99; dist - 99]
  else [99; 99; dist - 99 - 99].

Definition sum (l : list Z) : Z := fold_right Z.add 0 l.

(** *** Passing obstacle 2 by the proximity sensor *)

(** The [while True] loop shared by the four variants: [reads] are the
    values of the IR flag at each test; [None] when they run out while
    the loop is still going. *)
Fixpoint pass_loop (reads : list Z) (total_xdist : Z)
  : option (list nav_op * Z) :=
  match reads with
  | [] => None
  | r :: rest =>
      if r =? 0 then
        match pass_loop rest (Py.c_int (total_xdist + 10)) with
        | Some (ops, x) =>
            Some (Sleep 2000 :: Put "FW10" :: Sleep 3000 :: ops, x)
        | None => None
        end
      else Some ([], total_xdist)
  end.

Definition move_past_obstacle_irl (reads : list Z) (total_xdist : Z)
  : option (list nav_op * Z) :=
  match reads with
  | [] => None
  | r :: rest =>
      let (before, x1) :=
        if r =? 0
        then ([ClearQueues; Put "FW10"; Sleep 2000],
              Py.c_int (total_xdist + 10))
        else ([], total_xdist) in
      match pass_loop rest x1 with
      | Some (ops, x2) =>
          Some (before ++ ops ++ [Put "FW10"], Py.c_int (x2 + 10))
      | None => None
      end
  end.

Definition move_past_obstacle_irl_long (reads : list Z) (total_xdist : Z)
  : option (list nav_op * Z) :=
  match reads with
  | [] => None
  | r :: rest =>
      let (before, x1) :=
        if r =? 0
        then ([ClearQueues; Put "FW10"; Sleep 2000],
              Py.c_int (total_xdist + 10))
        else ([], total_xdist) in
      match pass_loop rest x1 with
      | Some (ops, x2) => Some (before ++ ops, x2)
      | None => None
      end
  end.

(** The right-hand variants run the same text on [ir_right_is_clear]. *)
Definition move_past_obstacle_irr := move_past_obstacle_irl.
Definition move_past_obstacle_irr_long := move_past_obstacle_irl_long.

(** The left IR flag reads "not clear" at thirteen tests in a row, then
    "clear". *)
Definition long_obstacle_reads : list Z := repeat 0 13 ++ [1].

(** *** Crossing to the perpendicular axis *)

Definition crossing_distance (total_xdist : Z) : Z :=
  let doubled_xdist := total_xdist * 2 + 30 in
  if total_xdist <=? 20 then doubled_xdist + 20 else doubled_xdist.

(** The three branches of [clear_second_obstacle_p2] differ in the turn
    and in the sensor of the closing pass only. *)
Definition p2_branch (turn : string)
  (pass : list Z -> Z -> option (list nav_op * Z))
  (total_xdist : Z) (ir_reads : list Z) : option (list nav_op * Z) :=
  match pass ir_reads total_xdist with
  | Some (ops, x) =>
      Some (Put turn ::
            put_forward (crossing_distance total_xdist)
            ++ Sleep 5000 :: ops, x)
  | None => None
  end.

Definition clear_second_obstacle_p2 (second_arrow_dir : option string)
  (total_xdist : Z) (ir_reads : list Z) : option (list nav_op * Z) :=
  match
    (if is_ second_arrow_dir "38" then
       p2_branch "FL30" move_past_obstacle_irl_long total_xdist ir_reads
     else if is_ second_arrow_dir "39" then
       p2_branch "FR30" move_past_obstacle_irr_long total_xdist ir_reads
     else
       p2_branch "FL30" move_past_obstacle_irl_long total_xdist ir_reads)
  with
  | Some (ops, x) => Some (Sleep 5000 :: ops, x)
  | None => None
  end.

(** *** Returning home *)

(** [int((total_xdist * 2) / 4)]: true division, then truncation. *)
Definition single_xdist (total_xdist : Z) : Z :=
  Z.quot (total_xdist * 2) 4 + 20.

(** The three branches of [return_home] differ in their turns only. *)
Definition home_branch (turn : string) (around : list string)
  (face_carpark : string) (ultrasonic_is_clear_samula : Z)
  (total_xdist : Z) : list nav_op :=
  ClearQueues :: Put turn ::
  Sleep 5000 ::
  (if ultrasonic_is_clear_samula =? 0
   then Sleep 3000 :: puts around ++ [Sleep 10000]
   else []) ++
  put_forward (single_xdist total_xdist) ++
  [Sleep 3000; Put face_carpark; Sleep 10000].

Definition return_home (second_arrow_dir : option string)
  (between_obstacles_ydist : Z) (ultrasonic_is_clear_samula : Z)
  (total_xdist : Z) : list nav_op :=
  let local_ydist := between_obstacles_ydist in
  Sleep 3000 ::
  put_forward local_ydist ++
  Sleep 5000 ::
  (if is_ second_arrow_dir "38" then
     home_branch "FL30" ["BL30"; "FW30"; "FL30"] "FR30"
       ultrasonic_is_clear_samula total_xdist
   else if is_ second_arrow_dir "39" then
     home_branch "FR30" ["BR30"; "FW30"; "FR30"] "FL30"
       ultrasonic_is_clear_samula total_xdist
   else
     home_branch "FL30" ["BL30"; "FW30"; "FL30"] "FR30"
       ultrasonic_is_clear_samula total_xdist).

End Navigation.

(** ** Further vocabulary for the coordinator *)

Module Protocol.
Import Coordinator.

(** The probe makes [check_api] return [True]. *)
Definition api_ok (probe : api_probe) : bool :=
  match probe with
  | Status code => code =? 200
  | _ => false
  end.

(** [change_mode] goes through with the transition: the requested mode
    is not the one the robot is in. *)
Definition transition (new_mode : string) (mode : Z) : bool :=
  negb (String.eqb new_mode "manual" && (mode =? 0))
  && negb (String.eqb new_mode "path" && (mode =? 1)).

Definition mode_after (new_mode : string) : Z :=
  if String.eqb new_mode "manual" then 0 else 1.

Definition location_of (w : Waypoint) : AndroidMessage :=
  mk_msg "location" (Location (wp_x w) (wp_y w) (wp_d w)).

Definition placeholder : Waypoint := mk_waypoint 0 (-1) 1 1.

(** The categories [recv_android] has a branch for. *)
Definition known_category (c : string) : bool :=
  existsb (String.eqb c)
    ["mode"; "manual"; "obstacles"; "control"; "single-obstacle"].

(** Events that neither bring an acknowledgement nor ask for a mode
    change. *)
Definition quiet (e : event) : bool :=
  match e with
  | Stm message => negb (is_ack message)
  | Android c _ _ => negb (String.eqb c "mode")
  | _ => true
  end.

Definition no_mode_action (a : PiAction) : bool :=
  negb (String.eqb (cat a) "mode").

Definition dispatching (pc : follower_pc) : bool :=
  match pc with
  | AtDispatch _ => true
  | _ => false
  end.

(** The follower has dispatched a SNAP command: the lock is held, the
    snap action waits in the action queue and more commands are queued. *)
Definition snap_pending : Sys :=
  mk_sys (mk_shared 0 false true [] [mk_action "snap" "S"]
            ["NOOP"; "FW10"] [] [TxDirect "ZZ02"] [])
    AtGet Running Running Running.

Definition busy_without_ack : list event :=
  [Act 200; Follow; Android "manual" "FW20" (Status 200);
   Stm "hello"; Nav (Put "STOP")].

(** DT20 has been forwarded in path mode and FW10 waits in the queue,
    with a waypoint for each. *)
Definition ack_burst_start : Sys :=
  mk_sys (mk_shared 1 true true [] [] ["FW10"]
            [mk_waypoint 2 0 5 7; placeholder] [TxCommand "DT20"] [])
    AtGet Running Running Running.

End Protocol.

(** ** What a step does to the lock and to the command queue *)

Module Flight.
Import Coordinator Protocol.

(** The action [rpi_action] takes next is a mode request that
    [change_mode] goes through with. *)
Definition front_transition (sh : Shared) : bool :=
  match rpi_action_queue sh with
  | a :: _ =>
      (String.eqb (cat a) "mode" && transition (value a) (robot_mode sh))%bool
  | [] => false
  end.

(** The action [rpi_action] takes next loads the single-obstacle path. *)
Definition front_loads_path (sh : Shared) : bool :=
  match rpi_action_queue sh with
  | a :: _ =>
      (negb (String.eqb (cat a) "mode")
       && String.eqb (cat a) "single-obstacle")%bool
  | [] => false
  end.

(** What [recv_android] puts on the command queue for a message: the
    value of a manual message in manual mode, the trigger FC01 apart. *)
Definition manual_put (c v : string) (mode : Z) : list string :=
  if (String.eqb c "manual" && (mode =? 0) && negb (String.eqb v "FC01"))%bool
  then [v] else [].

(** The commands a step puts on the command queue, in the state it is
    taken in. *)
Definition puts_of (s : Sys) (e : event) : list string :=
  match e with
  | Android c v _ => manual_put c v (robot_mode (shared s))
  | Nav (Put c) => [c]
  | Act _ => if front_loads_path (shared s) then navigate_path else []
  | _ => []
  end.

(** The step empties the command queue first: [clear_queues], called by
    a navigation phase, by a mode transition or by the path loader. *)
Definition drains (s : Sys) (e : event) : bool :=
  match e with
  | Nav ClearQueues => true
  | Act _ => front_transition (shared s) || front_loads_path (shared s)
  | _ => false
  end.

(** The step leaves the lock free: an acknowledgement handled by
    [recv_stm], a mode transition carried out by [rpi_action]. *)
Definition releases (s : Sys) (e : event) : bool :=
  match e with
  | Stm message => is_ack message
  | Act _ => front_transition (shared s)
  | _ => false
  end.

(** The releases that take the lock from under the follower: an
    acknowledgement between its acquire and the end of its branch, and a
    mode transition then or while a forwarded command is in flight. *)
Definition hazard (s : Sys) (e : event) : bool :=
  match e with
  | Stm message => is_ack message && dispatching (follower s)
  | Act _ =>
      front_transition (shared s)
      && (dispatching (follower s)
          || negb (Nat.eqb (in_flight (stm_link (shared s))) 0))
  | _ => false
  end.

Fixpoint hazard_free (s : Sys) (es : list event) : bool :=
  match es with
  | [] => true
  | e :: rest =>
      negb (hazard s e) &&
      match step s e with
      | Some s' => hazard_free s' rest
      | None => true
      end
  end.





(** The follower holds the lock for BW10, which it has not sent yet,
    when the controller acknowledges something else. *)
Definition ack_under_follower : Sys :=
  mk_sys (mk_shared 0 true true [] [] ["FW20"] [] [TxDirect "ZZ02"] [])
    (AtDispatch "BW10") Running Running Running.

End Flight.

(** ** The rest of the course: approach, classification, obstacle 2 *)

Module Course.
Import Coordinator Navigation.

(** The command queue after a list of operations when no other process
    touches it in between. *)
Fixpoint residue (ops : list nav_op) (queue : list string) : list string :=
  match ops with
  | [] => queue
  | Put c :: rest => residue rest (queue ++ [c])
  | ClearQueues :: rest => residue rest []
  | _ :: rest => residue rest queue
  end.

Definition drain_free (ops : list nav_op) : bool :=
  forallb (fun op => match op with ClearQueues => false | _ => true end) ops.

(** *** Driving until the front flag drops *)

(** The busy loop on [ultrasonic_is_clear]: [reads] are the values of
    the flag at each test; [None] when they run out before one is 0.
    The timer of [move_until_obstacle_us] and its sum [total_ytime],
    which no live code reads, are left out. *)
Fixpoint wait_blocked (reads : list Z) : option (list nav_op) :=
  match reads with
  | [] => None
  | r :: rest =>
      if r =? 0 then Some [ClearQueues; Put "STOP"] else wait_blocked rest
  end.

Definition move_until_obstacle_us (reads : list Z) : option (list nav_op) :=
  match reads with
  | [] => None
  | r :: rest =>
      match wait_blocked rest with
      | Some ops =>
          Some ((if r =? 1 then [ClearQueues; Put "FW--"] else []) ++ ops)
      | None => None
      end
  end.

Definition return_home_2 (reads : list Z) : option (list nav_op) :=
  match reads with
  | [] => None
  | r :: rest =>
      match wait_blocked rest with
      | Some ops => Some ((if r =? 1 then [Put "FW--"] else []) ++ ops)
      | None => None
      end
  end.

(** *** Classification *)

(** The answer of the image service: its status and, for a 200 of the
    server of [image_rec/main.py], the "image_id" of the body. *)
Record response := mk_response { status_code : Z; image_id : string }.

(** The name under which the image is posted, for the clock read
    [int(time.time())]. *)
Definition image_filename (now : Z) (obstacle_id : string) : string :=
  (NilZero.string_of_int (Z.to_int now) ++ "_" ++ obstacle_id ++ ".jpg")%string.

(** The result is the returned value with the new value of the global
    [arrow_dir]. *)
Definition snap_and_rec_2 (obstacle_id : string) (resp : response)
  (arrow_dir : string) : M (option string * string) :=
  log Info "Image captured. Calling image-rec api..." ;;
  log Debug "Requesting from image API" ;;
  if negb (status_code resp =? 200) then
    log Error
      "Something went wrong when requesting path from image-rec API. Please try again." ;;
    android_put
      (mk_msg "error"
         (Text "Something went wrong when requesting path from image-rec API. Please try again.")) ;;
    ret (None, arrow_dir)
  else
    ret (Some (image_id resp), image_id resp).

Definition detect_arrow_image (resp : response) (arrow_dir : string)
  : M (option string * string) :=
  let obstacle_id := "_1_obstacle" in
  snap_and_rec_2 obstacle_id resp arrow_dir.

Definition detect_arrow_image_filename (now : Z) : string :=
  image_filename now "_1_obstacle".

(** *** Obstacle 2, parts 1 and 3 *)

(** The step back when the obstacle is nearer than 15: [compensate] is
    the cell [compensate_ydist] at the test and at the conversion. *)
Definition back_off (compensate : float * float) : result (list nav_op) :=
  if (fst compensate <? 15.0)%float then
    match int (snd compensate) with
    | Raised e => Raised e
    | Done n =>
        let dist_to_move := 27 - n in
        if dist_to_move >=? 0 then Done [Put "BW05"; Sleep 2000] else Done []
    end
  else Done [].

(** [None] inside: the pass by the IR flag is still going. *)
Definition p1_branch (first_turn : string)
  (pass : list Z -> Z -> option (list nav_op * Z)) (along : list string)
  (compensate : float * float) (ir_reads : list Z) (total_xdist : Z)
  : result (option (list nav_op * Z)) :=
  match back_off compensate with
  | Raised e => Raised e
  | Done back =>
      Done
        match pass ir_reads total_xdist with
        | Some (ops, x) =>
            Some (Sleep 5000 :: back ++
                  ClearQueues :: Put first_turn :: Sleep 10000 ::
                  ops ++ Sleep 5000 :: puts along, x)
        | None => None
        end
  end.

Definition clear_second_obstacle_p1 (second_arrow_dir : option string)
  (compensate : float * float) (ir_reads : list Z) (total_xdist : Z)
  : result (option (list nav_op * Z)) :=
  if is_ second_arrow_dir "38" then
    p1_branch "FR30" move_past_obstacle_irl ["FL30"; "FW10"]
      compensate ir_reads total_xdist
  else if is_ second_arrow_dir "39" then
    p1_branch "FL30" move_past_obstacle_irr ["FR30"; "FW10"]
      compensate ir_reads total_xdist
  else
    p1_branch "FR30" move_past_obstacle_irl ["FL30"; "FW10"]
      compensate ir_reads total_xdist.

Definition clear_second_obstacle_p3 (second_arrow_dir : option string)
  : list nav_op :=
  Sleep 5000 ::
  (if is_ second_arrow_dir "38" then puts ["FL30"]
   else if is_ second_arrow_dir "39" then puts ["FR30"]
   else puts ["FL30"]).

(** *** Readings of the gap *)

(** The cell converts to the integer [nth i ns 0] at both reads of pass
    [i], for each of the five passes. *)
Definition reads_as (cell : nat -> float * float) (ns : list Z) : Prop :=
  List.length ns = 5%nat /\
  forall i, (i < 5)%nat ->
    Py.int_of_float (fst (cell i)) = Some (nth i ns 0) /\
    Py.int_of_float (snd (cell i)) = Some (nth i ns 0).

Definition qualifying (ns : list Z) : list Z :=
  filter (fun n => n <? 150) ns.

(** *** Left and right *)

(** A turn command with left and right exchanged; any other command as
    it is. *)
Definition mirror (c : string) : string :=
  match c with
  | String a (String b rest) =>
      if (Ascii.eqb a "F" || Ascii.eqb a "B")%bool then
        if Ascii.eqb b "L" then String a (String "R" rest)
        else if Ascii.eqb b "R" then String a (String "L" rest)
        else c
      else c
  | _ => c
  end.

Definition mirror_op (op : nav_op) : nav_op :=
  match op with
  | Put c => Put (mirror c)
  | _ => op
  end.

Definition mirror_ops (r : option (list nav_op * Z))
  : option (list nav_op * Z) :=
  match r with
  | Some (ops, x) => Some (map mirror_op ops, x)
  | None => None
  end.

Definition mirror_result (r : result (option (list nav_op * Z)))
  : result (option (list nav_op * Z)) :=
  match r with
  | Done o => Done (mirror_ops o)
  | Raised e => Raised e
  end.

(** The FW10 commands among the puts. *)
Definition steps_forward (ops : list nav_op) : Z :=
  Z.of_nat (count_occ string_dec (commands ops) "FW10").

End Course.

(** ** [outdoorsify] *)

Module Outdoor.

(** [s[:n]] *)
Definition slice_to (n : nat) (s : string) : string := substring 0 n s.

Definition outdoorsify (original : string) : string :=
  if existsb (String.eqb original) ["FL00"; "FR00"; "BL00"; "BR00"] then
    (slice_to 2 original ++ "20")%string
  else if Py.startswith "FW" original then Py.replace "FW" "FS" original
  else if Py.startswith "BW" original then Py.replace "BW" "BS" original
  else original.

End Outdoor.

(** ** The image server's [image_predict] (image_rec/main.py) *)

Module ImageServer.

(** [s.split(sep)] for a separator of one character. *)
Fixpoint split (sep : ascii) (s : string) : list string :=
  match s with
  | EmptyString => [EmptyString]
  | String c rest =>
      if Ascii.eqb c sep then EmptyString :: split sep rest
      else
        match split sep rest with
        | [] => [String c EmptyString]
        | first :: others => String c first :: others
        end
  end.

Fixpoint mem (c : ascii) (chars : string) : bool :=
  match chars with
  | EmptyString => false
  | String d rest => (Ascii.eqb c d || mem c rest)%bool
  end.

Fixpoint lstrip (chars s : string) : string :=
  match s with
  | EmptyString => EmptyString
  | String c rest => if mem c chars then lstrip chars rest else s
  end.

Fixpoint rstrip (chars s : string) : string :=
  match s with
  | EmptyString => EmptyString
  | String c rest =>
      match rstrip chars rest with
      | EmptyString => if mem c chars then EmptyString else String c EmptyString
      | kept => String c kept
      end
  end.

(** [s.strip(chars)]: the characters of [chars] are taken off both
    ends, one by one. *)
Definition strip (chars s : string) : string := lstrip chars (rstrip chars s).

Fixpoint count (c : ascii) (s : string) : nat :=
  match s with
  | EmptyString => O
  | String d rest => (if Ascii.eqb d c then 1 else 0) + count c rest
  end.

Fixpoint last_char (s : string) : option ascii :=
  match s with
  | EmptyString => None
  | String c EmptyString => Some c
  | String _ rest => last_char rest
  end.

Definition first_char (s : string) : option ascii :=
  match s with
  | EmptyString => None
  | String c _ => Some c
  end.

Inductive reply :=
| Result (obstacle_id image_id : string)    (* the JSON object returned *)
| IndexError                                (* list index out of range *)
| SaveError (e : string).                   (* raised by file.save *)

(** The directory of line 31. *)
Definition uploads : string := "/Users/hippoeug/Desktop/MDP/image_rec/uploads".

(** [os.path.join(a, b)] of [posixpath]: an absolute [b] replaces [a]. *)
Definition path_join (a b : string) : string :=
  if Py.startswith "/" b then b
  else if (String.eqb a ""
             || match last_char a with Some c => Ascii.eqb c "/" | None => false end)%bool
       then (a ++ b)%string
       else (a ++ "/" ++ b)%string.

(** The handler, for the name of the uploaded file.  [predict_image] is
    the function of the module [model], with its argument [model] fixed
    to the [None] of the file.  [save] is what [file.save] does with the
    path it is given: [None] when the file is written, the name of the
    exception it raises otherwise (an [OSError] for a path that cannot
    be opened, such as the directory itself for an empty name, or a
    [ValueError] for a null byte in the name).  The save comes first, so
    its exception leaves the handler before the name is taken apart. *)
Definition image_predict (predict_image : string -> string -> string)
  (save : string -> option string) (filename : string) : reply :=
  match save (path_join uploads filename) with
  | Some e => SaveError e
  | None =>
      let constituents := split "_" filename in
      match nth_error constituents 1 with
      | None => IndexError
      | Some obstacle_id =>
          match nth_error constituents 2 with
          | None => IndexError
          | Some third =>
              let signal := strip ".jpg" third in
              let image_id := predict_image filename signal in
              Result obstacle_id image_id
          end
      end
  end.

End ImageServer.

(** ** The operator link: [android_sender] and [reconnect_android] *)

Module Operator.
Import Coordinator.

Record state := mk_state {
  sys : Sys;
  sent : list AndroidMessage;      (* delivered by android_link.send *)
  android_dropped : bool           (* the Event is set *)
}.

Definition with_shared (sh : Shared) (s : Sys) : Sys :=
  mk_sys sh (follower s) (listener s) (dispatcher s) (receiver s).

(** One pass of [android_sender]: [send_ok] tells whether
    [android_link.send] returns or raises [OSError].  On an empty queue
    the [get] times out and the pass is over. *)
Definition android_sender_iter (send_ok : bool) (st : state) : state :=
  let sh := shared (sys st) in
  match android_queue sh with
  | [] => st
  | message :: rest =>
      let sh' := with_android_queue rest sh in
      if send_ok then
        mk_state (with_shared sh' (sys st)) (sent st ++ [message])
          (android_dropped st)
      else
        mk_state
          (with_shared
             (with_logger (logger sh' ++ [(Debug, "Event set: Android dropped")])
                sh')
             (sys st))
          (sent st) true
  end.

Definition android_sender (outcomes : list bool) (st : state) : state :=
  fold_left (fun st ok => android_sender_iter ok st) outcomes st.

(** The shared state after one pass of the loop of [reconnect_android],
    with both links answering. *)
Definition reconnect_effects : M unit :=
  log Error "Android link is down!" ;;
  stm_send "ZZ03" ;;
  log Debug "Killing android child processes" ;;
  log Debug "Android child processes killed" ;;
  log Info "Android child processes restarted" ;;
  android_put (mk_msg "info" (Text "You are reconnected!")) ;;
  mode <- get_mode ;;
  android_put (mk_msg "mode" (Text (if mode =? 1 then "path" else "manual"))) ;;
  stm_send "ZZ02".

(** One pass of [reconnect_android]: it waits for the event ([None]),
    kills and restarts the two android processes, which are running
    afresh afterwards, and clears the event. *)
Definition reconnect_android_pass (st : state) : option state :=
  if android_dropped st then
    match reconnect_effects (shared (sys st)) with
    | Ret _ sh' =>
        Some (mk_state
                (mk_sys sh' (follower (sys st)) (listener (sys st))
                   (dispatcher (sys st)) Running)
                (sent st) false)
    | Raise _ _ => None
    end
  else None.

(** The messages whose send succeeded, and whether one failed. *)
Fixpoint delivered_of (queue : list AndroidMessage) (outcomes : list bool)
  : list AndroidMessage :=
  match queue, outcomes with
  | m :: rest, ok :: more =>
      if ok then m :: delivered_of rest more else delivered_of rest more
  | _, _ => []
  end.

End Operator.

(** ** The proximity flags: [readL], [readR], [set_irl_flag], [set_irr_flag] *)

Module Proximity.

(** [sensors.readL] and [sensors.readR], for the level of the pin. *)
Definition read (gpio_level : Z) : Z :=
  if negb (gpio_level =? 0) then 1 else 0.

(** One pass of the loop of [set_irl_flag] (and of [set_irr_flag], which
    is the same text on the other pin and the other cell): the new
    value of the flag. *)
Definition set_ir_flag_iter (ir_is_clear : Z) (gpio_level : Z) : Z :=
  let wall := read gpio_level in
  if negb (wall =? 0) then 1 else 0.

Definition set_ir_flag (ir_is_clear : Z) (gpio_levels : list Z) : Z :=
  fold_left set_ir_flag_iter gpio_levels ir_is_clear.

End Proximity.

(** * Properties *)

(** ** The phases of [fastest_car] *)

Module NavigationFacts.
Import Coordinator Navigation.

Lemma drain_nil : forall (A : Type) (q : list A), drain q = [].
Proof. induction q as [|x q IH]; [reflexivity | exact IH]. Qed.

Lemma perform_clear_then_puts : forall script sh,
  exists sh',
    perform (ClearQueues :: puts script) sh = Ret tt sh' /\
    command_queue sh' = script /\ path_queue sh' = [].
Proof.
  intros script sh. unfold perform. cbn [for_each nav_apply].
  unfold bind at 1. unfold clear_queues. rewrite !drain_nil.
  set (sh0 := with_path_queue [] (with_command_queue [] sh)).
  assert (Hgen : forall l sh1, exists sh',
            for_each (puts l) nav_apply sh1 = Ret tt sh' /\
            command_queue sh' = command_queue sh1 ++ l /\
            path_queue sh' = path_queue sh1).
  { induction l as [|c l IH]; intros sh1.
    - exists sh1. cbn. rewrite app_nil_r. repeat split; reflexivity.
    - cbn [puts map for_each nav_apply]. unfold bind, command_put.
      destruct (IH (with_command_queue (command_queue sh1 ++ [c]) sh1))
        as [sh' [Hrun [Hq Hp]]].
      exists sh'. split; [exact Hrun|]. split.
      + rewrite Hq. cbn. rewrite <- app_assoc. reflexivity.
      + rewrite Hp. reflexivity. }
  destruct (Hgen script sh0) as [sh' [Hrun [Hq Hp]]].
  exists sh'. split; [exact Hrun|]. split; [exact Hq | exact Hp].
Qed.

Lemma commands_clear_then_puts : forall script,
  commands (ClearQueues :: puts script) = script.
Proof.
  intros script. unfold commands. cbn [flat_map app].
  induction script as [|c l IH]; [reflexivity|].
  cbn [puts map flat_map app]. f_equal. exact IH.
Qed.

(** C3: for every classification result, [clear_first_obstacle] empties
    the queues and enqueues exactly the script of its branch: "39"
    selects the left script [FL30, FR30, FR30, FL30]; "38" and every
    other value, [None] included, select the right script
    [FR30, FL30, FL30, FR30]. *)
Theorem clear_first_obstacle_selects :
  forall (first_arrow_dir : option string) (sh : Shared),
    let script :=
      if is_ first_arrow_dir "39" then left_script else right_script in
    commands (clear_first_obstacle first_arrow_dir) = script /\
    exists sh',
      perform (clear_first_obstacle first_arrow_dir) sh = Ret tt sh' /\
      command_queue sh' = script /\ path_queue sh' = [].
Proof.
  intros dir sh script.
  assert (Hsel : clear_first_obstacle dir = ClearQueues :: puts script).
  { unfold clear_first_obstacle, script.
    destruct (is_ dir "38") eqn:E38.
    - destruct dir as [v|]; [|discriminate]. cbn in E38.
      apply String.eqb_eq in E38. subst v. reflexivity.
    - destruct (is_ dir "39"); reflexivity. }
  rewrite Hsel. split.
  - apply commands_clear_then_puts.
  - apply perform_clear_then_puts.
Qed.

Example clear_first_obstacle_38 :
  commands (clear_first_obstacle (Some "38")) = ["FR30"; "FL30"; "FL30"; "FR30"].
Proof. reflexivity. Qed.

Example clear_first_obstacle_39 :
  commands (clear_first_obstacle (Some "39")) = ["FL30"; "FR30"; "FR30"; "FL30"].
Proof. reflexivity. Qed.

Example clear_first_obstacle_garbled :
  commands (clear_first_obstacle (Some "bullseye")) = ["FR30"; "FL30"; "FL30"; "FR30"]
  /\ commands (clear_first_obstacle None) = ["FR30"; "FL30"; "FL30"; "FR30"].
Proof. split; reflexivity. Qed.

(** *** The gap between the obstacles *)

Lemma sample_gap_none_qualifies : forall cell passes max_list,
  (forall i, In i passes ->
     exists n, Py.int_of_float (fst (cell i)) = Some n /\ 150 <= n) ->
  sample_gap passes cell max_list = Done max_list.
Proof.
  intros cell passes. induction passes as [|i rest IH]; intros max_list H.
  - reflexivity.
  - cbn [sample_gap]. destruct (H i (or_introl eq_refl)) as [n [Hn Hge]].
    unfold int. rewrite Hn.
    destruct (n <? 150) eqn:E; [apply Z.ltb_lt in E; lia|].
    apply IH. intros j Hj. apply H. right. exact Hj.
Qed.

(** C4 (the code departs from it): when none of the five readings is
    below 150, the list handed to [max] is empty and the phase raises
    [ValueError]; the assignment of the default 100 is not reached. *)
Theorem measure_gap_without_sample_raises : forall cell,
  (forall i, In i (seq 0 5) ->
     exists n, Py.int_of_float (fst (cell i)) = Some n /\ 150 <= n) ->
  measure_gap cell = Raised (ValueError "max() arg is an empty sequence").
Proof.
  intros cell H. unfold measure_gap.
  rewrite (sample_gap_none_qualifies cell (seq 0 5) [] H). reflexivity.
Qed.

Lemma measure_gap_without_sample_raises_witness :
  measure_gap
    (steady [160.0%float; 160.0%float; 160.0%float; 160.0%float; 160.0%float])
  = Raised (ValueError "max() arg is an empty sequence").
Proof.
  apply measure_gap_without_sample_raises.
  intros i Hi. exists 160. cbn in Hi.
  destruct Hi as [<-|[<-|[<-|[<-|[<-|[]]]]]]; split; (reflexivity || lia).
Defined.

(** Readings 10, 160, 30, 200, 40 leave 40 + 70 in the cell. *)
Example measure_gap_scenario :
  measure_gap
    (steady [10.0%float; 160.0%float; 30.0%float; 200.0%float; 40.0%float])
  = Done 110.
Proof. reflexivity. Qed.

(** The cell is read again for the append: a reading that moved past 150
    between the test and the append is stored all the same. *)
Example measure_gap_moving_cell :
  measure_gap (fun i => (149.0%float, 400.0%float)) = Done 470.
Proof. reflexivity. Qed.

(** *** Splitting a distance into forward commands *)

Lemma put_forward_magnitudes : forall dist,
  put_forward dist = map (fun m => Put (fw m)) (forward_magnitudes dist).
Proof.
  intros dist. unfold put_forward, forward_magnitudes.
  destruct (dist <=? 99); [reflexivity|].
  destruct (dist - 99 <? 99); reflexivity.
Qed.

Lemma forward_magnitudes_sum : forall dist,
  sum (forward_magnitudes dist) = dist.
Proof.
  intros dist. unfold forward_magnitudes, sum.
  destruct (dist <=? 99); [cbn [fold_right]; lia|].
  destruct (dist - 99 <? 99); cbn [fold_right]; lia.
Qed.

(** Up to 297 the three commands suffice. *)
Lemma forward_magnitudes_capped : forall dist,
  dist <= 297 -> Forall (fun m => m <= 99) (forward_magnitudes dist).
Proof.
  intros dist Hd. unfold forward_magnitudes.
  destruct (dist <=? 99) eqn:E1.
  - apply Z.leb_le in E1. repeat constructor. exact E1.
  - destruct (dist - 99 <? 99) eqn:E2.
    + apply Z.ltb_lt in E2. repeat constructor; lia.
    + repeat constructor; lia.
Qed.

Lemma forward_magnitudes_capped_iff : forall dist,
  Forall (fun m => m <= 99) (forward_magnitudes dist) <-> dist <= 297.
Proof.
  intros dist. split; [|apply forward_magnitudes_capped].
  unfold forward_magnitudes.
  destruct (dist <=? 99) eqn:E1.
  - apply Z.leb_le in E1. intros _. lia.
  - destruct (dist - 99 <? 99) eqn:E2.
    + apply Z.ltb_lt in E2. intros _. lia.
    + intros H. inversion H as [|? ? _ H1]; subst.
      inversion H1 as [|? ? _ H2]; subst.
      inversion H2 as [|? ? H3 _]; subst. lia.
Qed.

(** C8 (the code departs from it): with 140 in [total_xdist], reached
    after thirteen blocked IR tests in part 1, part 2 crosses by 310 and
    enqueues FW99, FW99 and FW112: the third magnitude is above 99.  The
    sum is the distance in every case. *)
Theorem crossing_exceeds_cap :
  (exists ops, move_past_obstacle_irl long_obstacle_reads 0 = Some (ops, 140)) /\
  crossing_distance 140 = 310 /\
  forward_magnitudes 310 = [99; 99; 112] /\
  (exists x,
     option_map (fun r => (commands (fst r), snd r))
       (clear_second_obstacle_p2 (Some "38") 140 [1; 1])
     = Some (["FL30"; "FW99"; "FW99"; "FW112"], x)) /\
  ~ Forall (fun m => m <= 99) (forward_magnitudes (crossing_distance 140)).
Proof.
  split; [eexists; reflexivity|].
  split; [reflexivity|]. split; [reflexivity|].
  split; [eexists; reflexivity|].
  rewrite forward_magnitudes_capped_iff. cbn. lia.
Qed.

(** The gap distance, at most 149 + 70, stays within three commands. *)
Lemma gap_distance_capped : forall g,
  g <= 149 + 70 ->
  Forall (fun m => m <= 99) (forward_magnitudes g) /\
  sum (forward_magnitudes g) = g.
Proof.
  intros g Hg. split.
  - apply forward_magnitudes_capped. lia.
  - apply forward_magnitudes_sum.
Qed.

End NavigationFacts.

(** ** The sequencer, the listener and the dispatcher *)

Module CoordinatorFacts.
Import Coordinator.

Lemma known_command_false : forall c,
  known_command c = false ->
  Py.startswith_any stm32_prefixes c = false /\
  Py.startswith "WN" c = false /\
  Py.startswith "SNAP" c = false /\
  Py.startswith "MANSNAP" c = false /\
  Py.startswith "NOOP" c = false /\
  String.eqb c "FIN" = false.
Proof.
  unfold known_command. intros c H.
  do 5 (apply orb_false_elim in H; destruct H as [H ?]).
  repeat split; assumption.
Qed.

(** Only a [Follow] event moves the follower. *)
Lemma step_keeps_follower : forall s e s',
  e <> Follow -> step s e = Some s' -> follower s' = follower s.
Proof.
  intros s e s' He Hstep. destruct e; try congruence; cbn in Hstep.
  - destruct (receiver s); [|discriminate].
    destruct (settle _) in Hstep. now inversion Hstep.
  - destruct (receiver s); [|discriminate].
    destruct (settle _) in Hstep. now inversion Hstep.
  - destruct (listener s); [|discriminate].
    destruct (settle _) in Hstep. now inversion Hstep.
  - destruct (dispatcher s); [|discriminate].
    destruct (rpi_action_queue (shared s)); [discriminate|].
    destruct (settle _) in Hstep. now inversion Hstep.
Qed.

Lemma terminated_stays : forall es s x s',
  follower s = Terminated x ->
  run s es = Some s' ->
  ~ In Follow es /\ follower s' = Terminated x.
Proof.
  induction es as [|e es IH]; intros s x s' Hf Hrun.
  - cbn in Hrun. inversion Hrun; subst. split; [intros []|exact Hf].
  - cbn [run] in Hrun. destruct (step s e) as [s1|] eqn:Hstep; [|discriminate].
    assert (He : e <> Follow).
    { intros ->. cbn in Hstep. rewrite Hf in Hstep. discriminate. }
    assert (Hf1 : follower s1 = Terminated x).
    { rewrite (step_keeps_follower s e s1 He Hstep). exact Hf. }
    destruct (IH s1 x s' Hf1 Hrun) as [Hno Hend].
    split; [|exact Hend].
    intros [Heq|Hin]; [congruence | exact (Hno Hin)].
Qed.

(** C6: a command outside the vocabulary makes the follower raise
    [Exception("Unknown command: ...")] and its task ends: nothing is
    sent, queued or logged by that pass, and the follower never takes
    another step, whatever the other processes do. *)
Theorem unknown_command_is_fatal : forall s c,
  follower s = AtDispatch c ->
  known_command c = false ->
  exists s',
    step s Follow = Some s' /\
    shared s' = shared s /\
    follower s' = Terminated (PyException ("Unknown command: " ++ c)%string) /\
    step s' Follow = None /\
    forall es s'', run s' es = Some s'' ->
      ~ In Follow es /\ follower s'' = follower s'.
Proof.
  intros s c Hpc Hunknown.
  destruct (known_command_false c Hunknown)
    as [H1 [H2 [H3 [H4 [H5 H6]]]]].
  assert (Hd : dispatch c (shared s)
               = Raise (PyException ("Unknown command: " ++ c)%string) (shared s)).
  { unfold dispatch. rewrite H1, H2, H3, H4, H5, H6. reflexivity. }
  exists (mk_sys (shared s)
            (Terminated (PyException ("Unknown command: " ++ c)%string))
            (listener s) (dispatcher s) (receiver s)).
  split.
  - unfold step. rewrite Hpc, Hd. reflexivity.
  - split; [reflexivity|]. split; [reflexivity|]. split; [reflexivity|].
    intros es s'' Hrun.
    refine (terminated_stays es _ _ s'' _ Hrun). reflexivity.
Qed.

Lemma unknown_command_is_fatal_witness :
  exists s',
    step (mk_sys (shared started) (AtDispatch "XX99") Running Running Running)
      Follow = Some s' /\
    shared s' = shared started /\
    follower s' = Terminated (PyException "Unknown command: XX99").
Proof.
  destruct (unknown_command_is_fatal
              (mk_sys (shared started) (AtDispatch "XX99") Running Running Running)
              "XX99" eq_refl eq_refl)
    as [s' [H1 [H2 [H3 _]]]].
  exists s'. split; [exact H1|]. split; [exact H2 | exact H3].
Defined.

(** *** The end-of-path marker *)

(** What the FIN branch does when the lock is held, as it is right after
    the follower acquired it. *)
Lemma dispatch_fin : forall sh,
  movement_lock sh = true ->
  dispatch "FIN" sh =
  Ret tt
    (mk_shared (robot_mode sh) false false
       (android_queue sh ++
          [mk_msg "info" (Text "Commands queue finished.");
           mk_msg "status" (Text "finished")])
       (rpi_action_queue sh ++ [mk_action "stitch" ""])
       (command_queue sh) (path_queue sh)
       (stm_link sh ++ [TxDirect "ZZ01"])
       (logger sh ++ [(Info, "Commands queue finished.")])).
Proof.
  intros sh Hlock. destruct sh as [m u l aq rq cq pq w lg].
  cbn in Hlock. subst l. cbn. rewrite <- app_assoc. reflexivity.
Qed.

(** C5 (the code departs from it): FIN sends ZZ01, clears [unpause],
    releases the lock and queues the stitch action, but the follower
    does not wait on [unpause]: with FW10 queued behind FIN, FW10 is
    taken from the queue and forwarded while [unpause] is clear. *)
Theorem fin_does_not_stop_dequeues :
  exists s,
    run started fin_then_forward = Some s /\
    stm_link (shared s) = [TxDirect "ZZ02"; TxDirect "ZZ01"; TxCommand "FW10"] /\
    unpause (shared s) = false /\
    rpi_action_queue (shared s) = [mk_action "stitch" ""] /\
    command_queue (shared s) = [] /\
    movement_lock (shared s) = true /\
    follower s = AtGet.
Proof.
  eexists. split; [vm_compute; reflexivity|].
  vm_compute. repeat split.
Qed.

(** *** Snap actions *)

(** C9: a SNAP or MANSNAP command becomes a [PiAction] of category
    "snap", and [rpi_action] takes such an action from its queue and
    does nothing with it beyond the debug line: no message is queued,
    nothing is sent, no queue or flag changes. *)
Theorem snap_action_is_discarded :
  (forall c sh,
     Py.startswith_any stm32_prefixes c = false ->
     Py.startswith "WN" c = false ->
     Py.startswith "SNAP" c = true ->
     dispatch c sh =
     Ret tt (with_rpi_action_queue
               (rpi_action_queue sh ++ [mk_action "snap" (Py.replace "SNAP" "" c)])
               sh)) /\
  (forall c sh,
     Py.startswith_any stm32_prefixes c = false ->
     Py.startswith "WN" c = false ->
     Py.startswith "SNAP" c = false ->
     Py.startswith "MANSNAP" c = true ->
     dispatch c sh =
     Ret tt (with_rpi_action_queue
               (rpi_action_queue sh ++ [mk_action "snap" "99"]) sh)) /\
  (forall s v rest stitch_status,
     dispatcher s = Running ->
     rpi_action_queue (shared s) = mk_action "snap" v :: rest ->
     step s (Act stitch_status) =
     Some (mk_sys
             (with_logger
                (logger (shared s) ++
                   [(Debug, ("PiAction retrieved from queue: snap " ++ v)%string)])
                (with_rpi_action_queue rest (shared s)))
             (follower s) (listener s) Running (receiver s))).
Proof.
  split; [|split].
  - intros c sh H1 H2 H3. unfold dispatch. rewrite H1, H2, H3. reflexivity.
  - intros c sh H1 H2 H3 H4. unfold dispatch. rewrite H1, H2, H3, H4.
    reflexivity.
  - intros s v rest status Hrun Hq. cbn. rewrite Hrun, Hq. reflexivity.
Qed.

Lemma snap_action_is_discarded_witness :
  dispatch "SNAPS" (shared started) =
    Ret tt (with_rpi_action_queue [mk_action "snap" "S"] (shared started)) /\
  dispatch "MANSNAP" (shared started) =
    Ret tt (with_rpi_action_queue [mk_action "snap" "99"] (shared started)) /\
  step (mk_sys (with_rpi_action_queue [mk_action "snap" "S"] (shared started))
          AtGet Running Running Running) (Act 200) =
    Some (mk_sys
            (with_logger
               (logger (shared started) ++
                  [(Debug, "PiAction retrieved from queue: snap S")])
               (shared started))
            AtGet Running Running Running).
Proof.
  split; [|split].
  - exact (proj1 snap_action_is_discarded "SNAPS" (shared started)
             eq_refl eq_refl eq_refl).
  - exact (proj1 (proj2 snap_action_is_discarded) "MANSNAP" (shared started)
             eq_refl eq_refl eq_refl eq_refl).
  - exact (proj2 (proj2 snap_action_is_discarded)
             (mk_sys (with_rpi_action_queue [mk_action "snap" "S"] (shared started))
                AtGet Running Running Running)
             "S" [] 200 eq_refl eq_refl).
Defined.

(** *** Releasing the movement lock *)

(** The listener's pass returns for every message and every state: the
    release and the waypoint lookup sit inside its [try]. *)
Lemma recv_stm_iter_returns : forall message sh,
  exists sh',
    recv_stm_iter message sh = Ret tt sh' /\
    (is_ack message = true -> movement_lock sh' = false).
Proof.
  intros message [m u l aq rq cq pq w lg]. unfold recv_stm_iter, is_ack.
  destruct (Py.startswith "ACK" message).
  - destruct l, (m =? 1) eqn:Em, pq as [|wp pq],
      (String.eqb message "ACK|X") eqn:Ex;
      unfold bind, stm_received, try_except, lock_release, log, get_mode,
        path_get_nowait, android_put, ret;
      cbn; rewrite ?Em, ?Ex; cbn; eexists; (split; [reflexivity|]);
      reflexivity.
  - eexists. split; [reflexivity|]. discriminate.
Qed.

(** So does [change_mode]. *)
Lemma change_mode_returns : forall new_mode sh,
  exists sh', change_mode new_mode sh = Ret tt sh'.
Proof.
  intros new_mode [m u l aq rq cq pq w lg]. unfold change_mode.
  unfold bind at 1. unfold get_mode. cbn [robot_mode].
  destruct (String.eqb new_mode "manual" && (m =? 0))%bool;
    [eexists; reflexivity|].
  destruct (String.eqb new_mode "path" && (m =? 1))%bool;
    [eexists; reflexivity|].
  destruct (String.eqb new_mode "manual"), l; eexists; reflexivity.
Qed.

(** On a lock that is not held, the release of [recv_stm] and that of
    [change_mode] end in their handler: the warning is logged and the
    pass goes on. *)
Lemma recv_stm_release_guarded : forall message sh,
  is_ack message = true ->
  movement_lock sh = false ->
  recv_stm_iter message sh =
  Ret tt (with_logger
            (logger sh ++ [(Warning, "Tried to release a released lock!")])
            (with_stm_link (stm_link sh ++ [Rx message]) sh)).
Proof.
  intros message [m u l aq rq cq pq w lg] Hack Hl. cbn in Hl. subst l.
  unfold is_ack in Hack. unfold recv_stm_iter. rewrite Hack. reflexivity.
Qed.

Lemma change_mode_release_guarded : forall sh,
  robot_mode sh = 0 ->
  movement_lock sh = false ->
  exists sh',
    change_mode "path" sh = Ret tt sh' /\
    robot_mode sh' = 1 /\
    movement_lock sh' = false /\
    logger sh' =
      logger sh ++ [(Warning, "Tried to release a released lock!");
                    (Info, "Robot is now in Path mode.")].
Proof.
  intros [m u l aq rq cq pq w lg] Hm Hl. cbn in Hm, Hl. subst m l.
  eexists. split; [reflexivity|]. cbn. rewrite <- app_assoc. repeat split.
Qed.

(** The release in the NOOP and FIN branches is not inside a [try]. *)
Lemma dispatch_noop_unlocked : forall sh,
  movement_lock sh = false ->
  dispatch "NOOP" sh = Raise (RuntimeError "release unlocked lock") sh.
Proof.
  intros [m u l aq rq cq pq w lg] Hl. cbn in Hl. subst l. reflexivity.
Qed.

Lemma dispatch_fin_unlocked : forall sh,
  movement_lock sh = false ->
  exists sh', dispatch "FIN" sh = Raise (RuntimeError "release unlocked lock") sh'.
Proof.
  intros [m u l aq rq cq pq w lg] Hl. cbn in Hl. subst l.
  eexists. reflexivity.
Qed.

(** C7 (the code departs from it): a mode change that lands between the
    follower's acquire and its NOOP (or FIN) branch releases the lock
    first; the branch's own release then raises [RuntimeError], which
    nothing catches, and the follower's task ends. *)
Theorem unguarded_release_ends_follower :
  (exists s,
     run started noop_across_mode_change = Some s /\
     follower s = Terminated (RuntimeError "release unlocked lock")) /\
  (exists s,
     run started fin_across_mode_change = Some s /\
     follower s = Terminated (RuntimeError "release unlocked lock")).
Proof.
  split; eexists; (split; [vm_compute; reflexivity|]); reflexivity.
Qed.

(** C10: an acknowledgement that arrives in path mode while
    [path_queue] is empty leaves the lock released, queues no location
    message, and the [queue.Empty] of [get_nowait] (or the error of a
    second release) ends in the one handler, which logs the lock
    warning; the pass returns and the listener keeps running. *)
Theorem ack_with_empty_path_queue : forall s message,
  listener s = Running ->
  is_ack message = true ->
  robot_mode (shared s) = 1 ->
  path_queue (shared s) = [] ->
  step s (Stm message) =
  Some (mk_sys
          (mk_shared 1 (unpause (shared s)) false
             (android_queue (shared s)) (rpi_action_queue (shared s))
             (command_queue (shared s)) []
             (stm_link (shared s) ++ [Rx message])
             (logger (shared s) ++
                (if movement_lock (shared s)
                 then [(Debug, "ACK from STM32 received, movement lock released.")]
                 else []) ++
                [(Warning, "Tried to release a released lock!")]))
          (follower s) Running (dispatcher s) (receiver s)).
Proof.
  intros [[m u l aq rq cq pq w lg] f li d r] message Hl Hack Hm Hp.
  cbn in Hl, Hm, Hp. subst li m pq. unfold is_ack in Hack.
  unfold step. cbn [listener shared]. unfold recv_stm_iter.
  rewrite Hack.
  destruct l; cbn; rewrite <- ?app_assoc; reflexivity.
Qed.

Lemma ack_with_empty_path_queue_witness :
  step (mk_sys (mk_shared 1 false true [] [] [] [] [TxCommand "DT20"] [])
          AtGet Running Running Running) (Stm "ACK") =
  Some (mk_sys
          (mk_shared 1 false false [] [] [] []
             [TxCommand "DT20"; Rx "ACK"]
             [(Debug, "ACK from STM32 received, movement lock released.");
              (Warning, "Tried to release a released lock!")])
          AtGet Running Running Running).
Proof.
  exact (ack_with_empty_path_queue
           (mk_sys (mk_shared 1 false true [] [] [] [] [TxCommand "DT20"] [])
              AtGet Running Running Running)
           "ACK" eq_refl eq_refl eq_refl eq_refl).
Defined.

End CoordinatorFacts.

(** ** The wire log, and two commands with no acknowledgement between them *)

Module SequencerFacts.
Import Coordinator.

Section Subsequences.
Context {A : Type}.


Lemma subseq_refl : forall l : list A, subseq l l.
Proof.
  induction l as [|x l IH]; [apply subseq_nil | apply subseq_keep, IH].
Qed.

Lemma subseq_app_tail : forall (l1 l2 t : list A),
  subseq l1 l2 -> subseq (l1 ++ t) (l2 ++ t).
Proof.
  intros l1 l2 t H. induction H as [|y l1 l2 _ IH|y l1 l2 _ IH]; cbn.
  - apply subseq_refl.
  - apply subseq_skip, IH.
  - apply subseq_keep, IH.
Qed.

Lemma subseq_snoc : forall (l1 l2 : list A) x,
  subseq l1 l2 -> subseq (l1 ++ [x]) (l2 ++ [x]).
Proof. intros l1 l2 x. apply subseq_app_tail. Qed.

End Subsequences.

Lemma in_flight_snoc : forall link w,
  in_flight (link ++ [w]) = in_flight_step (in_flight link) w.
Proof. intros link w. unfold in_flight. now rewrite fold_left_app. Qed.

Lemma forwarded_snoc : forall link w,
  forwarded (link ++ [w]) =
  forwarded link ++ match w with TxCommand m => [m] | _ => [] end.
Proof.
  induction link as [|x link IH]; intros w.
  - destruct w; reflexivity.
  - cbn [app forwarded]. destruct x; rewrite IH; reflexivity.
Qed.

#[local] Arguments in_flight : simpl never.
#[local] Arguments forwarded : simpl never.


Lemma forallb_snoc : forall (f : PiAction -> bool) l x,
  forallb f (l ++ [x]) = (forallb f l && f x)%bool.
Proof.
  intros f l x. rewrite forallb_app. cbn. now rewrite andb_true_r.
Qed.

(** A navigation operation. *)
Lemma nav_apply_effect : forall op sh,
  exists sh',
    nav_apply op sh = Ret tt sh' /\
    robot_mode sh' = robot_mode sh /\
    movement_lock sh' = movement_lock sh /\
    rpi_action_queue sh' = rpi_action_queue sh /\
    in_flight (stm_link sh') = in_flight (stm_link sh) /\
    forwarded (stm_link sh') = forwarded (stm_link sh) /\
    command_queue sh' =
      (if is_drain (Nav op) then [] else command_queue sh ++ enqueued_by (Nav op)).
Proof.
  intros op [m u l aq rq cq pq w lg]. destruct op as [c| |ms|msg]; cbn.
  - eexists. split; [reflexivity|]. cbn. repeat split.
  - eexists. split; [reflexivity|]. cbn. repeat split.
    apply NavigationFacts.drain_nil.
  - eexists. split; [reflexivity|]. cbn. rewrite app_nil_r. repeat split.
  - eexists. split; [reflexivity|]. cbn [stm_link command_queue robot_mode
      movement_lock rpi_action_queue with_stm_link].
    rewrite in_flight_snoc, forwarded_snoc, !app_nil_r. repeat split.
Qed.

Example two_commands_forwarded :
  option_map (fun s => stm_link (shared s)) (run started two_commands)
  = Some [TxDirect "ZZ02"; TxCommand "FW10"; Rx "ACK"; TxCommand "STOP"].
Proof. vm_compute. reflexivity. Qed.


End SequencerFacts.

(** ** Hysteresis of the front-distance flag *)

Module UltrasonicFacts.
Import Ultrasonic.

Lemma near_run_nonneg : forall l, 0 <= near_run l.
Proof.
  induction l as [|d l IH]; simpl; [lia|].
  destruct (counts_as_near d); lia.
Qed.

Lemma set_us_flag_snoc : forall samples d,
  set_us_flag (samples ++ [d]) = set_us_flag_iter (set_us_flag samples) d.
Proof.
  intros samples d. unfold set_us_flag. now rewrite fold_left_app.
Qed.

(** The counter is the length of the closing run of near samples, and
    the flag is down exactly when that run has reached two. *)
Lemma set_us_flag_inv : forall samples,
  obstacle_count_short (set_us_flag samples) = near_run (rev samples) /\
  ultrasonic_is_clear (set_us_flag samples)
    = (if 2 <=? near_run (rev samples) then 0 else 1).
Proof.
  induction samples as [|d samples [IHc IHf]] using rev_ind.
  - split; reflexivity.
  - rewrite set_us_flag_snoc, rev_app_distr. simpl rev. simpl app.
    cbn [near_run]. unfold set_us_flag_iter.
    fold (counts_as_near d).
    pose proof (near_run_nonneg (rev samples)) as Hnn.
    destruct (counts_as_near d); cbn [obstacle_count_short ultrasonic_is_clear].
    + rewrite IHc.
      destruct (near_run (rev samples) + 1 =? 2) eqn:E2;
        cbn [obstacle_count_short ultrasonic_is_clear compensate_ydist].
      * apply Z.eqb_eq in E2. split; [reflexivity|].
        rewrite E2. reflexivity.
      * apply Z.eqb_neq in E2. split; [reflexivity|].
        rewrite IHf.
        destruct (2 <=? near_run (rev samples)) eqn:Ea;
          destruct (2 <=? near_run (rev samples) + 1) eqn:Eb;
          try reflexivity;
          [apply Z.leb_le in Ea; apply Z.leb_gt in Eb
          |apply Z.leb_gt in Ea; apply Z.leb_le in Eb]; lia.
    + split; reflexivity.
Qed.

Lemma near_run_two : forall l,
  (2 <=? near_run l) =
  match l with
  | b :: a :: _ => counts_as_near a && counts_as_near b
  | _ => false
  end.
Proof.
  intros [|b [|a l]]; simpl.
  - reflexivity.
  - destruct (counts_as_near b); reflexivity.
  - pose proof (near_run_nonneg l) as Hnn.
    destruct (counts_as_near b), (counts_as_near a); simpl;
      try reflexivity.
    apply Z.leb_le. lia.
Qed.

(** C2 (as amended): started from a clear flag, after any sequence of
    samples the front-distance flag is blocked exactly when the two most
    recent samples are both at or below 28.0; hence it goes to blocked
    only after two consecutive samples at or below the threshold, and any
    single sample that is not at or below it (strictly above, or nan)
    clears it.  A sample of exactly 28.0 counts towards blocked. *)
Theorem us_flag_hysteresis :
  (forall samples,
     ultrasonic_is_clear (set_us_flag samples)
       = if last_two counts_as_near samples then 0 else 1) /\
  (forall samples d,
     counts_as_near d = false ->
     ultrasonic_is_clear (set_us_flag (samples ++ [d])) = 1) /\
  (forall samples d,
     ultrasonic_is_clear (set_us_flag samples) = 1 ->
     ultrasonic_is_clear (set_us_flag (samples ++ [d])) = 0 ->
     exists older prev, samples = older ++ [prev] /\
       counts_as_near prev = true /\ counts_as_near d = true).
Proof.
  assert (Hchar : forall samples,
     ultrasonic_is_clear (set_us_flag samples)
       = if last_two counts_as_near samples then 0 else 1).
  { intros samples. destruct (set_us_flag_inv samples) as [_ Hf].
    rewrite Hf, near_run_two. reflexivity. }
  split; [exact Hchar|]. split.
  - intros samples d Hd. rewrite Hchar. unfold last_two.
    rewrite rev_app_distr. simpl.
    destruct (rev samples); [reflexivity|].
    rewrite Hd, andb_false_r. reflexivity.
  - intros samples d _ Hblocked. rewrite Hchar in Hblocked.
    unfold last_two in Hblocked. rewrite rev_app_distr in Hblocked.
    simpl in Hblocked.
    destruct (rev samples) as [|prev older] eqn:Er; [discriminate|].
    exists (rev older), prev. split.
    + rewrite <- (rev_involutive samples), Er. reflexivity.
    + destruct (counts_as_near prev), (counts_as_near d);
        try discriminate; split; reflexivity.
Qed.

Lemma us_flag_hysteresis_witness :
  (counts_as_near 30.0%float = false /\
   ultrasonic_is_clear
     (set_us_flag ([10.0%float; 12.0%float] ++ [30.0%float])) = 1) /\
  (ultrasonic_is_clear (set_us_flag [10.0%float]) = 1 /\
   ultrasonic_is_clear (set_us_flag ([10.0%float] ++ [12.0%float])) = 0 /\
   exists older prev, [10.0%float] = older ++ [prev] /\
     counts_as_near prev = true /\ counts_as_near 12.0%float = true).
Proof.
  split.
  - split; [reflexivity|].
    exact (proj1 (proj2 us_flag_hysteresis)
             [10.0%float; 12.0%float] 30.0%float eq_refl).
  - split; [reflexivity|]. split; [reflexivity|].
    exact (proj2 (proj2 us_flag_hysteresis)
             [10.0%float] 12.0%float eq_refl eq_refl).
Defined.

(** C2 as stated fails at the threshold itself: two samples of exactly
    28.0, neither of them below the threshold, take the flag to blocked,
    and a third sample of 28.0, which is at the threshold, does not clear
    it. *)
Lemma us_flag_threshold_counterexample :
  below_threshold 28.0%float = false /\
  at_or_above_threshold 28.0%float = true /\
  ultrasonic_is_clear (set_us_flag [28.0%float; 28.0%float]) = 0 /\
  ultrasonic_is_clear
    (set_us_flag ([28.0%float; 28.0%float] ++ [28.0%float])) = 0.
Proof. repeat split; reflexivity. Qed.

End UltrasonicFacts.

(** ** The built-ins on sample values *)

Example int_of_float_truncates :
  Py.int_of_float 28.75%float = Some 28 /\
  Py.int_of_float (-3.5)%float = Some (-3) /\
  Py.int_of_float nan = None.
Proof. repeat split; reflexivity. Qed.

Example format_02d_samples :
  Py.format_02d 5 = "05" /\ Py.format_02d 21 = "21" /\
  Py.format_02d 112 = "112" /\ Py.format_02d (-5) = "-5".
Proof. repeat split; reflexivity. Qed.

Example replace_snap :
  Py.replace "SNAP" "" "SNAPS" = "S" /\
  Py.replace "SNAP" "" "SNAP12_C" = "12_C".
Proof. split; reflexivity. Qed.

Example repr_samples :
  Py.repr "FW10" = "'FW10'" /\
  Py.repr "it's" = String "034" ("it's" ++ String "034" EmptyString) /\
  Py.repr (String "009" "a") = String "'" (String "092" "ta'") /\
  Py.repr (String "001" EmptyString) = String "'" (String "092" "x01'") /\
  Coordinator.repr_message "manual" "FW10"
  = "{'cat': 'manual', 'value': 'FW10'}".
Proof. repeat split; reflexivity. Qed.

Example c_float_samples :
  Py.c_float 28.0%float = 28.0%float /\
  Py.c_float 16777217%float = 16777216%float /\
  Py.c_float 0x1.ffffffp+127%float = infinity /\
  Py.c_float 0x1p-150%float = 0%float.
Proof. repeat split; vm_compute; reflexivity. Qed.

Example title_mode :
  Py.title "manual" = "Manual" /\ Py.title "path" = "Path".
Proof. split; reflexivity. Qed.

(** ** Mode changes, admission of operator messages, the path loader *)

Module ModeFacts.
Import Coordinator Protocol.

(** What a transition leaves behind. *)
Lemma change_mode_effect : forall new_mode sh,
  transition new_mode (robot_mode sh) = true ->
  change_mode new_mode sh =
  Ret tt
    (mk_shared (mode_after new_mode) (String.eqb new_mode "manual") false
       (android_queue sh ++
          [mk_msg "info"
             (Text ("Robot is now in " ++ Py.title new_mode ++ " mode.")%string)])
       (rpi_action_queue sh) [] []
       (stm_link sh ++ [TxDirect "ZZ01"])
       (logger sh ++
          (if movement_lock sh then []
           else [(Warning, "Tried to release a released lock!")]) ++
          [(Info, ("Robot is now in " ++ Py.title new_mode ++ " mode.")%string)])).
Proof.
  intros new_mode [m u l aq rq cq pq w lg] Ht. unfold transition in Ht.
  cbn [robot_mode] in Ht. apply andb_true_iff in Ht. destruct Ht as [H1 H2].
  apply negb_true_iff in H1, H2.
  unfold change_mode, mode_after. unfold bind at 1. unfold get_mode.
  cbn [robot_mode]. rewrite H1, H2.
  destruct (String.eqb new_mode "manual"), l;
    cbn; rewrite !NavigationFacts.drain_nil, <- ?app_assoc; reflexivity.
Qed.

(** X1: when the dispatcher carries out a mode action that asks for a
    mode the robot is not in, both queues are empty afterwards whatever
    they held, the lock is free, [unpause] is set exactly for "manual",
    ZZ01 goes to the controller outside the lock protocol, and the
    dispatcher keeps running.  Any name other than "manual" selects path
    mode. *)
Theorem mode_transition_drains : forall s new_mode rest stitch_status,
  dispatcher s = Running ->
  rpi_action_queue (shared s) = mk_action "mode" new_mode :: rest ->
  transition new_mode (robot_mode (shared s)) = true ->
  exists s',
    step s (Act stitch_status) = Some s' /\
    dispatcher s' = Running /\ follower s' = follower s /\
    robot_mode (shared s') = mode_after new_mode /\
    command_queue (shared s') = [] /\
    path_queue (shared s') = [] /\
    movement_lock (shared s') = false /\
    unpause (shared s') = String.eqb new_mode "manual" /\
    rpi_action_queue (shared s') = rest /\
    stm_link (shared s') = stm_link (shared s) ++ [TxDirect "ZZ01"].
Proof.
  intros [sh f li di re] new_mode rest status Hd Hq Ht.
  cbn [dispatcher shared] in Hd, Hq, Ht. subst di.
  unfold step. cbn [dispatcher shared]. rewrite Hq.
  unfold rpi_action_iter. cbn [cat value].
  unfold bind at 1. unfold log at 1.
  replace (String.eqb "mode" "mode") with true by reflexivity.
  rewrite change_mode_effect
    by (destruct sh; cbn [robot_mode with_logger with_rpi_action_queue] in *;
        exact Ht).
  eexists. split; [reflexivity|]. destruct sh. cbn. repeat split.
Qed.

Lemma mode_transition_drains_witness :
  exists s',
    step (mk_sys (mk_shared 1 true true [] [mk_action "mode" "auto"]
                    ["FW10"; "FIN"] [placeholder; placeholder]
                    [TxCommand "DT20"] [])
            (AtAcquire "FL00") Running Running Running) (Act 200) = Some s' /\
    robot_mode (shared s') = 1 /\
    command_queue (shared s') = [] /\
    path_queue (shared s') = [] /\
    movement_lock (shared s') = false /\
    unpause (shared s') = false.
Proof.
  destruct (mode_transition_drains
              (mk_sys (mk_shared 1 true true [] [mk_action "mode" "auto"]
                         ["FW10"; "FIN"] [placeholder; placeholder]
                         [TxCommand "DT20"] [])
                 (AtAcquire "FL00") Running Running Running)
              "auto" [] 200 eq_refl eq_refl eq_refl)
    as [s' [H1 [_ [_ [H2 [H3 [H4 [H5 [H6 _]]]]]]]]].
  exists s'. repeat split; assumption.
Defined.

(** X2: a request for the mode the robot is already in is turned down:
    one error message and one warning, and nothing else changes; the
    queues are not drained and the lock is not touched. *)
Theorem same_mode_rejected : forall new_mode sh,
  (new_mode = "manual" /\ robot_mode sh = 0) \/
  (new_mode = "path" /\ robot_mode sh = 1) ->
  change_mode new_mode sh =
  Ret tt
    (with_logger
       (logger sh ++
          [(Warning, ("Robot already in " ++ Py.title new_mode ++ " mode.")%string)])
       (with_android_queue
          (android_queue sh ++
             [mk_msg "error"
                (Text ("Robot already in " ++ Py.title new_mode ++ " mode.")%string)])
          sh)).
Proof.
  intros new_mode [m u l aq rq cq pq w lg] [[-> Hm]|[-> Hm]];
    cbn [robot_mode] in Hm; subst m; reflexivity.
Qed.

Lemma same_mode_rejected_witness :
  change_mode "path"
    (mk_shared 1 false true [] [] ["FW10"] [placeholder] [] []) =
  Ret tt
    (mk_shared 1 false true
       [mk_msg "error" (Text "Robot already in Path mode.")]
       [] ["FW10"] [placeholder] []
       [(Warning, "Robot already in Path mode.")]).
Proof.
  exact (same_mode_rejected "path"
           (mk_shared 1 false true [] [] ["FW10"] [placeholder] [] [])
           (or_intror (conj eq_refl eq_refl))).
Defined.

(** *** The path loader *)

Lemma load_pairs : forall (l : list string) sh,
  for_each l (fun c => command_put c ;; path_put placeholder) sh =
  Ret tt
    (with_path_queue (path_queue sh ++ repeat placeholder (List.length l))
       (with_command_queue (command_queue sh ++ l) sh)).
Proof.
  induction l as [|c l IH]; intros [m u k aq rq cq pq w lg].
  - cbn. rewrite !app_nil_r. reflexivity.
  - cbn [for_each]. unfold bind at 1. unfold bind at 1.
    unfold command_put at 1. unfold path_put at 1.
    cbn [command_queue path_queue with_command_queue with_path_queue].
    rewrite IH. cbn. rewrite <- !app_assoc. reflexivity.
Qed.

Lemma add_navigate_path_effect : forall sh,
  add_navigate_path sh =
  Ret tt
    (mk_shared (robot_mode sh) (unpause sh) (movement_lock sh)
       (android_queue sh ++
          [mk_msg "info"
             (Text "Navigate-around-obstacle path loaded. Robot is ready to move.")])
       (rpi_action_queue sh) navigate_path
       (repeat placeholder (List.length navigate_path))
       (stm_link sh)
       (logger sh ++
          [(Info, "Navigate-around-obstacle path loaded. Robot is ready to move.")])).
Proof.
  intros [m u k aq rq cq pq w lg]. unfold add_navigate_path.
  unfold bind at 1. unfold clear_queues at 1.
  cbn [command_queue path_queue with_command_queue with_path_queue].
  rewrite !NavigationFacts.drain_nil.
  unfold bind at 1. fold placeholder. rewrite load_pairs. reflexivity.
Qed.

(** X3: whatever the queues held, [add_navigate_path] leaves the
    hard-coded path in the command queue and one placeholder waypoint
    per command in the path queue, so the two queues have the same
    length; mode, lock, [unpause], the action queue and the controller
    link are untouched. *)
Theorem add_navigate_path_loads : forall sh,
  exists sh',
    add_navigate_path sh = Ret tt sh' /\
    command_queue sh' = navigate_path /\
    path_queue sh' = repeat placeholder (List.length navigate_path) /\
    List.length (path_queue sh') = List.length (command_queue sh') /\
    robot_mode sh' = robot_mode sh /\
    movement_lock sh' = movement_lock sh /\
    unpause sh' = unpause sh /\
    rpi_action_queue sh' = rpi_action_queue sh /\
    stm_link sh' = stm_link sh.
Proof.
  intros sh. rewrite add_navigate_path_effect.
  eexists. split; [reflexivity|]. cbn. repeat split.
Qed.

(** *** Admission of operator messages *)

(** X4: a manual message in path mode enqueues nothing, does not start
    the fastest run even for FC01, and answers with one error; a request
    for obstacles or for the single-obstacle path in manual mode queues
    no action and answers with one error. *)
Theorem wrong_mode_requests_rejected :
  (forall v probe sh,
     robot_mode sh = 1 ->
     exists sh',
       recv_android_iter "manual" v probe sh = Ret false sh' /\
       command_queue sh' = command_queue sh /\
       rpi_action_queue sh' = rpi_action_queue sh /\
       stm_link sh' = stm_link sh /\
       android_queue sh' =
         android_queue sh ++
         [mk_msg "error" (Text "Manual movement not allowed in Path mode.")]) /\
  (forall c v probe sh,
     robot_mode sh = 0 ->
     c = "obstacles" \/ c = "single-obstacle" ->
     exists sh',
       recv_android_iter c v probe sh = Ret false sh' /\
       command_queue sh' = command_queue sh /\
       rpi_action_queue sh' = rpi_action_queue sh /\
       stm_link sh' = stm_link sh /\
       android_queue sh' =
         android_queue sh ++
         [mk_msg "error"
            (Text (if String.eqb c "obstacles"
                   then "Robot must be in Path mode to set obstacles."
                   else "Robot must be in Path mode to set single obstacle."))]).
Proof.
  split.
  - intros v probe [m u k aq rq cq pq w lg] Hm. cbn in Hm. subst m.
    eexists. split; [reflexivity|]. cbn. repeat split.
  - intros c v probe [m u k aq rq cq pq w lg] Hm [->| ->];
      cbn in Hm; subst m; (eexists; split; [reflexivity|]); cbn;
      repeat split.
Qed.

Lemma wrong_mode_requests_rejected_witness :
  (exists sh',
     recv_android_iter "manual" "FC01" (Status 200)
       (mk_shared 1 false false [] [] ["DT20"] [placeholder] [] [])
     = Ret false sh' /\
     command_queue sh' = ["DT20"]) /\
  (exists sh',
     recv_android_iter "single-obstacle" "" (Status 200) (shared started)
     = Ret false sh' /\
     rpi_action_queue sh' = []).
Proof.
  split.
  - destruct (proj1 wrong_mode_requests_rejected "FC01" (Status 200)
                (mk_shared 1 false false [] [] ["DT20"] [placeholder] [] [])
                eq_refl) as [sh' [H1 [H2 _]]].
    exists sh'. split; [exact H1 | exact H2].
  - destruct (proj2 wrong_mode_requests_rejected "single-obstacle" ""
                (Status 200) (shared started) eq_refl (or_intror eq_refl))
      as [sh' [H1 [_ [H2 _]]]].
    exists sh'. split; [exact H1 | exact H2].
Defined.

(** X5: a message of a category without a branch, and a control
    message whose value is not "start", leave only the debug line of the
    pass: nothing is queued, sent or answered. *)
Theorem unknown_message_dropped : forall c v probe sh,
  known_category c = false \/ (c = "control" /\ String.eqb v "start" = false) ->
  recv_android_iter c v probe sh =
  Ret false
    (with_logger
       (logger sh ++ [(Debug, ("message: " ++ repr_message c v)%string)]) sh).
Proof.
  intros c v probe [m u k aq rq cq pq w lg] [Hc|[-> Hv]].
  - unfold known_category in Hc. cbn [existsb] in Hc.
    do 5 (apply orb_false_elim in Hc; destruct Hc as [? Hc]).
    unfold recv_android_iter.
    rewrite H, H0, H1, H2, H3. reflexivity.
  - unfold recv_android_iter.
    replace (String.eqb "control" "mode") with false by reflexivity.
    replace (String.eqb "control" "manual") with false by reflexivity.
    replace (String.eqb "control" "obstacles") with false by reflexivity.
    replace (String.eqb "control" "control") with true by reflexivity.
    rewrite Hv. reflexivity.
Qed.

Lemma unknown_message_dropped_witness :
  recv_android_iter "ping" "x" (Status 200) (shared started) =
  Ret false
    (with_logger
       (logger (shared started) ++
          [(Debug, "message: {'cat': 'ping', 'value': 'x'}")])
       (shared started)).
Proof.
  exact (unknown_message_dropped "ping" "x" (Status 200) (shared started)
           (or_introl eq_refl)).
Defined.

(** X6: in path mode the start command is gated by the command queue
    alone.  With a non-empty queue [unpause] is set and the run is
    announced whatever the health check says; a failed check only adds
    an error message and the ZZ04 buzz.  With an empty queue [unpause]
    is left as it was and an error is answered. *)
Theorem start_gated_by_queue_only : forall probe sh,
  robot_mode sh = 1 ->
  exists sh',
    recv_android_iter "control" "start" probe sh = Ret false sh' /\
    command_queue sh' = command_queue sh /\
    movement_lock sh' = movement_lock sh /\
    stm_link sh' =
      stm_link sh ++ (if api_ok probe then [] else [TxDirect "ZZ04"]) /\
    unpause sh' =
      match command_queue sh with [] => unpause sh | _ => true end /\
    android_queue sh' =
      android_queue sh ++
      (if api_ok probe then []
       else [mk_msg "error" (Text "API is down, start command aborted.")]) ++
      match command_queue sh with
      | [] => [mk_msg "error"
                 (Text "Command queue is empty, did you set obstacles?")]
      | _ => [mk_msg "info" (Text "Starting robot on path!");
              mk_msg "status" (Text "running")]
      end.
Proof.
  intros probe [m u k aq rq cq pq w lg] Hm. cbn in Hm. subst m.
  destruct probe as [code| | |e]; [destruct (code =? 200) eqn:Ec| | |];
    destruct cq as [|c cq];
    unfold recv_android_iter, check_api, api_ok; cbn; rewrite ?Ec; cbn;
    (eexists; split; [reflexivity|]); cbn; rewrite ?app_nil_r, <- ?app_assoc;
    repeat split.
Qed.

Lemma start_gated_by_queue_only_witness :
  exists sh',
    recv_android_iter "control" "start" Timeout
      (mk_shared 1 false false [] [] ["DT20"] [placeholder] [] [])
    = Ret false sh' /\
    unpause sh' = true /\
    stm_link sh' = [TxDirect "ZZ04"].
Proof.
  destruct (start_gated_by_queue_only Timeout
              (mk_shared 1 false false [] [] ["DT20"] [placeholder] [] [])
              eq_refl) as [sh' [H1 [_ [_ [H2 [H3 _]]]]]].
  exists sh'. split; [exact H1|]. split; [exact H3 | exact H2].
Defined.

(** *** Acknowledgements in path mode *)

Lemma acks_on_free_lock : forall msgs sh,
  forallb is_ack msgs = true ->
  movement_lock sh = false ->
  exists sh',
    for_each msgs recv_stm_iter sh = Ret tt sh' /\
    movement_lock sh' = false /\
    robot_mode sh' = robot_mode sh /\
    path_queue sh' = path_queue sh /\
    command_queue sh' = command_queue sh /\
    android_queue sh' = android_queue sh.
Proof.
  induction msgs as [|m msgs IH]; intros sh Hacks Hl.
  - exists sh. split; [reflexivity|]. split; [exact Hl|].
    repeat split; reflexivity.
  - cbn [forallb] in Hacks. apply andb_true_iff in Hacks.
    destruct Hacks as [Hm Hrest].
    cbn [for_each]. unfold bind at 1.
    rewrite (CoordinatorFacts.recv_stm_release_guarded m sh Hm Hl).
    destruct (IH (with_logger
                    (logger sh ++ [(Warning, "Tried to release a released lock!")])
                    (with_stm_link (stm_link sh ++ [Rx m]) sh)) Hrest)
      as [sh' [Hrun [H1 [H2 [H3 [H4 H5]]]]]].
    { destruct sh; exact Hl. }
    exists sh'. split; [exact Hrun|].
    destruct sh; cbn in *. repeat split; assumption.
Qed.

Lemma ack_burst_passes : forall message msgs w rest sh,
  is_ack message = true ->
  forallb is_ack msgs = true ->
  robot_mode sh = 1 ->
  movement_lock sh = true ->
  path_queue sh = w :: rest ->
  exists sh',
    for_each (message :: msgs) recv_stm_iter sh = Ret tt sh' /\
    movement_lock sh' = false /\
    path_queue sh' = rest /\
    android_queue sh' = android_queue sh ++ [location_of w] /\
    command_queue sh' = command_queue sh.
Proof.
  intros message msgs w rest [m u k aq rq cq pq lk lg] Hm Hmsgs Hmode Hl Hp.
  cbn in Hmode, Hl, Hp. subst m k pq. unfold is_ack in Hm.
  cbn [for_each]. unfold bind at 1. unfold recv_stm_iter at 1.
  rewrite Hm. cbn -[for_each recv_stm_iter].
  match goal with
  | |- context [for_each msgs recv_stm_iter ?st] =>
      destruct (acks_on_free_lock msgs st Hmsgs eq_refl)
        as [sh' [Hrun [H1 [_ [H3 [H4 H5]]]]]]
  end.
  exists sh'. split; [exact Hrun|]. cbn in H3, H4, H5.
  repeat split; assumption.
Qed.

(** Consecutive steps of [recv_stm] are consecutive passes of its loop
    on the shared state; the other processes stay where they are. *)
Lemma run_of_listener : forall msgs s sh',
  listener s = Running ->
  for_each msgs recv_stm_iter (shared s) = Ret tt sh' ->
  run s (map Stm msgs) =
  Some (mk_sys sh' (follower s) Running (dispatcher s) (receiver s)).
Proof.
  induction msgs as [|m msgs IH]; intros [sh f li di re] sh' Hli Hfor;
    cbn [listener shared follower dispatcher receiver] in *; subst li.
  - cbn in Hfor. inversion Hfor; subst sh'. reflexivity.
  - cbn [for_each] in Hfor. unfold bind in Hfor at 1.
    destruct (CoordinatorFacts.recv_stm_iter_returns m sh) as [sh1 [Hm _]].
    rewrite Hm in Hfor.
    cbn [map run]. unfold step. cbn [listener shared]. rewrite Hm.
    cbn [settle follower dispatcher receiver].
    exact (IH (mk_sys sh1 f Running di re) sh' eq_refl Hfor).
Qed.

(** X7: in path mode, when [recv_stm] handles a burst of
    acknowledgements back to back, with no step of the follower or of any
    other process in between, one location is reported.  The first
    acknowledgement releases the lock, takes the waypoint at the front
    and queues its location; each further one finds the lock free, ends
    in the handler before it reaches the path queue, and takes no
    waypoint.  The listener keeps running and the follower stays where
    it was. *)
Theorem ack_burst_reports_once : forall message msgs w rest s,
  listener s = Running ->
  is_ack message = true ->
  forallb is_ack msgs = true ->
  robot_mode (shared s) = 1 ->
  movement_lock (shared s) = true ->
  path_queue (shared s) = w :: rest ->
  exists s',
    run s (map Stm (message :: msgs)) = Some s' /\
    listener s' = Running /\
    follower s' = follower s /\
    movement_lock (shared s') = false /\
    path_queue (shared s') = rest /\
    android_queue (shared s') = android_queue (shared s) ++ [location_of w] /\
    command_queue (shared s') = command_queue (shared s).
Proof.
  intros message msgs w rest s Hli Hm Hmsgs Hmode Hl Hp.
  destruct (ack_burst_passes message msgs w rest (shared s) Hm Hmsgs Hmode Hl Hp)
    as [sh' [Hfor [H1 [H2 [H3 H4]]]]].
  eexists. split; [exact (run_of_listener _ s sh' Hli Hfor)|].
  cbn [listener follower shared]. repeat split; assumption.
Qed.

Lemma ack_burst_reports_once_witness :
  exists s',
    run ack_burst_start (map Stm ["ACK"; "ACK"; "ACK|1"]) = Some s' /\
    path_queue (shared s') = [placeholder] /\
    android_queue (shared s') = [mk_msg "location" (Location 5 7 2)].
Proof.
  destruct (ack_burst_reports_once "ACK" ["ACK"; "ACK|1"]
              (mk_waypoint 2 0 5 7) [placeholder] ack_burst_start
              eq_refl eq_refl eq_refl eq_refl eq_refl eq_refl)
    as [s' [H1 [_ [_ [_ [H2 [H3 _]]]]]]].
  exists s'. split; [exact H1|]. split; [exact H2 | exact H3].
Defined.

(** The condition on the other processes is needed: when the follower
    forwards the next command between two acknowledgements, the second
    one finds the lock held again and reports a second location. *)
Example ack_burst_interleaved :
  option_map (fun s => (android_queue (shared s), path_queue (shared s)))
    (run ack_burst_start [Stm "ACK"; Follow; Follow; Follow; Stm "ACK"])
  = Some ([mk_msg "location" (Location 5 7 2);
           mk_msg "location" (Location 1 1 0)], []).
Proof. vm_compute. reflexivity. Qed.

(** *** Commands across a mode change *)

(** X8: the drain of a mode change does not reach a command the
    follower has already taken from the queue: once the transition has
    released the lock the follower acquires it and forwards that
    command, in the new mode, right after the ZZ01 of the transition. *)
Theorem held_command_survives_drain : forall s c new_mode rest stitch_status,
  follower s = AtAcquire c ->
  forwards c = true ->
  dispatcher s = Running ->
  rpi_action_queue (shared s) = mk_action "mode" new_mode :: rest ->
  transition new_mode (robot_mode (shared s)) = true ->
  exists s',
    run s [Act stitch_status; Follow; Follow] = Some s' /\
    stm_link (shared s') =
      stm_link (shared s) ++ [TxDirect "ZZ01"; TxCommand c] /\
    command_queue (shared s') = [] /\
    movement_lock (shared s') = true /\
    robot_mode (shared s') = mode_after new_mode /\
    follower s' = AtGet.
Proof.
  intros [sh f li di re] c new_mode rest status Hf Hfw Hd Hq Ht.
  cbn [follower dispatcher shared] in Hf, Hd, Hq, Ht. subst f di.
  unfold forwards in Hfw.
  cbn [run]. unfold step at 1. cbn [dispatcher shared]. rewrite Hq.
  unfold rpi_action_iter. cbn [cat value].
  unfold bind at 1. unfold log at 1.
  replace (String.eqb "mode" "mode") with true by reflexivity.
  rewrite change_mode_effect by (destruct sh; exact Ht).
  cbn [settle]. unfold step at 1.
  cbn [follower shared movement_lock with_movement_lock].
  unfold step at 1. cbn [follower shared]. unfold dispatch. rewrite Hfw.
  eexists. split; [reflexivity|]. destruct sh. cbn.
  rewrite <- app_assoc. repeat split.
Qed.

Lemma held_command_survives_drain_witness :
  exists s',
    run (mk_sys (mk_shared 0 true true [] [mk_action "mode" "path"]
                   ["FW20"] [] [TxCommand "FW10"] [])
           (AtAcquire "BW10") Running Running Running)
      [Act 200; Follow; Follow] = Some s' /\
    stm_link (shared s') =
      [TxCommand "FW10"; TxDirect "ZZ01"; TxCommand "BW10"] /\
    command_queue (shared s') = [] /\
    robot_mode (shared s') = 1.
Proof.
  destruct (held_command_survives_drain
              (mk_sys (mk_shared 0 true true [] [mk_action "mode" "path"]
                         ["FW20"] [] [TxCommand "FW10"] [])
                 (AtAcquire "BW10") Running Running Running)
              "BW10" "path" [] 200 eq_refl eq_refl eq_refl eq_refl eq_refl)
    as [s' [H1 [H2 [H3 [_ [H4 _]]]]]].
  exists s'. repeat split; assumption.
Defined.

(** *** The lock while no acknowledgement arrives *)

#[local] Arguments forwarded : simpl never.

Lemma recv_android_frame : forall c v probe sh,
  String.eqb c "mode" = false ->
  exists b sh',
    recv_android_iter c v probe sh = Ret b sh' /\
    movement_lock sh' = movement_lock sh /\
    forwarded (stm_link sh') = forwarded (stm_link sh) /\
    forallb no_mode_action (rpi_action_queue sh') =
      forallb no_mode_action (rpi_action_queue sh).
Proof.
  intros c v probe [m u k aq rq cq pq w lg] Hc.
  assert (Hput : forallb no_mode_action (rq ++ [mk_action c v]) =
                 forallb no_mode_action rq).
  { rewrite SequencerFacts.forallb_snoc. unfold no_mode_action at 2.
    cbn [cat]. rewrite Hc. cbn. now rewrite andb_true_r. }
  assert (Hdirect : forall x, forwarded (w ++ [TxDirect x]) = forwarded w).
  { intros x. rewrite SequencerFacts.forwarded_snoc. now rewrite app_nil_r. }
  unfold recv_android_iter. rewrite Hc.
  unfold bind at 1. unfold log at 1. unfold bind at 1. unfold get_mode.
  cbn [robot_mode with_logger].
  destruct (String.eqb c "manual").
  { destruct (m =? 0); [destruct (String.eqb v "FC01")|];
      do 2 eexists; (split; [reflexivity|]); cbn; repeat split. }
  destruct (String.eqb c "obstacles").
  { destruct (m =? 1);
      do 2 eexists; (split; [reflexivity|]); cbn; rewrite ?Hput;
      repeat split. }
  destruct (String.eqb c "control").
  { destruct (String.eqb v "start");
      [|do 2 eexists; (split; [reflexivity|]); cbn; repeat split].
    destruct (m =? 1);
      [|do 2 eexists; (split; [reflexivity|]); cbn; repeat split].
    destruct probe as [code| | |e]; [destruct (code =? 200) eqn:Ec| | |];
      destruct cq as [|c0 cq];
      unfold check_api; cbn; rewrite ?Ec; cbn;
      do 2 eexists; (split; [reflexivity|]); cbn; rewrite ?Hdirect;
      repeat split. }
  destruct (String.eqb c "single-obstacle").
  { destruct (m =? 1);
      do 2 eexists; (split; [reflexivity|]); cbn; rewrite ?Hput;
      repeat split. }
  do 2 eexists. split; [reflexivity|]. cbn. repeat split.
Qed.

Lemma rpi_action_frame : forall a status sh,
  no_mode_action a = true ->
  exists sh',
    rpi_action_iter a status sh = Ret tt sh' /\
    movement_lock sh' = movement_lock sh /\
    stm_link sh' = stm_link sh /\
    rpi_action_queue sh' = rpi_action_queue sh.
Proof.
  intros a status [m u k aq rq cq pq w lg] Ha. unfold no_mode_action in Ha.
  apply negb_true_iff in Ha. unfold rpi_action_iter. rewrite Ha.
  unfold bind at 1. unfold log at 1.
  destruct (String.eqb (cat a) "single-obstacle").
  { rewrite add_navigate_path_effect. eexists. split; [reflexivity|].
    cbn. repeat split. }
  destruct (String.eqb (cat a) "stitch").
  - unfold request_stitch. destruct (status =? 200);
      eexists; (split; [reflexivity|]); cbn; repeat split.
  - eexists. split; [reflexivity|]. cbn. repeat split.
Qed.

Lemma recv_stm_not_ack : forall message sh,
  is_ack message = false ->
  recv_stm_iter message sh =
  Ret tt
    (with_logger
       (logger sh ++
          [(Warning, ("Ignored unknown message from STM: " ++ message)%string)])
       (with_stm_link (stm_link sh ++ [Rx message]) sh)).
Proof.
  intros message sh H. unfold is_ack in H. unfold recv_stm_iter.
  rewrite H. destruct sh. reflexivity.
Qed.

Lemma quiet_step_keeps_lock : forall s e s',
  movement_lock (shared s) = true ->
  dispatching (follower s) = false ->
  forallb no_mode_action (rpi_action_queue (shared s)) = true ->
  quiet e = true ->
  step s e = Some s' ->
  movement_lock (shared s') = true /\
  dispatching (follower s') = false /\
  forallb no_mode_action (rpi_action_queue (shared s')) = true /\
  forwarded (stm_link (shared s')) = forwarded (stm_link (shared s)).
Proof.
  intros [sh f li di re] e s' Hl Hf Ha Hq Hstep.
  cbn [shared follower] in Hl, Hf, Ha.
  destruct e as [c v probe|op|message| |status]; unfold step in Hstep;
    cbn [shared follower listener dispatcher receiver] in Hstep.
  - destruct re as [|x]; [|discriminate].
    cbn [quiet] in Hq. apply negb_true_iff in Hq.
    destruct (recv_android_frame c v probe sh Hq)
      as [b [sh' [Hrun [H1 [H2 H3]]]]].
    rewrite Hrun in Hstep. cbn in Hstep. inversion Hstep; subst s'.
    cbn [shared follower]. rewrite H1, H2, H3. repeat split; assumption.
  - destruct re as [|x]; [|discriminate].
    destruct (SequencerFacts.nav_apply_effect op sh)
      as [sh' [Hrun [_ [H1 [H2 [_ [H3 _]]]]]]].
    rewrite Hrun in Hstep. cbn in Hstep. inversion Hstep; subst s'.
    cbn [shared follower]. rewrite H1, H2, H3. repeat split; assumption.
  - destruct li as [|x]; [|discriminate].
    cbn [quiet] in Hq. apply negb_true_iff in Hq.
    rewrite (recv_stm_not_ack message sh Hq) in Hstep.
    cbn in Hstep. inversion Hstep; subst s'. destruct sh.
    cbn in *. rewrite SequencerFacts.forwarded_snoc, app_nil_r.
    repeat split; assumption.
  - destruct f as [|c|c|x]; try discriminate.
    + destruct (command_queue sh) as [|c rest]; [discriminate|].
      inversion Hstep; subst s'. destruct sh. cbn in *.
      repeat split; assumption.
    + rewrite Hl in Hstep. discriminate.
  - destruct di as [|x]; [|discriminate].
    destruct (rpi_action_queue sh) as [|a rest] eqn:Eq; [discriminate|].
    cbn [forallb] in Ha. apply andb_true_iff in Ha. destruct Ha as [Ha Hrest].
    destruct (rpi_action_frame a status (with_rpi_action_queue rest sh) Ha)
      as [sh' [Hrun [H1 [H2 H3]]]].
    rewrite Hrun in Hstep. cbn in Hstep. inversion Hstep; subst s'.
    destruct sh. cbn in *. rewrite H1, H2, H3. repeat split; assumption.
Qed.

(** X9: while the lock is held and the follower is not in its branches,
    nothing is forwarded until an acknowledgement or a mode change
    arrives: over any run of other events (operator messages, navigation
    puts and drains, other controller messages, actions, attempts of the
    follower) the lock stays held and the list of forwarded commands
    stays as it was.  This covers the lock kept by WN, SNAP and MANSNAP,
    which send nothing that could be acknowledged. *)
Theorem no_forward_without_ack : forall es s s',
  movement_lock (shared s) = true ->
  dispatching (follower s) = false ->
  forallb no_mode_action (rpi_action_queue (shared s)) = true ->
  forallb quiet es = true ->
  run s es = Some s' ->
  movement_lock (shared s') = true /\
  dispatching (follower s') = false /\
  forwarded (stm_link (shared s')) = forwarded (stm_link (shared s)).
Proof.
  induction es as [|e es IH]; intros s s' Hl Hf Ha Hq Hrun.
  - cbn in Hrun. inversion Hrun; subst s'. repeat split; assumption.
  - cbn [run] in Hrun. cbn [forallb] in Hq.
    apply andb_true_iff in Hq. destruct Hq as [Hq1 Hq2].
    destruct (step s e) as [s1|] eqn:Hstep; [|discriminate].
    destruct (quiet_step_keeps_lock s e s1 Hl Hf Ha Hq1 Hstep)
      as [Hl1 [Hf1 [Ha1 Hw1]]].
    destruct (IH s1 s' Hl1 Hf1 Ha1 Hq2 Hrun) as [Hl' [Hf' Hw']].
    split; [exact Hl'|]. split; [exact Hf'|]. now rewrite Hw'.
Qed.

Lemma no_forward_without_ack_witness :
  exists s',
    run snap_pending busy_without_ack = Some s' /\
    movement_lock (shared s') = true /\
    forwarded (stm_link (shared s')) = [].
Proof.
  assert (Hrun : exists s', run snap_pending busy_without_ack = Some s')
    by (vm_compute; eexists; reflexivity).
  destruct Hrun as [s' Hrun]. exists s'. split; [exact Hrun|].
  destruct (no_forward_without_ack busy_without_ack snap_pending s'
              eq_refl eq_refl eq_refl eq_refl Hrun)
    as [H1 [_ H2]].
  split; [exact H1 | exact H2].
Defined.

End ModeFacts.

(** ** One command in flight, in the order of the puts *)

Module FlightFacts.
Import Coordinator Protocol Flight.

#[local] Arguments in_flight : simpl never.
#[local] Arguments forwarded : simpl never.

Lemma direct_in_flight : forall link m,
  in_flight (link ++ [TxDirect m]) = in_flight link.
Proof. intros link m. now rewrite SequencerFacts.in_flight_snoc. Qed.

Lemma direct_forwarded : forall link m,
  forwarded (link ++ [TxDirect m]) = forwarded link.
Proof.
  intros link m. rewrite SequencerFacts.forwarded_snoc. apply app_nil_r.
Qed.

(** *** Effect of one pass of each process on the lock, the wire and the
    command queue, in either mode *)

Lemma recv_android_effect : forall c v probe sh,
  exists b sh',
    recv_android_iter c v probe sh = Ret b sh' /\
    movement_lock sh' = movement_lock sh /\
    in_flight (stm_link sh') = in_flight (stm_link sh) /\
    forwarded (stm_link sh') = forwarded (stm_link sh) /\
    command_queue sh' = command_queue sh ++ manual_put c v (robot_mode sh).
Proof.
  intros c v probe [m u k aq rq cq pq w lg]. unfold manual_put.
  cbn [robot_mode command_queue movement_lock stm_link].
  destruct (String.eqb_spec c "mode") as [->|Hc].
  { do 2 eexists. split; [reflexivity|]. cbn. rewrite app_nil_r.
    repeat split. }
  apply String.eqb_neq in Hc.
  unfold recv_android_iter. rewrite Hc.
  unfold bind at 1. unfold log at 1. unfold bind at 1. unfold get_mode.
  cbn [robot_mode with_logger].
  destruct (String.eqb c "manual").
  { destruct (m =? 0); [destruct (String.eqb v "FC01")|];
      do 2 eexists; (split; [reflexivity|]); cbn; rewrite ?app_nil_r;
      repeat split. }
  cbn [andb]. rewrite app_nil_r.
  destruct (String.eqb c "obstacles").
  { destruct (m =? 1);
      do 2 eexists; (split; [reflexivity|]); cbn; repeat split. }
  destruct (String.eqb c "control").
  { destruct (String.eqb v "start");
      [|do 2 eexists; (split; [reflexivity|]); cbn; repeat split].
    destruct (m =? 1);
      [|do 2 eexists; (split; [reflexivity|]); cbn; repeat split].
    destruct probe as [code| | |e]; [destruct (code =? 200) eqn:Ec| | |];
      destruct cq as [|c0 cq];
      unfold check_api; cbn; rewrite ?Ec; cbn;
      do 2 eexists; (split; [reflexivity|]); cbn;
      rewrite ?direct_in_flight, ?direct_forwarded; repeat split. }
  destruct (String.eqb c "single-obstacle").
  { destruct (m =? 1);
      do 2 eexists; (split; [reflexivity|]); cbn; repeat split. }
  do 2 eexists. split; [reflexivity|]. cbn. repeat split.
Qed.

Lemma recv_stm_effect : forall message sh,
  exists sh',
    recv_stm_iter message sh = Ret tt sh' /\
    movement_lock sh' = (if is_ack message then false else movement_lock sh) /\
    in_flight (stm_link sh') =
      (if is_ack message then O else in_flight (stm_link sh)) /\
    forwarded (stm_link sh') = forwarded (stm_link sh) /\
    command_queue sh' = command_queue sh.
Proof.
  intros message sh.
  assert (H : exists sh',
             recv_stm_iter message sh = Ret tt sh' /\
             movement_lock sh' =
               (if is_ack message then false else movement_lock sh) /\
             stm_link sh' = stm_link sh ++ [Rx message] /\
             command_queue sh' = command_queue sh).
  { destruct sh as [m u l aq rq cq pq w lg]. unfold recv_stm_iter, is_ack.
    destruct (Py.startswith "ACK" message).
    - destruct l, (m =? 1) eqn:Em, pq as [|wp pq],
        (String.eqb message "ACK|X") eqn:Ex;
        unfold bind, stm_received, try_except, lock_release, log, get_mode,
          path_get_nowait, android_put, ret;
        cbn; rewrite ?Em, ?Ex; cbn; eexists; (split; [reflexivity|]);
        cbn; repeat split.
    - eexists. split; [reflexivity|]. cbn. repeat split. }
  destruct H as [sh' [Hrun [Hl [Hw Hq]]]]. exists sh'.
  split; [exact Hrun|]. split; [exact Hl|].
  rewrite Hw, SequencerFacts.in_flight_snoc, SequencerFacts.forwarded_snoc.
  cbn [in_flight_step]. rewrite app_nil_r. repeat split. exact Hq.
Qed.

Lemma rpi_action_effect : forall a status sh,
  exists sh',
    rpi_action_iter a status sh = Ret tt sh' /\
    movement_lock sh' =
      (if (String.eqb (cat a) "mode" && transition (value a) (robot_mode sh))%bool
       then false else movement_lock sh) /\
    in_flight (stm_link sh') = in_flight (stm_link sh) /\
    forwarded (stm_link sh') = forwarded (stm_link sh) /\
    command_queue sh' =
      (if ((String.eqb (cat a) "mode" && transition (value a) (robot_mode sh))
           || (negb (String.eqb (cat a) "mode")
               && String.eqb (cat a) "single-obstacle"))%bool
       then [] else command_queue sh) ++
      (if (negb (String.eqb (cat a) "mode")
           && String.eqb (cat a) "single-obstacle")%bool
       then navigate_path else []).
Proof.
  intros a status sh. unfold rpi_action_iter.
  unfold bind at 1. unfold log at 1.
  destruct (String.eqb (cat a) "mode"); cbn [andb negb orb].
  - destruct (transition (value a) (robot_mode sh)) eqn:Et.
    + rewrite ModeFacts.change_mode_effect by (destruct sh; exact Et).
      eexists. split; [reflexivity|]. destruct sh. cbn.
      rewrite direct_in_flight, direct_forwarded. repeat split.
    + destruct sh as [m u l aq rq cq pq w lg]. unfold transition in Et.
      cbn [robot_mode] in Et.
      unfold change_mode. unfold bind at 1. unfold get_mode.
      cbn [robot_mode with_logger].
      destruct (String.eqb (value a) "manual" && (m =? 0))%bool.
      { eexists. split; [reflexivity|]. cbn. rewrite app_nil_r.
        repeat split. }
      destruct (String.eqb (value a) "path" && (m =? 1))%bool;
        [|discriminate].
      eexists. split; [reflexivity|]. cbn. rewrite app_nil_r. repeat split.
  - destruct (String.eqb (cat a) "single-obstacle").
    { rewrite ModeFacts.add_navigate_path_effect. eexists.
      split; [reflexivity|]. destruct sh. cbn. repeat split. }
    destruct (String.eqb (cat a) "stitch").
    + unfold request_stitch. destruct (status =? 200);
        eexists; (split; [reflexivity|]); destruct sh; cbn;
        rewrite app_nil_r; repeat split.
    + eexists. split; [reflexivity|]. destruct sh. cbn.
      rewrite app_nil_r. repeat split.
Qed.

(** The branches of the follower, whether they return or raise and
    whether or not the lock is held on entry: only the forwarding branch
    adds to the commands in flight, and it keeps the lock as it is. *)
Lemma dispatch_effect : forall c sh,
  let sh' := fst (settle (dispatch c sh)) in
  command_queue sh' = command_queue sh /\
  forwarded (stm_link sh') =
    forwarded (stm_link sh) ++ (if forwards c then [c] else []) /\
  in_flight (stm_link sh') =
    (if forwards c then S (in_flight (stm_link sh))
     else in_flight (stm_link sh)) /\
  (forwards c = true -> movement_lock sh' = movement_lock sh).
Proof.
  intros c [m u l aq rq cq pq w lg]. unfold dispatch, forwards.
  destruct (Py.startswith_any stm32_prefixes c).
  { cbn. rewrite SequencerFacts.in_flight_snoc, SequencerFacts.forwarded_snoc.
    cbn. repeat split. }
  destruct (Py.startswith "WN" c).
  { cbn. rewrite app_nil_r. repeat split. }
  destruct (Py.startswith "SNAP" c).
  { cbn. rewrite app_nil_r. repeat split. }
  destruct (Py.startswith "MANSNAP" c).
  { cbn. rewrite app_nil_r. repeat split. }
  destruct (Py.startswith "NOOP" c).
  { destruct l; cbn; rewrite app_nil_r; repeat split; intros H; discriminate H. }
  destruct (String.eqb c "FIN").
  { destruct l; cbn; rewrite direct_in_flight, direct_forwarded, app_nil_r;
      repeat split; intros H; discriminate H. }
  cbn. rewrite app_nil_r. repeat split.
Qed.


(** A step of a process other than the follower. *)
Lemma pass_effect : forall s e s',
  e <> Follow ->
  step s e = Some s' ->
  follower s' = follower s /\
  movement_lock (shared s') =
    (if releases s e then false else movement_lock (shared s)) /\
  in_flight (stm_link (shared s')) =
    match e with
    | Stm message =>
        if is_ack message then O else in_flight (stm_link (shared s))
    | _ => in_flight (stm_link (shared s))
    end /\
  forwarded (stm_link (shared s')) = forwarded (stm_link (shared s)) /\
  command_queue (shared s') =
    (if drains s e then [] else command_queue (shared s)) ++ puts_of s e.
Proof.
  intros [sh f li di re] e s' He Hstep.
  destruct e as [c v probe|op|message| |status]; [| | |now contradiction He|];
    unfold step in Hstep;
    cbn [shared follower listener dispatcher receiver] in Hstep;
    unfold releases, drains, puts_of; cbn [shared follower].
  - destruct re as [|x]; [|discriminate].
    destruct (recv_android_effect c v probe sh)
      as [b [sh' [Hrun [Hl [Hn [Hw Hq]]]]]].
    rewrite Hrun in Hstep. cbn in Hstep. inversion Hstep; subst s'.
    cbn [shared follower]. repeat split; assumption.
  - destruct re as [|x]; [|discriminate].
    destruct (SequencerFacts.nav_apply_effect op sh)
      as [sh' [Hrun [_ [Hl [_ [Hn [Hw Hq]]]]]]].
    rewrite Hrun in Hstep. cbn in Hstep. inversion Hstep; subst s'.
    cbn [shared follower]. split; [reflexivity|]. split; [exact Hl|].
    split; [exact Hn|]. split; [exact Hw|].
    rewrite Hq. destruct op; cbn; rewrite ?app_nil_r; reflexivity.
  - destruct li as [|x]; [|discriminate].
    destruct (recv_stm_effect message sh) as [sh' [Hrun [Hl [Hn [Hw Hq]]]]].
    rewrite Hrun in Hstep. cbn in Hstep. inversion Hstep; subst s'.
    cbn [shared follower]. rewrite app_nil_r. repeat split; assumption.
  - destruct di as [|x]; [|discriminate].
    unfold front_transition, front_loads_path.
    destruct (rpi_action_queue sh) as [|a rest] eqn:Eq; [discriminate|].
    destruct (rpi_action_effect a status (with_rpi_action_queue rest sh))
      as [sh' [Hrun [Hl [Hn [Hw Hq]]]]].
    rewrite Hrun in Hstep. cbn in Hstep. inversion Hstep; subst s'.
    destruct sh as [m u l aq rq cq pq w lg]. cbn in Hl, Hn, Hw, Hq |- *.
    repeat split; assumption.
Qed.

(** *** The lock protocol is kept by every step that is not a hazard *)

Ltac other_process Hstep :=
  match type of Hstep with
  | step ?s ?e = Some ?s' =>
      let He := fresh "He" in
      assert (He : e <> Follow) by discriminate;
      destruct (pass_effect s e s' He Hstep) as [Hf [Hl [Hn _]]]
  end.

Lemma lock_ok_frame : forall s s',
  follower s' = follower s ->
  movement_lock (shared s') = movement_lock (shared s) ->
  in_flight (stm_link (shared s')) = in_flight (stm_link (shared s)) ->
  lock_ok s -> lock_ok s'.
Proof.
  unfold lock_ok. intros s s' Hf Hl Hn H. rewrite Hf, Hl, Hn. exact H.
Qed.

Lemma step_keeps_lock_ok : forall s e s',
  lock_ok s ->
  hazard s e = false ->
  step s e = Some s' ->
  lock_ok s'.
Proof.
  intros s e s' Hlock Hhaz Hstep.
  destruct e as [c v probe|op|message| |status].
  - other_process Hstep.
    exact (lock_ok_frame s s' Hf Hl Hn Hlock).
  - other_process Hstep.
    exact (lock_ok_frame s s' Hf Hl Hn Hlock).
  - (* a message from the controller *)
    other_process Hstep.
    cbn [releases] in Hl. cbn [hazard] in Hhaz.
    destruct (is_ack message);
      [|exact (lock_ok_frame s s' Hf Hl Hn Hlock)].
    unfold lock_ok. rewrite Hf, Hl, Hn.
    destruct (follower s); try (left; reflexivity). discriminate Hhaz.
  - (* the follower *)
    destruct s as [sh f li di re]. unfold step in Hstep.
    cbn [follower shared listener dispatcher receiver] in Hstep.
    unfold lock_ok in Hlock. cbn [shared follower] in Hlock.
    destruct f as [|c|c|x]; [| | |discriminate].
    + destruct (command_queue sh) as [|c rest]; [discriminate|].
      inversion Hstep; subst s'. destruct sh. exact Hlock.
    + destruct (movement_lock sh) eqn:El; [discriminate|].
      inversion Hstep; subst s'. destruct sh. unfold lock_ok. cbn.
      cbn in Hlock, El. split; [reflexivity|].
      destruct Hlock as [Hn|[_ Habs]]; [exact Hn|discriminate Habs].
    + destruct Hlock as [Hheld Hn].
      destruct (dispatch_effect c sh) as [_ [_ [Hn' Hl']]].
      assert (Hgoal : forall f' li' di' re',
                 dispatching f' = false ->
                 lock_ok (mk_sys (fst (settle (dispatch c sh))) f' li' di' re')).
      { intros f' li' di' re' Hf'. unfold lock_ok. cbn [shared follower].
        rewrite Hn', Hn.
        destruct (forwards c).
        - destruct f'; try discriminate; right;
            (split; [reflexivity|]); rewrite Hl' by reflexivity; exact Hheld.
        - destruct f'; try discriminate; left; reflexivity. }
      destruct (dispatch c sh) as [[] sh'|x sh'];
        inversion Hstep; subst s'; apply Hgoal; reflexivity.
  - (* an action *)
    other_process Hstep.
    cbn [releases] in Hl. cbn [hazard] in Hhaz.
    destruct (front_transition (shared s));
      [|exact (lock_ok_frame s s' Hf Hl Hn Hlock)].
    cbn [andb] in Hhaz. apply orb_false_elim in Hhaz.
    destruct Hhaz as [Hd Hz]. apply negb_false_iff, Nat.eqb_eq in Hz.
    unfold lock_ok. rewrite Hf, Hl, Hn.
    destruct (follower s); try (left; exact Hz). discriminate Hd.
Qed.

(** The condition cannot be relaxed: after a hazard the lock is free
    while the follower stands in its branches or while a forwarded
    command is in flight. *)
Lemma hazard_breaks_protocol : forall s e s',
  lock_ok s ->
  hazard s e = true ->
  step s e = Some s' ->
  movement_lock (shared s') = false /\
  (dispatching (follower s') = true \/
   in_flight (stm_link (shared s')) = 1%nat).
Proof.
  intros s e s' Hlock Hhaz Hstep.
  destruct e as [c v probe|op|message| |status]; try discriminate Hhaz.
  - other_process Hstep.
    cbn [releases] in Hl. cbn [hazard] in Hhaz.
    apply andb_true_iff in Hhaz. destruct Hhaz as [Hack Hd].
    rewrite Hack in Hl. rewrite Hf. split; [exact Hl | left; exact Hd].
  - other_process Hstep.
    cbn [releases] in Hl. cbn [hazard] in Hhaz.
    apply andb_true_iff in Hhaz. destruct Hhaz as [Htr Hor].
    rewrite Htr in Hl. rewrite Hf, Hn. split; [exact Hl|].
    apply orb_true_iff in Hor. destruct Hor as [Hd|Hz]; [left; exact Hd|].
    apply negb_true_iff, Nat.eqb_neq in Hz. unfold lock_ok in Hlock.
    destruct (follower s); try (left; reflexivity);
      destruct Hlock as [Hn0|[Hn1 _]]; try contradiction; right; exact Hn1.
Qed.

Lemma run_keeps_lock_ok : forall es s s',
  lock_ok s ->
  hazard_free s es = true ->
  run s es = Some s' ->
  lock_ok s'.
Proof.
  induction es as [|e es IH]; intros s s' Hlock Hfree Hrun.
  - cbn in Hrun. inversion Hrun; subst s'. exact Hlock.
  - cbn [run] in Hrun. cbn [hazard_free] in Hfree.
    apply andb_true_iff in Hfree. destruct Hfree as [Hh Hrest].
    apply negb_true_iff in Hh.
    destruct (step s e) as [s1|] eqn:Hstep; [|discriminate].
    exact (IH s1 s' (step_keeps_lock_ok s e s1 Hlock Hh Hstep) Hrest Hrun).
Qed.

Lemma lock_ok_reading : forall s,
  lock_ok s ->
  (in_flight (stm_link (shared s)) <= 1)%nat /\
  (forall c, follower s = AtDispatch c -> movement_lock (shared s) = true) /\
  (in_flight (stm_link (shared s)) = 1%nat -> movement_lock (shared s) = true).
Proof.
  intros s Hlock. unfold lock_ok in Hlock.
  assert (Hcases :
            (in_flight (stm_link (shared s)) = O \/
             (in_flight (stm_link (shared s)) = 1%nat /\
              movement_lock (shared s) = true)) /\
            (forall c, follower s = AtDispatch c ->
                       movement_lock (shared s) = true)).
  { destruct (follower s) as [|c|c|x].
    - split; [exact Hlock | discriminate].
    - split; [exact Hlock | discriminate].
    - destruct Hlock as [Hl Hn]. split; [left; exact Hn | intros _ _; exact Hl].
    - split; [exact Hlock | discriminate]. }
  destruct Hcases as [Hn Hd].
  split; [|split; [exact Hd|]].
  - destruct Hn as [Hn|[Hn _]]; rewrite Hn; auto.
  - intros H1. destruct Hn as [Hn|[_ Hl]]; [|exact Hl].
    rewrite Hn in H1. discriminate.
Qed.

(** *** Order of transmission, whatever happens to the lock *)






(** Every instant of such a run is the end of a run of the same kind. *)
Lemma hazard_free_prefix : forall es1 es2 s,
  hazard_free s (es1 ++ es2) = true ->
  hazard_free s es1 = true.
Proof.
  induction es1 as [|e es1 IH]; intros es2 s H; [reflexivity|].
  cbn [app hazard_free] in *.
  apply andb_true_iff in H. destruct H as [H1 H2]. rewrite H1. cbn [andb].
  destruct (step s e) as [s1|]; [|reflexivity].
  exact (IH es2 s1 H2).
Qed.

Lemma one_in_flight_at_every_instant : forall es1 es2 s0 s1,
  lock_ok s0 ->
  hazard_free s0 (es1 ++ es2) = true ->
  run s0 es1 = Some s1 ->
  (in_flight (stm_link (shared s1)) <= 1)%nat.
Proof.
  intros es1 es2 s0 s1 Hlock Hfree Hrun.
  apply hazard_free_prefix in Hfree.
  exact (proj1 (lock_ok_reading s1 (run_keeps_lock_ok es1 s0 s1 Hlock Hfree Hrun))).
Qed.

(** Each kind of hazard alone lets a second command out: the two runs
    that refute the claim as stated have one hazard each, the first a
    mode transition with a command in flight and no acknowledgement at
    all, the second an acknowledgement under the follower and no mode
    request at all. *)
Example hazards_of_the_refuting_runs :
  hazard_free started forward_across_mode_change = false /\
  existsb (fun e => match e with Stm _ => true | _ => false end)
    forward_across_mode_change = false /\
  hazard_free started stray_acknowledgement = false /\
  existsb is_mode_message stray_acknowledgement = false.
Proof. vm_compute. repeat split. Qed.

(** An acknowledgement under the follower: BW10 goes out with the lock
    free, and FW20 follows before any answer. *)
Example ack_under_follower_breaks :
  lock_ok ack_under_follower /\
  hazard ack_under_follower (Stm "ACK") = true /\
  option_map (fun s => (forwarded (stm_link (shared s)),
                        in_flight (stm_link (shared s))))
    (run ack_under_follower [Stm "ACK"; Follow; Follow; Follow; Follow])
  = Some (["BW10"; "FW20"], 2%nat).
Proof.
  split; [split; reflexivity|]. split; vm_compute; reflexivity.
Qed.

End FlightFacts.

(** ** The rest of the course *)

Module CourseFacts.
Import Coordinator Navigation Course.

Lemma perform_residue : forall ops sh,
  exists sh',
    perform ops sh = Ret tt sh' /\
    command_queue sh' = residue ops (command_queue sh) /\
    movement_lock sh' = movement_lock sh /\
    robot_mode sh' = robot_mode sh.
Proof.
  induction ops as [|op ops IH]; intros sh.
  - exists sh. repeat split; reflexivity.
  - unfold perform. cbn [for_each]. unfold bind.
    destruct op as [c| |ms|m]; cbn [nav_apply residue].
    + destruct (IH (with_command_queue (command_queue sh ++ [c]) sh))
        as [sh' [Hrun [Hq [Hl Hm]]]].
      exists sh'. unfold command_put. unfold perform in Hrun. rewrite Hrun.
      destruct sh; cbn in *. repeat split; assumption.
    + destruct (IH (with_path_queue (drain (path_queue sh))
                      (with_command_queue (drain (command_queue sh)) sh)))
        as [sh' [Hrun [Hq [Hl Hm]]]].
      exists sh'. unfold clear_queues. unfold perform in Hrun. rewrite Hrun.
      destruct sh; cbn in *. rewrite NavigationFacts.drain_nil in Hq.
      repeat split; assumption.
    + destruct (IH sh) as [sh' [Hrun [Hq [Hl Hm]]]].
      exists sh'. unfold ret. unfold perform in Hrun. rewrite Hrun.
      repeat split; assumption.
    + destruct (IH (with_stm_link (stm_link sh ++ [TxDirect m]) sh))
        as [sh' [Hrun [Hq [Hl Hm]]]].
      exists sh'. unfold stm_send. unfold perform in Hrun. rewrite Hrun.
      destruct sh; cbn in *. repeat split; assumption.
Qed.

Lemma residue_app : forall ops1 ops2 q,
  residue (ops1 ++ ops2) q = residue ops2 (residue ops1 q).
Proof.
  induction ops1 as [|op ops1 IH]; intros ops2 q; [reflexivity|].
  destruct op; cbn [app residue]; apply IH.
Qed.

(** *** Driving until blocked *)

Lemma wait_blocked_spec : forall reads,
  match wait_blocked reads with
  | Some ops => ops = [ClearQueues; Put "STOP"] /\ existsb (Z.eqb 0) reads = true
  | None => existsb (Z.eqb 0) reads = false
  end.
Proof.
  induction reads as [|r reads IH]; [reflexivity|].
  cbn [wait_blocked existsb]. rewrite (Z.eqb_sym 0 r).
  destruct (r =? 0); [split; reflexivity|]. exact IH.
Qed.

(** X10: both drive-until-blocked loops, [move_until_obstacle_us] and
    [return_home_2], return exactly when a test after the first reads
    the flag as 0, and then their last act is a drain followed by STOP:
    carried out with no other process in between, they leave STOP alone
    in the command queue whatever was queued before. *)
Theorem drive_until_blocked_leaves_stop : forall reads sh,
  (move_until_obstacle_us reads = None <->
     existsb (Z.eqb 0) (tl reads) = false) /\
  (return_home_2 reads = None <-> existsb (Z.eqb 0) (tl reads) = false) /\
  (forall ops,
     move_until_obstacle_us reads = Some ops \/ return_home_2 reads = Some ops ->
     exists sh',
       perform ops sh = Ret tt sh' /\ command_queue sh' = ["STOP"]).
Proof.
  intros reads sh.
  assert (Hstop : forall pre, residue (pre ++ [ClearQueues; Put "STOP"])
                                (command_queue sh) = ["STOP"]).
  { intros pre. rewrite residue_app. reflexivity. }
  destruct reads as [|r rest].
  { cbn. repeat split; try reflexivity. intros ops [H|H]; discriminate. }
  cbn [tl]. unfold move_until_obstacle_us, return_home_2.
  pose proof (wait_blocked_spec rest) as Hw.
  destruct (wait_blocked rest) as [ops0|].
  - destruct Hw as [-> Hex]. rewrite Hex.
    split; [split; discriminate|]. split; [split; discriminate|].
    intros ops [H|H]; inversion H; subst ops.
    + destruct (perform_residue
                  ((if r =? 1 then [ClearQueues; Put "FW--"] else [])
                   ++ [ClearQueues; Put "STOP"]) sh) as [sh' [Hrun [Hq _]]].
      exists sh'. split; [exact Hrun|]. now rewrite Hq, Hstop.
    + destruct (perform_residue
                  ((if r =? 1 then [Put "FW--"] else [])
                   ++ [ClearQueues; Put "STOP"]) sh) as [sh' [Hrun [Hq _]]].
      exists sh'. split; [exact Hrun|]. now rewrite Hq, Hstop.
  - rewrite Hw. split; [split; reflexivity|]. split; [split; reflexivity|].
    intros ops [H|H]; discriminate.
Qed.

Lemma drive_until_blocked_leaves_stop_witness :
  exists sh',
    perform [ClearQueues; Put "FW--"; ClearQueues; Put "STOP"]
      (with_command_queue ["FR30"; "FL30"] (shared started)) = Ret tt sh' /\
    command_queue sh' = ["STOP"].
Proof.
  exact (proj2 (proj2 (drive_until_blocked_leaves_stop [1; 1; 1; 0]
                         (with_command_queue ["FR30"; "FL30"] (shared started))))
           [ClearQueues; Put "FW--"; ClearQueues; Put "STOP"]
           (or_introl eq_refl)).
Defined.

(** *** Returning home *)

Lemma residue_puts : forall l q, residue (puts l) q = q ++ l.
Proof.
  induction l as [|c l IH]; intros q; cbn [puts map residue].
  - now rewrite app_nil_r.
  - unfold puts in IH. rewrite IH, <- app_assoc. reflexivity.
Qed.

Lemma commands_app : forall a b, commands (a ++ b) = commands a ++ commands b.
Proof. intros a b. unfold commands. apply flat_map_app. Qed.

Lemma commands_puts : forall l, commands (puts l) = l.
Proof.
  induction l as [|c l IH]; [reflexivity|].
  cbn. f_equal. exact IH.
Qed.

Lemma residue_drain_free : forall ops q,
  drain_free ops = true -> residue ops q = q ++ commands ops.
Proof.
  induction ops as [|op ops IH]; intros q H.
  - cbn. now rewrite app_nil_r.
  - cbn [drain_free forallb] in H. apply andb_true_iff in H.
    destruct H as [Hop Hrest]. fold (drain_free ops) in Hrest.
    destruct op; try discriminate; cbn [residue]; rewrite (IH _ Hrest).
    + cbn. rewrite <- app_assoc. reflexivity.
    + reflexivity.
    + reflexivity.
Qed.

Lemma drain_free_put_forward : forall d, drain_free (put_forward d) = true.
Proof.
  intros d. unfold put_forward.
  destruct (d <=? 99); [reflexivity|].
  destruct (d - 99 <? 99); reflexivity.
Qed.

Lemma drain_free_puts : forall l, drain_free (puts l) = true.
Proof. induction l as [|c l IH]; [reflexivity | exact IH]. Qed.

Lemma home_branch_residue : forall turn around face samula x q,
  residue (home_branch turn around face samula x) q =
  commands (home_branch turn around face samula x).
Proof.
  intros turn around face samula x q. unfold home_branch.
  cbn [residue]. rewrite residue_drain_free; [reflexivity|].
  unfold drain_free. cbn [forallb andb].
  rewrite !forallb_app.
  fold (drain_free (put_forward (single_xdist x))).
  rewrite drain_free_put_forward.
  destruct (samula =? 0); [|reflexivity].
  cbn [forallb andb]. rewrite forallb_app.
  fold (drain_free (puts around)). rewrite drain_free_puts. reflexivity.
Qed.

(** X11: [return_home] puts the forward commands of the gap distance
    and, five seconds later, drains the queues before its turn.  Carried
    out with no other process in between, it leaves in the command queue
    its commands without those of the gap distance: what the follower
    has not taken of the gap by then is lost, and so is anything queued
    before. *)
Theorem return_home_drains_gap :
  forall second_arrow_dir between_obstacles_ydist samula total_xdist sh,
  exists sh',
    perform (return_home second_arrow_dir between_obstacles_ydist samula
               total_xdist) sh = Ret tt sh' /\
    commands (return_home second_arrow_dir between_obstacles_ydist samula
                total_xdist)
    = map fw (forward_magnitudes between_obstacles_ydist)
      ++ command_queue sh'.
Proof.
  intros dir g samula x sh.
  destruct (perform_residue (return_home dir g samula x) sh)
    as [sh' [Hrun [Hq _]]].
  exists sh'. split; [exact Hrun|]. rewrite Hq.
  unfold return_home. cbn [residue commands flat_map app].
  change (flat_map _ ?l) with (commands l).
  rewrite residue_app, commands_app. cbn [residue].
  assert (Hgap : commands (put_forward g) = map fw (forward_magnitudes g)).
  { rewrite NavigationFacts.put_forward_magnitudes.
    induction (forward_magnitudes g) as [|m l IH]; [reflexivity|].
    cbn. f_equal. exact IH. }
  rewrite Hgap. f_equal. cbn [commands flat_map app].
  change (flat_map _ ?l) with (commands l).
  destruct (is_ dir "38"); [|destruct (is_ dir "39")];
    now rewrite home_branch_residue.
Qed.

(** *** Passing obstacle 2 *)

Lemma c_int_small : forall n,
  - 2 ^ 31 <= n < 2 ^ 31 -> Py.c_int n = n.
Proof.
  intros n H. unfold Py.c_int. rewrite Z.mod_small; lia.
Qed.

Lemma steps_forward_app : forall a b,
  steps_forward (a ++ b) = steps_forward a + steps_forward b.
Proof.
  intros a b. unfold steps_forward.
  rewrite commands_app, count_occ_app. lia.
Qed.

Lemma pass_loop_counts : forall reads x ops x',
  pass_loop reads x = Some (ops, x') ->
  - 2 ^ 31 <= x ->
  x + 10 * Z.of_nat (List.length reads) < 2 ^ 31 ->
  x' = x + 10 * steps_forward ops /\
  0 <= steps_forward ops <= Z.of_nat (List.length reads).
Proof.
  induction reads as [|r reads IH]; intros x ops x' H Hlo Hhi.
  - discriminate.
  - cbn [pass_loop] in H. cbn [List.length] in Hhi.
    destruct (r =? 0).
    + rewrite c_int_small in H by lia.
      destruct (pass_loop reads (x + 10)) as [[ops1 x1]|] eqn:E;
        [|discriminate].
      inversion H; subst ops x'. clear H.
      destruct (IH (x + 10) ops1 x1 E) as [Hx Hn]; [lia|lia|].
      change (Sleep 2000 :: Put "FW10" :: Sleep 3000 :: ops1)
        with ([Sleep 2000; Put "FW10"; Sleep 3000] ++ ops1).
      rewrite steps_forward_app.
      replace (steps_forward [Sleep 2000; Put "FW10"; Sleep 3000]) with 1
        by reflexivity.
      cbn [List.length]. lia.
    + inversion H; subst ops x'.
      replace (steps_forward []) with 0 by reflexivity.
      cbn [List.length]. lia.
Qed.

(** X12: when a pass by the IR flag returns, [total_xdist] has grown by
    ten for each FW10 the pass has put, neither more nor less, as long
    as the counter stays within a C int.  This holds for
    [move_past_obstacle_irl] (and its right-hand twin), which adds a
    closing FW10, and for the long variants, which do not. *)
Theorem dead_reckoning_matches_commands : forall reads x ops x',
  - 2 ^ 31 <= x ->
  x + 10 * Z.of_nat (List.length reads + 1) < 2 ^ 31 ->
  (move_past_obstacle_irl reads x = Some (ops, x') ->
   x' = x + 10 * steps_forward ops /\ 1 <= steps_forward ops) /\
  (move_past_obstacle_irl_long reads x = Some (ops, x') ->
   x' = x + 10 * steps_forward ops).
Proof.
  intros reads x ops x' Hlo Hhi.
  rewrite Nat.add_1_r, Nat2Z.inj_succ in Hhi.
  assert (Hgen : forall r rest,
            reads = r :: rest ->
            forall before x1,
              (before, x1) =
                (if r =? 0
                 then ([ClearQueues; Put "FW10"; Sleep 2000], Py.c_int (x + 10))
                 else ([], x)) ->
              x1 = x + 10 * steps_forward before /\
              0 <= steps_forward before <= 1).
  { intros r rest _ before x1 Hb. destruct (r =? 0); inversion Hb; subst.
    - rewrite c_int_small by lia.
      replace (steps_forward [ClearQueues; Put "FW10"; Sleep 2000]) with 1
        by reflexivity. lia.
    - replace (steps_forward []) with 0 by reflexivity. lia. }
  split; intros H; destruct reads as [|r rest]; try discriminate;
    cbn [List.length] in Hhi; rewrite Nat2Z.inj_succ in Hhi.
  - unfold move_past_obstacle_irl in H.
    destruct (if r =? 0
              then ([ClearQueues; Put "FW10"; Sleep 2000], Py.c_int (x + 10))
              else ([], x)) as [before x1] eqn:Eb.
    destruct (Hgen r rest eq_refl before x1 (eq_sym Eb)) as [Hx1 Hn1].
    destruct (pass_loop rest x1) as [[ops2 x2]|] eqn:E; [|discriminate].
    destruct (pass_loop_counts rest x1 ops2 x2 E) as [Hx2 Hn2]; [lia|lia|].
    inversion H; subst ops x'. clear H.
    rewrite c_int_small by lia.
    rewrite !steps_forward_app.
    replace (steps_forward [Put "FW10"]) with 1 by reflexivity. lia.
  - unfold move_past_obstacle_irl_long in H.
    destruct (if r =? 0
              then ([ClearQueues; Put "FW10"; Sleep 2000], Py.c_int (x + 10))
              else ([], x)) as [before x1] eqn:Eb.
    destruct (Hgen r rest eq_refl before x1 (eq_sym Eb)) as [Hx1 Hn1].
    destruct (pass_loop rest x1) as [[ops2 x2]|] eqn:E; [|discriminate].
    destruct (pass_loop_counts rest x1 ops2 x2 E) as [Hx2 Hn2]; [lia|lia|].
    inversion H; subst ops x'. clear H.
    rewrite steps_forward_app. lia.
Qed.

Lemma dead_reckoning_matches_commands_witness :
  exists ops,
    move_past_obstacle_irl [0; 0; 0; 1] 20 = Some (ops, 60) /\
    60 = 20 + 10 * steps_forward ops.
Proof.
  eexists. split; [reflexivity|].
  refine (proj1 (proj1 (dead_reckoning_matches_commands [0; 0; 0; 1] 20 _ 60
                          _ _) eq_refl)); cbn; lia.
Defined.

Lemma pass_loop_ends : forall reads x,
  pass_loop reads x = None <-> forallb (Z.eqb 0) reads = true.
Proof.
  induction reads as [|r reads IH]; intros x.
  - split; reflexivity.
  - cbn [pass_loop forallb]. rewrite (Z.eqb_sym 0 r).
    destruct (r =? 0); cbn [andb].
    + rewrite <- (IH (Py.c_int (x + 10))).
      destruct (pass_loop reads (Py.c_int (x + 10))) as [[ops x1]|];
        split; intros H; (reflexivity || discriminate).
    + split; discriminate.
Qed.

(** X13: a pass by the IR flag goes on for as long as the flag reads 0:
    on a finite record of reads it returns exactly when one of the reads
    that follow the first is not 0.  Nothing else ends it; there is no
    bound on the number of FW10 it puts. *)
Theorem pass_ends_on_clear_read : forall reads x,
  (move_past_obstacle_irl reads x = None <->
     forallb (Z.eqb 0) (tl reads) = true) /\
  (move_past_obstacle_irl_long reads x = None <->
     forallb (Z.eqb 0) (tl reads) = true).
Proof.
  intros [|r rest] x; [split; split; reflexivity|].
  cbn [tl]. unfold move_past_obstacle_irl, move_past_obstacle_irl_long.
  destruct (if r =? 0
            then ([ClearQueues; Put "FW10"; Sleep 2000], Py.c_int (x + 10))
            else ([], x)) as [before x1].
  rewrite <- (pass_loop_ends rest x1).
  destruct (pass_loop rest x1) as [[ops x2]|];
    split; split; intros H; (reflexivity || discriminate).
Qed.

Lemma pass_ends_on_clear_read_witness :
  move_past_obstacle_irl [0; 0; 0] 0 = None /\
  move_past_obstacle_irl_long [1; 0; 0] 0 = None.
Proof.
  split.
  - exact (proj2 (proj1 (pass_ends_on_clear_read [0; 0; 0] 0)) eq_refl).
  - exact (proj2 (proj2 (pass_ends_on_clear_read [1; 0; 0] 0)) eq_refl).
Defined.

(** *** Forward distances *)

(** X14: [put_forward] puts one, two or three FW commands whose
    magnitudes always add up to the distance; every magnitude is at
    most 99 exactly when the distance is at most 297. *)
Theorem put_forward_sound : forall dist,
  put_forward dist = map (fun m => Put (fw m)) (forward_magnitudes dist) /\
  (1 <= List.length (forward_magnitudes dist) <= 3)%nat /\
  sum (forward_magnitudes dist) = dist /\
  (Forall (fun m => m <= 99) (forward_magnitudes dist) <-> dist <= 297).
Proof.
  intros dist. split; [apply NavigationFacts.put_forward_magnitudes|].
  split.
  - unfold forward_magnitudes.
    destruct (dist <=? 99); [cbn; lia|].
    destruct (dist - 99 <? 99); cbn; lia.
  - split; [apply NavigationFacts.forward_magnitudes_sum|].
    apply NavigationFacts.forward_magnitudes_capped_iff.
Qed.

Lemma put_forward_sound_witness :
  219 <= 297 /\ Forall (fun m => m <= 99) (forward_magnitudes 219).
Proof.
  assert (H : 219 <= 297) by lia.
  split; [exact H|].
  exact (proj2 (proj2 (proj2 (proj2 (put_forward_sound 219)))) H).
Defined.

(** *** The gap between the obstacles *)

Lemma sample_gap_steady : forall cell ns passes max_list,
  (forall i, In i passes ->
     Py.int_of_float (fst (cell i)) = Some (nth i ns 0) /\
     Py.int_of_float (snd (cell i)) = Some (nth i ns 0)) ->
  sample_gap passes cell max_list =
  Done (max_list ++ qualifying (map (fun i => nth i ns 0) passes)).
Proof.
  intros cell ns passes. induction passes as [|i rest IH]; intros max_list H.
  - cbn. now rewrite app_nil_r.
  - cbn [sample_gap]. destruct (H i (or_introl eq_refl)) as [H1 H2].
    unfold int. rewrite H1, H2.
    cbn [map qualifying filter]. fold (qualifying (map (fun i => nth i ns 0) rest)).
    destruct (nth i ns 0 <? 150).
    + rewrite IH by (intros j Hj; apply H; right; exact Hj).
      rewrite <- app_assoc. reflexivity.
    + apply IH. intros j Hj. apply H. right. exact Hj.
Qed.

Lemma five_readings : forall ns : list Z,
  List.length ns = 5%nat -> map (fun i => nth i ns 0) (seq 0 5) = ns.
Proof.
  intros [|a [|b [|c [|d [|e [|f ns]]]]]] H; try discriminate. reflexivity.
Qed.

(** X15: when the cell holds still during each pass and converts to
    integers, the gap phase is decided by the five integers alone: with
    no integer below 150 it raises; otherwise it stores the largest
    integer below 150 plus 70, as a C int. *)
Theorem measure_gap_steady : forall cell ns,
  reads_as cell ns ->
  measure_gap cell =
  match Py.max (qualifying ns) with
  | None => Raised (ValueError "max() arg is an empty sequence")
  | Some m => Done (Py.c_int (Py.c_int m + 70))
  end.
Proof.
  intros cell ns [Hlen Hcell]. unfold measure_gap.
  rewrite (sample_gap_steady cell ns (seq 0 5) []).
  - cbn [app]. rewrite (five_readings ns Hlen).
    destruct (Py.max (qualifying ns)); reflexivity.
  - intros i Hi. apply Hcell. apply in_seq in Hi. lia.
Qed.

Lemma readings_scenario :
  reads_as
    (steady [10.0%float; 160.0%float; 30.0%float; 200.0%float; 40.0%float])
    [10; 160; 30; 200; 40].
Proof.
  split; [reflexivity|]. intros i Hi.
  do 5 (destruct i as [|i]; [split; reflexivity|]). lia.
Defined.

Lemma measure_gap_steady_witness :
  measure_gap
    (steady [10.0%float; 160.0%float; 30.0%float; 200.0%float; 40.0%float])
  = Done (Py.c_int (Py.c_int 40 + 70)).
Proof.
  exact (measure_gap_steady _ [10; 160; 30; 200; 40] readings_scenario).
Defined.

Lemma fold_max_in : forall (rest : list Z) x,
  In (fold_left Z.max rest x) (x :: rest).
Proof.
  induction rest as [|y rest IH]; intros x.
  - left. reflexivity.
  - cbn [fold_left]. destruct (IH (Z.max x y)) as [H|H].
    + rewrite <- H.
      destruct (Z.max_spec x y) as [[_ Hm]|[_ Hm]]; rewrite Hm.
      * right. left. reflexivity.
      * left. reflexivity.
    + right. right. exact H.
Qed.

(** X16: with such readings, none of them below -2^31, a gap distance
    that is stored is at most 149 + 70, and the commands [return_home]
    puts for it have magnitudes of at most 99 that add up to it. *)
Theorem steady_gap_fits_three_commands : forall cell ns g,
  reads_as cell ns ->
  Forall (fun n => - 2 ^ 31 <= n) ns ->
  measure_gap cell = Done g ->
  g <= 149 + 70 /\
  Forall (fun m => m <= 99) (forward_magnitudes g) /\
  sum (forward_magnitudes g) = g.
Proof.
  intros cell ns g Hr Hlo Hg.
  rewrite (measure_gap_steady cell ns Hr) in Hg.
  destruct (Py.max (qualifying ns)) as [m|] eqn:Em; [|discriminate].
  assert (Hin : In m (qualifying ns)).
  { unfold Py.max in Em. destruct (qualifying ns) as [|x rest];
      [discriminate|]. inversion Em. apply fold_max_in. }
  unfold qualifying in Hin. apply filter_In in Hin. destruct Hin as [Hin Hlt].
  apply Z.ltb_lt in Hlt.
  rewrite Forall_forall in Hlo. specialize (Hlo m Hin).
  rewrite (c_int_small m) in Hg by lia.
  rewrite c_int_small in Hg by lia.
  inversion Hg; subst g. clear Hg.
  split; [lia|]. split.
  - apply NavigationFacts.forward_magnitudes_capped. lia.
  - apply NavigationFacts.forward_magnitudes_sum.
Qed.

Lemma steady_gap_fits_three_commands_witness :
  110 <= 149 + 70 /\
  Forall (fun m => m <= 99) (forward_magnitudes 110) /\
  sum (forward_magnitudes 110) = 110.
Proof.
  refine (steady_gap_fits_three_commands _ [10; 160; 30; 200; 40] 110
            readings_scenario _ _).
  - repeat constructor; lia.
  - reflexivity.
Defined.

(** *** Left and right *)

Lemma mirror_put_forward : forall d,
  map mirror_op (put_forward d) = put_forward d.
Proof.
  intros d. unfold put_forward.
  destruct (d <=? 99); [reflexivity|].
  destruct (d - 99 <? 99); reflexivity.
Qed.

Lemma mirror_pass_loop : forall reads x,
  mirror_ops (pass_loop reads x) = pass_loop reads x.
Proof.
  induction reads as [|r reads IH]; intros x; [reflexivity|].
  cbn [pass_loop]. destruct (r =? 0); [|reflexivity].
  specialize (IH (Py.c_int (x + 10))).
  destruct (pass_loop reads (Py.c_int (x + 10))) as [[ops x1]|];
    [|reflexivity].
  cbn in IH. inversion IH as [Heq]. cbn. rewrite !Heq. reflexivity.
Qed.

Lemma mirror_pass : forall reads x,
  mirror_ops (move_past_obstacle_irl reads x) = move_past_obstacle_irl reads x /\
  mirror_ops (move_past_obstacle_irl_long reads x)
    = move_past_obstacle_irl_long reads x.
Proof.
  intros [|r rest] x; [split; reflexivity|].
  unfold move_past_obstacle_irl, move_past_obstacle_irl_long.
  destruct (r =? 0).
  - pose proof (mirror_pass_loop rest (Py.c_int (x + 10))) as H.
    destruct (pass_loop rest (Py.c_int (x + 10))) as [[ops x1]|];
      [|split; reflexivity].
    cbn in H. inversion H as [Heq]. cbn. rewrite !map_app, !Heq.
    split; reflexivity.
  - pose proof (mirror_pass_loop rest x) as H.
    destruct (pass_loop rest x) as [[ops x1]|]; [|split; reflexivity].
    cbn in H. inversion H as [Heq]. cbn. rewrite ?map_app, !Heq.
    split; reflexivity.
Qed.

Lemma back_off_mirror : forall compensate back,
  back_off compensate = Done back -> map mirror_op back = back.
Proof.
  intros compensate back H. unfold back_off in H.
  destruct (fst compensate <? 15.0)%float.
  - destruct (int (snd compensate)) as [n|e]; [|discriminate].
    destruct (27 - n >=? 0); inversion H; reflexivity.
  - inversion H. reflexivity.
Qed.

(** X17: through every phase the course for a left arrow ("39") is the
    course for a right arrow ("38") with the left and right turns
    exchanged, for the same sensor readings and distances: the forward
    and backward legs, the sleeps and the drains are the same, and so is
    the dead-reckoned distance. *)
Theorem left_course_mirrors_right :
  map mirror_op (clear_first_obstacle (Some "38"))
    = clear_first_obstacle (Some "39") /\
  (forall compensate ir_reads total_xdist,
     mirror_result
       (clear_second_obstacle_p1 (Some "38") compensate ir_reads total_xdist)
     = clear_second_obstacle_p1 (Some "39") compensate ir_reads total_xdist) /\
  (forall total_xdist ir_reads,
     mirror_ops (clear_second_obstacle_p2 (Some "38") total_xdist ir_reads)
     = clear_second_obstacle_p2 (Some "39") total_xdist ir_reads) /\
  map mirror_op (clear_second_obstacle_p3 (Some "38"))
    = clear_second_obstacle_p3 (Some "39") /\
  (forall between_obstacles_ydist samula total_xdist,
     map mirror_op
       (return_home (Some "38") between_obstacles_ydist samula total_xdist)
     = return_home (Some "39") between_obstacles_ydist samula total_xdist).
Proof.
  split; [reflexivity|]. split; [|split; [|split; [reflexivity|]]].
  - intros compensate ir_reads x.
    unfold clear_second_obstacle_p1. cbn [is_ String.eqb Ascii.eqb Bool.eqb].
    unfold p1_branch, move_past_obstacle_irr.
    destruct (back_off compensate) as [back|e] eqn:Eb; [|reflexivity].
    pose proof (back_off_mirror compensate back Eb) as Hback.
    pose proof (proj1 (mirror_pass ir_reads x)) as Hpass.
    destruct (move_past_obstacle_irl ir_reads x) as [[ops x1]|];
      [|reflexivity].
    cbn in Hpass. inversion Hpass as [Hops].
    cbn [mirror_result mirror_ops map]. rewrite !map_app. cbn [map].
    rewrite !map_app, Hback, !Hops. reflexivity.
  - intros x reads.
    unfold clear_second_obstacle_p2. cbn [is_ String.eqb Ascii.eqb Bool.eqb].
    unfold p2_branch, move_past_obstacle_irr_long.
    pose proof (proj2 (mirror_pass reads x)) as Hpass.
    destruct (move_past_obstacle_irl_long reads x) as [[ops x1]|];
      [|reflexivity].
    cbn in Hpass. inversion Hpass as [Hops].
    cbn [mirror_ops map]. rewrite !map_app, mirror_put_forward. cbn [map].
    rewrite !Hops. reflexivity.
  - intros g samula x.
    unfold return_home. cbn [is_ String.eqb Ascii.eqb Bool.eqb].
    unfold home_branch.
    destruct (samula =? 0); cbn [map app]; rewrite !map_app;
      cbn [map app]; rewrite ?map_app, !mirror_put_forward; reflexivity.
Qed.

(** X18: a classification that is not "39" (any other text, and the
    [None] of a failed request) takes the course of "38" through every
    phase. *)
Theorem unrecognised_arrow_is_right : forall arrow_dir,
  is_ arrow_dir "39" = false ->
  clear_first_obstacle arrow_dir = clear_first_obstacle (Some "38") /\
  (forall compensate ir_reads total_xdist,
     clear_second_obstacle_p1 arrow_dir compensate ir_reads total_xdist
     = clear_second_obstacle_p1 (Some "38") compensate ir_reads total_xdist) /\
  (forall total_xdist ir_reads,
     clear_second_obstacle_p2 arrow_dir total_xdist ir_reads
     = clear_second_obstacle_p2 (Some "38") total_xdist ir_reads) /\
  clear_second_obstacle_p3 arrow_dir = clear_second_obstacle_p3 (Some "38") /\
  (forall between_obstacles_ydist samula total_xdist,
     return_home arrow_dir between_obstacles_ydist samula total_xdist
     = return_home (Some "38") between_obstacles_ydist samula total_xdist).
Proof.
  intros dir H.
  unfold clear_first_obstacle, clear_second_obstacle_p1,
    clear_second_obstacle_p2, clear_second_obstacle_p3, return_home.
  rewrite H. cbn [is_ String.eqb Ascii.eqb Bool.eqb].
  destruct (is_ dir "38"); repeat split; reflexivity.
Qed.

Lemma unrecognised_arrow_is_right_witness :
  clear_first_obstacle None = clear_first_obstacle (Some "38") /\
  clear_second_obstacle_p3 (Some "bullseye")
    = clear_second_obstacle_p3 (Some "38").
Proof.
  split.
  - exact (proj1 (unrecognised_arrow_is_right None eq_refl)).
  - exact (proj1 (proj2 (proj2 (proj2
             (unrecognised_arrow_is_right (Some "bullseye") eq_refl))))).
Defined.

(** *** From the answer of the image service to the script *)

Lemma clear_first_obstacle_commands : forall arrow_dir,
  commands (clear_first_obstacle arrow_dir) =
  if is_ arrow_dir "39" then left_script else right_script.
Proof.
  intros dir. unfold clear_first_obstacle.
  destruct (is_ dir "38") eqn:E38.
  - destruct dir as [v|]; [|discriminate]. cbn in E38.
    apply String.eqb_eq in E38. subst v. reflexivity.
  - destruct (is_ dir "39"); reflexivity.
Qed.

(** X19: the script for obstacle 1 as a function of the answer of the
    image service.  An answer other than 200 makes [detect_arrow_image]
    return [None], leave the global [arrow_dir] as it was and queue one
    error for the operator, and the run goes on with the right script;
    a 200 selects the left script exactly when its image id is "39".
    Nothing is sent to the controller or put in the command queue by the
    classification itself. *)
Theorem classification_selects_script : forall resp arrow_dir sh,
  exists r sh',
    detect_arrow_image resp arrow_dir sh = Ret r sh' /\
    fst r = (if status_code resp =? 200 then Some (image_id resp) else None) /\
    snd r = (if status_code resp =? 200 then image_id resp else arrow_dir) /\
    commands (clear_first_obstacle (fst r)) =
      (if ((status_code resp =? 200) && String.eqb (image_id resp) "39")%bool
       then left_script else right_script) /\
    android_queue sh' =
      android_queue sh ++
      (if status_code resp =? 200 then []
       else [mk_msg "error"
               (Text "Something went wrong when requesting path from image-rec API. Please try again.")]) /\
    command_queue sh' = command_queue sh /\
    stm_link sh' = stm_link sh.
Proof.
  intros resp arrow [m u k aq rq cq pq w lg].
  unfold detect_arrow_image, snap_and_rec_2.
  destruct (status_code resp =? 200) eqn:Es.
  - do 2 eexists. split; [reflexivity|]. cbn [fst snd].
    rewrite clear_first_obstacle_commands. cbn. rewrite app_nil_r.
    repeat split.
  - do 2 eexists. split; [reflexivity|]. cbn [fst snd].
    rewrite clear_first_obstacle_commands. cbn. repeat split.
Qed.

End CourseFacts.

(** ** [outdoorsify] *)

Module OutdoorFacts.
Import Outdoor.

Lemma prefix_two : forall a b s,
  Py.startswith (String a (String b EmptyString)) s = true ->
  exists rest, s = String a (String b rest).
Proof.
  intros a b [|c [|d rest]] H; unfold Py.startswith in H; cbn in H.
  - discriminate.
  - destruct (ascii_dec a c); discriminate.
  - destruct (ascii_dec a c); [|discriminate].
    destruct (ascii_dec b d); [|discriminate].
    subst. exists rest. reflexivity.
Qed.

Lemma prefix_empty : forall s, String.prefix "" s = true.
Proof. intros [|c s]; reflexivity. Qed.

Lemma turn_cases : forall original,
  existsb (String.eqb original) ["FL00"; "FR00"; "BL00"; "BR00"] = true ->
  original = "FL00" \/ original = "FR00" \/
  original = "BL00" \/ original = "BR00".
Proof.
  intros original H. apply existsb_exists in H. destruct H as [x [Hin Heq]].
  apply String.eqb_eq in Heq. subst x. cbn in Hin.
  destruct Hin as [H|[H|[H|[H|[]]]]]; symmetry in H; tauto.
Qed.

Lemma replace_at_prefix : forall a b new rest,
  Py.replace (String a (String b EmptyString)) new (String a (String b rest)) =
  (new ++ Py.replace (String a (String b EmptyString)) new rest)%string.
Proof.
  intros a b new rest. unfold Py.replace. cbn [Py.replace_from].
  cbn [String.prefix]. destruct (ascii_dec a a) as [_|Ha]; [|now contradiction Ha].
  destruct (ascii_dec b b) as [_|Hb]; [|now contradiction Hb].
  rewrite prefix_empty. reflexivity.
Qed.

Lemma startswith_two : forall a b rest,
  Py.startswith (String a (String b EmptyString)) (String a (String b rest))
  = true.
Proof.
  intros a b rest. unfold Py.startswith. cbn [String.prefix].
  destruct (ascii_dec a a) as [_|Ha]; [|now contradiction Ha].
  destruct (ascii_dec b b) as [_|Hb]; [|now contradiction Hb].
  apply prefix_empty.
Qed.

(** X20: what [outdoorsify] does to every command.  The four regular
    turns become their outdoor turns; a command that starts with FW has
    every occurrence of FW replaced by FS, its prefix included, and one
    that starts with BW every occurrence of BW by BS; every other
    command, the large turns among them, is returned as it is.  So
    [outdoorsify] is idempotent, and it keeps a command of the
    forwarding branch of the follower in that branch. *)
Theorem outdoorsify_idempotent_and_forwardable :
  (outdoorsify "FL00" = "FL20" /\ outdoorsify "FR00" = "FR20" /\
   outdoorsify "BL00" = "BL20" /\ outdoorsify "BR00" = "BR20") /\
  (forall rest,
     outdoorsify ("FW" ++ rest) = ("FS" ++ Py.replace "FW" "FS" rest)%string) /\
  (forall rest,
     outdoorsify ("BW" ++ rest) = ("BS" ++ Py.replace "BW" "BS" rest)%string) /\
  (forall original,
     existsb (String.eqb original) ["FL00"; "FR00"; "BL00"; "BR00"] = false ->
     Py.startswith "FW" original = false ->
     Py.startswith "BW" original = false ->
     outdoorsify original = original) /\
  (forall original,
     outdoorsify (outdoorsify original) = outdoorsify original /\
     (Coordinator.forwards original = true ->
      Coordinator.forwards (outdoorsify original) = true)).
Proof.
  assert (Hfw : forall rest,
     outdoorsify ("FW" ++ rest) = ("FS" ++ Py.replace "FW" "FS" rest)%string).
  { intros rest. unfold outdoorsify.
    destruct (existsb (String.eqb ("FW" ++ rest))
                ["FL00"; "FR00"; "BL00"; "BR00"]) eqn:Eturn.
    { destruct (turn_cases _ Eturn) as [H|[H|[H|H]]]; discriminate H. }
    change ("FW" ++ rest)%string with (String "F" (String "W" rest)).
    rewrite startswith_two. apply replace_at_prefix. }
  assert (Hbw : forall rest,
     outdoorsify ("BW" ++ rest) = ("BS" ++ Py.replace "BW" "BS" rest)%string).
  { intros rest. unfold outdoorsify.
    destruct (existsb (String.eqb ("BW" ++ rest))
                ["FL00"; "FR00"; "BL00"; "BR00"]) eqn:Eturn.
    { destruct (turn_cases _ Eturn) as [H|[H|[H|H]]]; discriminate H. }
    change ("BW" ++ rest)%string with (String "B" (String "W" rest)).
    replace (Py.startswith "FW" (String "B" (String "W" rest))) with false
      by reflexivity.
    rewrite startswith_two. apply replace_at_prefix. }
  assert (Hother : forall original,
     existsb (String.eqb original) ["FL00"; "FR00"; "BL00"; "BR00"] = false ->
     Py.startswith "FW" original = false ->
     Py.startswith "BW" original = false ->
     outdoorsify original = original).
  { intros original H1 H2 H3. unfold outdoorsify. now rewrite H1, H2, H3. }
  split; [repeat split; reflexivity|].
  split; [exact Hfw|]. split; [exact Hbw|]. split; [exact Hother|].
  intros original.
  destruct (existsb (String.eqb original) ["FL00"; "FR00"; "BL00"; "BR00"])
    eqn:Eturn.
  { destruct (turn_cases original Eturn) as [->|[->|[->| ->]]];
      split; reflexivity. }
  destruct (Py.startswith "FW" original) eqn:Efw.
  { destruct (prefix_two _ _ _ Efw) as [rest ->].
    change (String "F" (String "W" rest)) with ("FW" ++ rest)%string.
    rewrite Hfw. split.
    - apply Hother; reflexivity.
    - intros _. unfold Coordinator.forwards, Py.startswith_any. cbn.
      rewrite prefix_empty. reflexivity. }
  destruct (Py.startswith "BW" original) eqn:Ebw.
  { destruct (prefix_two _ _ _ Ebw) as [rest ->].
    change (String "B" (String "W" rest)) with ("BW" ++ rest)%string.
    rewrite Hbw. split.
    - apply Hother; reflexivity.
    - intros _. unfold Coordinator.forwards, Py.startswith_any. cbn.
      rewrite prefix_empty. reflexivity. }
  rewrite !(Hother original Eturn Efw Ebw). split; [reflexivity|].
  intros H; exact H.
Qed.

Lemma outdoorsify_idempotent_and_forwardable_witness :
  Coordinator.forwards "FW30" = true /\
  outdoorsify "FW30" = "FS30" /\
  outdoorsify "FL30" = "FL30" /\
  Coordinator.forwards (outdoorsify "FW30") = true.
Proof.
  destruct outdoorsify_idempotent_and_forwardable
    as [_ [Hfw [_ [Hother Hall]]]].
  split; [reflexivity|]. split; [exact (Hfw "30")|].
  split; [exact (Hother "FL30" eq_refl eq_refl eq_refl)|].
  exact (proj2 (Hall "FW30") eq_refl).
Defined.

End OutdoorFacts.

(** ** The image server *)

Module ImageServerFacts.
Import ImageServer.

Lemma split_length : forall sep s,
  List.length (split sep s) = S (count sep s).
Proof.
  intros sep s. induction s as [|c rest IH]; [reflexivity|].
  cbn [split count]. destruct (Ascii.eqb c sep).
  - cbn [List.length]. rewrite IH. reflexivity.
  - destruct (split sep rest) as [|first others]; [discriminate|].
    cbn [List.length] in *. rewrite IH. reflexivity.
Qed.

(** X21: [image_predict] saves the upload before it looks at the name.
    When [file.save] raises, that exception leaves the handler whatever
    the name; when the file is written, the handler fails with
    [IndexError] exactly on file names with fewer than two underscores.
    So [IndexError] is the outcome exactly for a name that could be
    saved and has fewer than two underscores. *)
Theorem image_predict_needs_two_underscores :
  forall predict_image save filename,
  (image_predict predict_image save filename = IndexError <->
   save (path_join uploads filename) = None /\ (count "_" filename < 2)%nat) /\
  (forall e,
     image_predict predict_image save filename = SaveError e <->
     save (path_join uploads filename) = Some e).
Proof.
  intros p save filename. unfold image_predict.
  pose proof (split_length "_" filename) as Hlen.
  destruct (save (path_join uploads filename)) as [x|].
  { split.
    - split; [discriminate | intros [H _]; discriminate H].
    - intros e. split; intros H; inversion H; reflexivity. }
  split.
  - destruct (nth_error (split "_" filename) 1) as [o|] eqn:E1.
    + destruct (nth_error (split "_" filename) 2) as [t|] eqn:E2.
      * split; [discriminate|]. intros [_ H].
        assert (Hn : nth_error (split "_" filename) 2 <> None) by congruence.
        apply nth_error_Some in Hn. lia.
      * apply nth_error_None in E2.
        split; [intros _; split; [reflexivity|lia] | reflexivity].
    + apply nth_error_None in E1.
      split; [intros _; split; [reflexivity|lia] | reflexivity].
  - intros e. split; [|discriminate].
    destruct (nth_error (split "_" filename) 1);
      [destruct (nth_error (split "_" filename) 2)|]; discriminate.
Qed.

Lemma image_predict_needs_two_underscores_witness :
  (count "_" "1700000000_5.jpg" < 2)%nat /\
  image_predict (fun _ signal => signal) (fun _ => None) "1700000000_5.jpg"
  = IndexError /\
  image_predict (fun _ signal => signal)
    (fun path => if String.eqb path (uploads ++ "/") then Some "IsADirectoryError"
                 else None) ""
  = SaveError "IsADirectoryError".
Proof.
  assert (H : (count "_" "1700000000_5.jpg" < 2)%nat) by (cbn; lia).
  split; [exact H|]. split.
  - exact (proj2 (proj1 (image_predict_needs_two_underscores
                           (fun _ signal => signal) (fun _ => None)
                           "1700000000_5.jpg")) (conj eq_refl H)).
  - exact (proj2 (proj2 (image_predict_needs_two_underscores
                           (fun _ signal => signal)
                           (fun path =>
                              if String.eqb path (uploads ++ "/")
                              then Some "IsADirectoryError" else None)
                           "") "IsADirectoryError") eq_refl).
Defined.

Lemma split_before_separator : forall sep a b,
  count sep a = O ->
  split sep (a ++ String sep b) = a :: split sep b.
Proof.
  intros sep a b. induction a as [|c a IH]; intros H.
  - cbn. rewrite Ascii.eqb_refl. reflexivity.
  - cbn [count] in H. cbn [append split].
    destruct (Ascii.eqb c sep); [discriminate|].
    rewrite IH by exact H. reflexivity.
Qed.

Lemma digits_without_underscore : forall d,
  count "_" (NilEmpty.string_of_uint d) = O.
Proof. induction d; cbn; try exact IHd; reflexivity. Qed.

Lemma timestamp_without_underscore : forall now,
  count "_" (NilZero.string_of_int (Z.to_int now)) = O.
Proof.
  intros now. destruct (Z.to_int now) as [d|d]; cbn [NilZero.string_of_int].
  - destruct d; try apply digits_without_underscore. reflexivity.
  - cbn [count]. destruct d; try apply digits_without_underscore.
    reflexivity.
Qed.

(** X22: the server takes the name under which [detect_arrow_image]
    posts its image apart as follows, whatever the clock: once the
    upload is saved, the obstacle id it answers with is the empty string
    and the signal it hands to [predict_image] is "1", because the
    obstacle id "_1_obstacle" of the robot opens with the separator.
    The only other outcome is the exception of [file.save]. *)
Theorem robot_filename_as_parsed : forall predict_image save now,
  image_predict predict_image save (Course.detect_arrow_image_filename now) =
  match save (path_join uploads (Course.detect_arrow_image_filename now)) with
  | Some e => SaveError e
  | None =>
      Result "" (predict_image (Course.detect_arrow_image_filename now) "1")
  end.
Proof.
  intros p save now. unfold image_predict.
  destruct (save (path_join uploads (Course.detect_arrow_image_filename now)));
    [reflexivity|].
  assert (Hsplit : split "_" (Course.detect_arrow_image_filename now) =
                   [NilZero.string_of_int (Z.to_int now); ""; "1"; "obstacle.jpg"]).
  { unfold Course.detect_arrow_image_filename, Course.image_filename.
    change ("_" ++ "_1_obstacle" ++ ".jpg")%string
      with (String "_" "_1_obstacle.jpg").
    rewrite split_before_separator by apply timestamp_without_underscore.
    reflexivity. }
  rewrite Hsplit. reflexivity.
Qed.

Lemma lstrip_first : forall chars s c,
  first_char (lstrip chars s) = Some c -> mem c chars = false.
Proof.
  intros chars s c. induction s as [|d rest IH]; [discriminate|].
  cbn [lstrip]. destruct (mem d chars) eqn:Ed; [exact IH|].
  cbn. intros H. inversion H; subst. exact Ed.
Qed.

Lemma last_char_cons : forall d rest c,
  last_char rest = Some c -> last_char (String d rest) = Some c.
Proof. intros d [|e rest] c H; [discriminate | exact H]. Qed.

Lemma lstrip_last : forall chars s c,
  last_char (lstrip chars s) = Some c -> last_char s = Some c.
Proof.
  intros chars s c. induction s as [|d rest IH]; [discriminate|].
  cbn [lstrip]. destruct (mem d chars); [|intros H; exact H].
  intros H. apply last_char_cons. exact (IH H).
Qed.

Lemma rstrip_last : forall chars s c,
  last_char (rstrip chars s) = Some c -> mem c chars = false.
Proof.
  intros chars s c. induction s as [|d rest IH]; [discriminate|].
  cbn [rstrip]. destruct (rstrip chars rest) as [|k kept].
  - destruct (mem d chars) eqn:Ed; [discriminate|].
    cbn. intros H. inversion H; subst. exact Ed.
  - intros H. apply IH. exact H.
Qed.

(** X23: [strip(".jpg")] takes characters, not the extension: what it
    returns neither begins nor ends with a character of the set, so a
    third field made of the letters j, p, g and dots yields the empty
    signal. *)
Theorem strip_takes_characters : forall chars s c,
  first_char (strip chars s) = Some c \/ last_char (strip chars s) = Some c ->
  mem c chars = false.
Proof.
  intros chars s c [H|H]; unfold strip in H.
  - exact (lstrip_first chars _ c H).
  - apply lstrip_last in H. exact (rstrip_last chars s c H).
Qed.

Lemma strip_takes_characters_witness :
  strip ".jpg" "pig.jpg" = "i" /\ mem "i" ".jpg" = false.
Proof.
  split; [reflexivity|].
  exact (strip_takes_characters ".jpg" "pig.jpg" "i" (or_introl eq_refl)).
Defined.

End ImageServerFacts.

(** ** The operator link *)

Module OperatorFacts.
Import Coordinator Operator.

Lemma android_sender_snoc_free : forall outcomes st,
  android_queue (shared (sys st)) = [] ->
  android_sender outcomes st = st.
Proof.
  induction outcomes as [|ok outcomes IH]; intros st H; [reflexivity|].
  cbn [android_sender fold_left]. unfold android_sender_iter at 2.
  rewrite H. exact (IH st H).
Qed.

Lemma android_sender_iter_front : forall ok st m rest,
  android_queue (shared (sys st)) = m :: rest ->
  android_queue (shared (sys (android_sender_iter ok st))) = rest /\
  sent (android_sender_iter ok st) = sent st ++ (if ok then [m] else []) /\
  android_dropped (android_sender_iter ok st)
    = (android_dropped st || negb ok)%bool /\
  command_queue (shared (sys (android_sender_iter ok st)))
    = command_queue (shared (sys st)) /\
  movement_lock (shared (sys (android_sender_iter ok st)))
    = movement_lock (shared (sys st)) /\
  robot_mode (shared (sys (android_sender_iter ok st)))
    = robot_mode (shared (sys st)).
Proof.
  intros ok [[sh f li di re] snt dr] m rest H. cbn [sys shared] in H.
  unfold android_sender_iter. cbn [sys shared]. rewrite H.
  destruct sh as [md u k aq rq cq pq w lg].
  destruct ok; cbn; rewrite ?app_nil_r, ?orb_false_r, ?orb_true_r;
    repeat split.
Qed.

Lemma delivered_of_nil : forall queue, delivered_of queue [] = [].
Proof. intros [|m rest]; reflexivity. Qed.

(** X24: [android_sender] takes the messages from the queue in order,
    one per pass; those whose send returns are delivered in that order,
    a message whose send raises is neither delivered nor put back, and
    the dropped event is set exactly when a send has raised.  The other
    queues, the lock and the mode are not touched. *)
Theorem android_sender_delivers_or_loses : forall outcomes st,
  let queue := android_queue (shared (sys st)) in
  let st' := android_sender outcomes st in
  android_queue (shared (sys st')) = skipn (List.length outcomes) queue /\
  sent st' = sent st ++ delivered_of queue outcomes /\
  android_dropped st' =
    (android_dropped st
     || existsb negb (firstn (List.length queue) outcomes))%bool /\
  command_queue (shared (sys st')) = command_queue (shared (sys st)) /\
  movement_lock (shared (sys st')) = movement_lock (shared (sys st)) /\
  robot_mode (shared (sys st')) = robot_mode (shared (sys st)).
Proof.
  induction outcomes as [|ok outcomes IH]; intros st; cbn zeta.
  - cbn [android_sender fold_left List.length skipn].
    rewrite delivered_of_nil, firstn_nil, app_nil_r. cbn [existsb].
    rewrite orb_false_r. repeat split.
  - destruct (android_queue (shared (sys st))) as [|m rest] eqn:Eq.
    + rewrite android_sender_snoc_free by exact Eq.
      rewrite Eq. cbn. rewrite app_nil_r, orb_false_r. repeat split.
    + change (android_sender (ok :: outcomes) st)
        with (android_sender outcomes (android_sender_iter ok st)).
      destruct (android_sender_iter_front ok st m rest Eq)
        as [Hq [Hs [Hd [Hc [Hl Hm]]]]].
      specialize (IH (android_sender_iter ok st)). cbn zeta in IH.
      rewrite Hq, Hs, Hd, Hc, Hl, Hm in IH.
      destruct IH as [H1 [H2 [H3 [H4 [H5 H6]]]]].
      rewrite H1, H2, H3, H4, H5, H6.
      cbn [List.length skipn delivered_of firstn existsb].
      split; [reflexivity|]. split.
      * rewrite <- app_assoc. destruct ok; reflexivity.
      * split; [|repeat split]. now rewrite orb_assoc.
Qed.

Lemma android_sender_all_ok : forall queue st,
  android_queue (shared (sys st)) = queue ->
  android_sender (repeat true (List.length queue)) st =
  mk_state (with_shared (with_android_queue [] (shared (sys st))) (sys st))
    (sent st ++ queue) (android_dropped st).
Proof.
  induction queue as [|m rest IH]; intros [[sh f li di re] snt dr] H;
    cbn [sys shared] in H.
  - destruct sh. cbn in H. subst. cbn. rewrite app_nil_r. reflexivity.
  - cbn [List.length repeat].
    change (android_sender (true :: repeat true (List.length rest)) ?x)
      with (android_sender (repeat true (List.length rest))
              (android_sender_iter true x)).
    unfold android_sender_iter. cbn [sys shared]. rewrite H.
    rewrite IH by (destruct sh; reflexivity).
    destruct sh. cbn. rewrite <- app_assoc. reflexivity.
Qed.

(** X25: a message is lost when the link drops under it.  The send of
    the message at the front raises; the supervisor reconnects; the
    sender then gets through the queue.  What reaches the operator is
    the rest of the queue followed by the reconnection notice and the
    mode, without the message that was being sent; the commands, the
    lock and the follower come through the reconnection unchanged, and
    the receiver is running. *)
Theorem dropped_message_is_lost : forall st m rest,
  android_queue (shared (sys st)) = m :: rest ->
  exists st2,
    reconnect_android_pass (android_sender_iter false st) = Some st2 /\
    let st3 := android_sender (repeat true (List.length rest + 2)) st2 in
    sent st3 =
      sent st ++ rest ++
      [mk_msg "info" (Text "You are reconnected!");
       mk_msg "mode"
         (Text (if robot_mode (shared (sys st)) =? 1 then "path" else "manual"))] /\
    android_queue (shared (sys st3)) = [] /\
    android_dropped st3 = false /\
    command_queue (shared (sys st3)) = command_queue (shared (sys st)) /\
    movement_lock (shared (sys st3)) = movement_lock (shared (sys st)) /\
    follower (sys st3) = follower (sys st) /\
    receiver (sys st3) = Running /\
    stm_link (shared (sys st3)) =
      stm_link (shared (sys st)) ++ [TxDirect "ZZ03"; TxDirect "ZZ02"].
Proof.
  intros [[sh f li di re] snt dr] m rest H. cbn [sys shared] in H.
  destruct sh as [md u k aq rq cq pq w lg]. cbn in H. subst aq.
  eexists. split; [cbn; reflexivity|]. cbn zeta.
  replace (List.length rest + 2)%nat
    with (List.length
            ((rest ++ [mk_msg "info" (Text "You are reconnected!")]) ++
             [mk_msg "mode" (Text (if md =? 1 then "path" else "manual"))]))
    by (rewrite !length_app; cbn; lia).
  rewrite android_sender_all_ok by reflexivity.
  cbn. rewrite <- !app_assoc. repeat split.
Qed.

Lemma dropped_message_is_lost_witness :
  exists st2,
    reconnect_android_pass
      (android_sender_iter false
         (mk_state
            (mk_sys (with_android_queue
                       [mk_msg "status" (Text "running");
                        mk_msg "info" (Text "later")] (shared started))
               AtGet Running Running Running) [] false)) = Some st2 /\
    sent (android_sender (repeat true 3) st2) =
      [mk_msg "info" (Text "later");
       mk_msg "info" (Text "You are reconnected!");
       mk_msg "mode" (Text "manual")].
Proof.
  destruct (dropped_message_is_lost
              (mk_state
                 (mk_sys (with_android_queue
                            [mk_msg "status" (Text "running");
                             mk_msg "info" (Text "later")] (shared started))
                    AtGet Running Running Running) [] false)
              (mk_msg "status" (Text "running"))
              [mk_msg "info" (Text "later")] eq_refl)
    as [st2 [H1 [H2 _]]].
  exists st2. split; [exact H1 | exact H2].
Defined.

End OperatorFacts.

(** ** The proximity flags *)

Module ProximityFacts.
Import Proximity.

(** X26: a proximity flag has no memory: after any samples it is 1 or 0
    according to the last level alone, whatever the flag was and
    whatever was read before, so one sample flips it either way; with no
    sample it keeps its value. *)
Theorem ir_flag_follows_last_sample : forall ir_is_clear earlier level,
  set_ir_flag ir_is_clear (earlier ++ [level]) = read level /\
  set_ir_flag ir_is_clear [] = ir_is_clear.
Proof.
  intros flag earlier level. split; [|reflexivity].
  unfold set_ir_flag. rewrite fold_left_app. cbn [fold_left].
  unfold set_ir_flag_iter, read.
  destruct (level =? 0); reflexivity.
Qed.

End ProximityFacts.
